(** * publish-extensions: the build and publish orchestration

    A shallow embedding of [scripts/build-extension.js],
    [scripts/publish-extension.js] and the driver that chains them, with the
    properties of the validation gates, the target matrix, the failure policy
    and the prerequisite setup.

    JavaScript values are modelled by the types the scripts use them at:
    optional fields are [option], strings are byte strings, [process.env] and
    the file system are finite maps.  Asynchronous code is awaited at every
    call in the source, so it is modelled sequentially.  Every call that
    leaves the process (a shell command, the registry, a library that reads
    the disk) is answered by a [World], indexed by the number of such calls
    made so far, so that the same call may be answered differently at
    different moments.

    The file system of the model is the artifact directory: the scripts' own
    [fs] calls act on it, the commands they run are taken not to.  The
    constants of [lib/constants] and the list of [lib/reportStat] are
    parameters. *)

From Stdlib Require Import String Ascii List Bool Arith Lia.
From stdpp Require Import base option list strings pretty gmap fin_maps.

Import ListNotations.
Local Open Scope string_scope.
Local Open Scope list_scope.

(** ** Strings the way the scripts use them *)

Module JsString.

(** Truthiness of a string: only the empty string is falsy. *)
Definition truthy (s : string) : bool :=
  match s with EmptyString => false | String _ _ => true end.

(** Truthiness of an optional string field ([undefined] is falsy). *)
Definition truthy_opt (o : option string) : bool :=
  match o with Some s => truthy s | None => false end.

(** [s.indexOf(needle) !== -1] *)
Definition includes (needle s : string) : bool :=
  match String.index 0 needle s with Some _ => true | None => false end.

(** [s.split(".")]: never empty, one more part than there are dots. *)
Fixpoint split_dot (s : string) : list string :=
  match s with
  | EmptyString => [EmptyString]
  | String c rest =>
      if Ascii.eqb c "."%char then EmptyString :: split_dot rest
      else match split_dot rest with
           | part :: parts => String c part :: parts
           | [] => [String c EmptyString]
           end
  end.

(** [parts.join(", ")] *)
Fixpoint join_comma (parts : list string) : string :=
  match parts with
  | [] => EmptyString
  | [p] => p
  | p :: rest => p +:+ ", " +:+ join_comma rest
  end.

(** A template hole [${x}] filled with an optional string. *)
Definition show (o : option string) : string :=
  match o with Some s => s | None => "undefined" end.

End JsString.

(** ** Thrown values *)

(** What a [throw] can carry.  The scripts throw [Error] objects; the
    runtime throws [TypeError]; a collaborator may reject with anything. *)
Inductive JsValue : Type :=
  | VUndefined
  | VNull
  | VBool (b : bool)
  | VString (s : string)
  | VObject (text : string).   (* an object, with its [String(...)] form *)

Inductive Thrown : Type :=
  | Error (message : string)
  | TypeError (message : string)
  | Rejected (v : JsValue).

Definition value_truthy (v : JsValue) : bool :=
  match v with
  | VUndefined | VNull => false
  | VBool b => b
  | VString s => JsString.truthy s
  | VObject _ => true
  end.

Definition value_string (v : JsValue) : string :=
  match v with
  | VUndefined => "undefined"
  | VNull => "null"
  | VBool true => "true"
  | VBool false => "false"
  | VString s => s
  | VObject text => text
  end.

(** [Boolean(error)] *)
Definition thrown_truthy (e : Thrown) : bool :=
  match e with
  | Error _ | TypeError _ => true
  | Rejected v => value_truthy v
  end.

(** [String(error)] *)
Definition thrown_string (e : Thrown) : string :=
  match e with
  | Error m => "Error: " +:+ m
  | TypeError m => "TypeError: " +:+ m
  | Rejected v => value_string v
  end.

(** The outcome of a call that leaves the process. *)
Inductive Result (A : Type) : Type :=
  | Done (a : A)
  | Failed (e : Thrown).
Arguments Done {A} a.
Arguments Failed {A} e.

(** One entry of [Promise.allSettled]. *)
Inductive Settled (A : Type) : Type :=
  | Fulfilled (value : A)
  | RejectedWith (reason : Thrown).
Arguments Fulfilled {A} value.
Arguments RejectedWith {A} reason.

(** ** Data model *)

(** A timestamp field of the publish context: the JSON text it arrives as,
    or the [Date] that [new Date(...)] makes of it. *)
Inductive DateValue : Type :=
  | Raw (text : option string)
  | Date (value : option string).

Definition new_Date (d : DateValue) : DateValue :=
  match d with Raw t => Date t | Date t => Date t end.

(** The value of one entry of [extension.target]: [true], or an object with
    an [env] field. *)
Inductive TargetData : Type :=
  | TargetTrue
  | TargetObject (env : option (list (string * string))).

(** The extension descriptor of [extensions.json].  [target] lists the
    entries in the order [Object.entries] yields them. *)
Module Extension.
Record t : Type := mk {
  id : string;
  location : option string;
  custom : option (list string);
  prepublish : option string;
  extensionFile : option string;
  pythonVersion : option string;
  target : option (list (string * TargetData));
}.
End Extension.

(** The publish context: one object per extension, shared by every build of
    that extension and updated in place. *)
Module PublishContext.
Record t : Type := mk {
  repo : option string;
  ref : option string;
  file : option string;
  files : option (list (string * string));
  target : option string;
  version : option string;
  msVersion : option string;
  msLastUpdated : DateValue;
  ovsxVersion : option string;
  ovsxLastUpdated : DateValue;
  environmentVariables : option (list (string * string));
}.

Definition set_file (v : option string) (c : t) : t :=
  mk (repo c) (ref c) v (files c) (target c) (version c) (msVersion c)
     (msLastUpdated c) (ovsxVersion c) (ovsxLastUpdated c) (environmentVariables c).
Definition set_target (v : option string) (c : t) : t :=
  mk (repo c) (ref c) (file c) (files c) v (version c) (msVersion c)
     (msLastUpdated c) (ovsxVersion c) (ovsxLastUpdated c) (environmentVariables c).
Definition set_version (v : option string) (c : t) : t :=
  mk (repo c) (ref c) (file c) (files c) (target c) v (msVersion c)
     (msLastUpdated c) (ovsxVersion c) (ovsxLastUpdated c) (environmentVariables c).
Definition set_environmentVariables (v : option (list (string * string))) (c : t) : t :=
  mk (repo c) (ref c) (file c) (files c) (target c) (version c) (msVersion c)
     (msLastUpdated c) (ovsxVersion c) (ovsxLastUpdated c) v.
Definition set_dates (c : t) : t :=
  mk (repo c) (ref c) (file c) (files c) (target c) (version c) (msVersion c)
     (new_Date (msLastUpdated c)) (ovsxVersion c) (new_Date (ovsxLastUpdated c))
     (environmentVariables c).
End PublishContext.

(** [ovsx.PublishOptions], as far as the scripts fill it in. *)
Module Options.
Record t : Type := mk {
  extensionFile : option string;
  targets : option (list (option string));
  yarn : bool;
}.
Definition set_extensionFile (v : option string) (o : t) : t :=
  mk v (targets o) (yarn o).
Definition set_yarn (o : t) : t := mk (extensionFile o) (targets o) true.
End Options.

(** The binary manifest ([package.json] inside the archive). *)
Module Manifest.
Record t : Type := mk {
  version : option string;
  license : option string;
  extensionDependencies : option (list string);
}.
End Manifest.

(** The legacy XML manifest as [xml2js] parses it: child elements are
    arrays, attributes sit under ["$"]. *)
Module Xml.
Record Attrs : Type := mkAttrs {
  Version : option string;
  Publisher : option string;
  Id : option string;
}.
Record IdentityEl : Type := mkIdentity { dollar : option Attrs }.
Record MetadataEl : Type := mkMetadata {
  Identity : option (list IdentityEl);
  License : option (list string);
}.
Record PackageManifestEl : Type := mkPackageManifest {
  Metadata : option (list MetadataEl);
}.
Record t : Type := mk { PackageManifest : option PackageManifestEl }.

Definition undefined_index (key : string) : Thrown :=
  TypeError ("Cannot read properties of undefined (reading '" +:+ key +:+ "')").

(** [x?.PackageManifest?.Metadata[0]] *)
Definition metadata0 (x : option t) : Result (option MetadataEl) :=
  match x with
  | None => Done None
  | Some x =>
      match PackageManifest x with
      | None => Done None
      | Some pm =>
          match Metadata pm with
          | None => Failed (undefined_index "0")
          | Some ms => Done (head ms)
          end
      end
  end.

(** [x?.PackageManifest?.Metadata[0]?.Identity[0]["$"]] *)
Definition identity (x : option t) : Result (option Attrs) :=
  match metadata0 x with
  | Failed e => Failed e
  | Done None => Done None
  | Done (Some m) =>
      match Identity m with
      | None => Failed (undefined_index "0")
      | Some ids =>
          match head ids with
          | None => Failed (undefined_index "$")
          | Some i => Done (dollar i)
          end
      end
  end.

(** [...Identity[0]["$"]?.Version] *)
Definition version (x : option t) : Result (option string) :=
  match identity x with
  | Failed e => Failed e
  | Done None => Done None
  | Done (Some a) => Done (Version a)
  end.

(** [...Identity[0]["$"]?.Publisher] *)
Definition publisher (x : option t) : Result (option string) :=
  match identity x with
  | Failed e => Failed e
  | Done None => Done None
  | Done (Some a) => Done (Publisher a)
  end.

(** [...Identity[0]["$"]?.Id] *)
Definition name (x : option t) : Result (option string) :=
  match identity x with
  | Failed e => Failed e
  | Done None => Done None
  | Done (Some a) => Done (Id a)
  end.

(** [...Identity[0]["$"]?.Publisher.toLowerCase()]: the optional chain
    stops at a missing ["$"], a missing attribute is a [TypeError].
    [lower] is [String.prototype.toLowerCase]. *)
Definition lower_of (lower : string -> string) (field : Attrs -> option string)
    (x : option t) : Result (option string) :=
  match identity x with
  | Failed e => Failed e
  | Done None => Done None
  | Done (Some a) =>
      match field a with
      | None => Failed (undefined_index "toLowerCase")
      | Some s => Done (Some (lower s))
      end
  end.

(** [x?.PackageManifest?.Metadata[0]?.License?.[0]] *)
Definition license (x : option t) : Result (option string) :=
  match metadata0 x with
  | Failed e => Failed e
  | Done None => Done None
  | Done (Some m) =>
      match License m with
      | None => Done None
      | Some l => Done (head l)
      end
  end.
End Xml.

(** What [readVSIXPackage] resolves to. *)
Record VsixPackage : Type := mkVsix {
  xmlManifest : option Xml.t;
  manifest : option Manifest.t;
}.

(** The fields of a source tree's [package.json] that the install fallback
    reads: [scripts.postinstall] and [engines] with its [vscode] entry. *)
Record PackageJson : Type := mkPackageJson {
  postinstall : option string;
  engines : option (option string);
}.

(** An extension as the registry returns it. *)
Inductive PublishedExtension : Type := published (name : string).

(** Console output.  Templates that embed [JSON.stringify] of the extension
    and the context keep both as data. *)
Inductive Level : Type := LDebug | LLog | LInfo | LError.

Inductive Message : Type :=
  | Text (s : string)
  | ProcessingExtension (ext : Extension.t) (ctx : PublishContext.t)
  | CouldNotProcess (ext : Extension.t) (ctx : PublishContext.t)
  | Value (e : Thrown).

(** Requests sent to the registry by the publish script. *)
Inductive Request : Type :=
  | CreateNamespace (name registryUrl : string)
  | Publish (extensionFile registryUrl : string).

(** Entries of the file system under the artifact directory. *)
Inductive Node : Type := File | Directory.

(** The process: environment, exit code, console, the part of the file
    system that the scripts' own [fs] calls touch, the number of calls made
    to the outside so far, the publish context object and the requests the
    registry has received. *)
Record Machine : Type := mkMachine {
  env : gmap string string;
  exitCode : option nat;
  console : list (Level * Message);
  fs : gmap string Node;
  clock : nat;
  context : PublishContext.t;
  requests : list Request;
}.

Definition with_env (f : gmap string string → gmap string string) (m : Machine) : Machine :=
  mkMachine (f (env m)) (exitCode m) (console m) (fs m) (clock m) (context m) (requests m).
Definition with_exitCode (c : nat) (m : Machine) : Machine :=
  mkMachine (env m) (Some c) (console m) (fs m) (clock m) (context m) (requests m).
Definition with_console (line : Level * Message) (m : Machine) : Machine :=
  mkMachine (env m) (exitCode m) (console m ++ [line]) (fs m) (clock m) (context m) (requests m).
Definition with_fs (f : gmap string Node → gmap string Node) (m : Machine) : Machine :=
  mkMachine (env m) (exitCode m) (console m) (f (fs m)) (clock m) (context m) (requests m).
Definition tick (m : Machine) : Machine :=
  mkMachine (env m) (exitCode m) (console m) (fs m) (S (clock m)) (context m) (requests m).
Definition with_context (f : PublishContext.t → PublishContext.t) (m : Machine) : Machine :=
  mkMachine (env m) (exitCode m) (console m) (fs m) (clock m) (f (context m)) (requests m).
Definition with_request (r : Request) (m : Machine) : Machine :=
  mkMachine (env m) (exitCode m) (console m) (fs m) (clock m) (context m) (requests m ++ [r]).

(** The collaborators: shell, libraries, registry and runtime.  Each answer
    may depend on the arguments and on the moment of the call; [path.join],
    [semver] and [String.prototype.toLowerCase] are functions of their
    arguments.  The case mapping of the runtime covers all of Unicode: the
    model takes it as it is given and fixes none. *)
Record World : Type := mkWorld {
  exec : nat → string → option string → Result unit;
  resolveExtension : nat → Extension.t → option (string * DateValue) → Result unit;
  findUp : nat → string → string → Result (option string);
  fg : nat → string → string → Result (list string);
  access : nat → string → bool;
  readPackageJson : nat → string → Result PackageJson;
  writeFile : nat → string → Result unit;
  createVSIX : nat → string → option string → bool → option string → Result unit;
  readVSIXPackage : nat → string → Result VsixPackage;
  isLicenseOk : nat → string → Manifest.t → Result bool;
  readCatalogue : nat → Result (list string);
  getExtension : nat → string → Settled (option PublishedExtension);
  copyFile : nat → string → string → Result unit;
  readXmlManifest : nat → string → Result (option Xml.t);
  createNamespace : nat → string → string → Result unit;
  publish : nat → string → string → Result unit;
  path_join : list string → string;
  semver_gt : string → string → Result bool;
  semver_eq : string → string → Result bool;
  toLowerCase : string → string;
}.

(** [lib/constants] and the list exported by [lib/reportStat]. *)
Record Constants : Type := mkConstants {
  artifactDirectory : string;
  registryHost : string;
  defaultPythonVersion : string;
  cannotPublish : list string;
}.

(** ** Control flow

    A statement completes normally, by [return] or by [throw].  [Js R A] is
    a piece of a function whose [return] carries an [R] and which, completing
    normally, yields an [A]. *)

Inductive Completion (R A : Type) : Type :=
  | Normal (a : A)
  | Return (r : R)
  | Throw (e : Thrown).
Arguments Normal {R A} a.
Arguments Return {R A} r.
Arguments Throw {R A} e.

Definition Js (R A : Type) : Type := Machine → Completion R A * Machine.

#[global] Instance Js_ret {R} : MRet (Js R) := λ A a m, (Normal a, m).

#[global] Instance Js_bind {R} : MBind (Js R) := λ A B f c m,
  match c m with
  | (Normal a, m') => f a m'
  | (Return r, m') => (Return r, m')
  | (Throw e, m') => (Throw e, m')
  end.

#[global] Instance Js_fmap {R} : FMap (Js R) := λ A B f c,
  c ≫= λ a, mret (f a).

Definition throw {R A} (e : Thrown) : Js R A := λ m, (Throw e, m).
Definition return_ {R A} (r : R) : Js R A := λ m, (Return r, m).
Definition read {R A} (f : Machine → A) : Js R A := λ m, (Normal (f m), m).
Definition update {R} (f : Machine → Machine) : Js R unit := λ m, (Normal tt, f m).

(** A pure expression that may throw (an unguarded property access). *)
Definition lift {R A} (r : Result A) : Js R A :=
  match r with Done a => mret a | Failed e => throw e end.

(** An awaited call to a collaborator: answered by the world at the current
    clock, which then advances. *)
Definition outside {R A} (f : nat → Result A) : Js R A := λ m,
  match f (clock m) with
  | Done a => (Normal a, tick m)
  | Failed e => (Throw e, tick m)
  end.

(** [await Promise.allSettled([p])]: never throws. *)
Definition settled {R A} (f : nat → Settled A) : Js R (Settled A) := λ m,
  (Normal (f (clock m)), tick m).

(** [try { body } catch (e) { handler e }] *)
Definition try_catch {R A} (body : Js R A) (handler : Thrown → Js R A) : Js R A := λ m,
  match body m with
  | (Throw e, m') => handler e m'
  | other => other
  end.

(** [try { body } finally { cleanup }]: the cleanup always runs; when it
    throws, its exception replaces the completion of the body. *)
Definition try_finally {R A} (body : Js R A) (cleanup : Js R unit) : Js R A := λ m,
  let '(c, m1) := body m in
  match cleanup m1 with
  | (Normal _, m2) => (c, m2)
  | (Return r, m2) => (Return r, m2)
  | (Throw e, m2) => (Throw e, m2)
  end.

(** The boundary of a function whose body may [return] early: falling off
    the end returns [undefined]. *)
Definition function {R B} (body : Js (option B) unit) : Js R (option B) := λ m,
  match body m with
  | (Normal _, m') => (Normal None, m')
  | (Return r, m') => (Normal r, m')
  | (Throw e, m') => (Throw e, m')
  end.

(** [for (const x of xs) { body x }] *)
Fixpoint for_of {R A} (xs : list A) (body : A → Js R unit) : Js R unit :=
  match xs with
  | [] => mret tt
  | x :: rest => body x;; for_of rest body
  end.

Definition console_ {R} (level : Level) (msg : Message) : Js R unit :=
  update (with_console (level, msg)).

(** [process.env[key] = value]: the environment stores strings, so an
    [undefined] value is stored as the text ["undefined"]. *)
Definition setenv {R} (key : string) (value : option string) : Js R unit :=
  update (with_env (insert key (JsString.show value))).

Definition getenv {R} (key : string) : Js R (option string) :=
  read (λ m, env m !! key).

(** [process.env[key] ??= value] *)
Definition default_env (key value : string) (m : Machine) : Machine :=
  match env m !! key with
  | Some _ => m
  | None => with_env (insert key value) m
  end.

(** *** The [fs] calls on the artifact directory

    Paths are the keys of the map; a file of a directory has the
    directory's path as a prefix.  None of these calls expands a glob. *)

Definition existsSync {R} (path : string) : Js R bool :=
  read (λ m, match fs m !! path with Some _ => true | None => false end).

(** [fs.rmSync(path)] with no options: a missing path is an error, and so
    is a directory. *)
Definition rmSync {R} (path : string) : Js R unit := λ m,
  match fs m !! path with
  | None => (Throw (Error ("ENOENT: no such file or directory, rm '" +:+ path +:+ "'")), m)
  | Some Directory => (Throw (Error ("Path is a directory: rm returned EISDIR (is a directory) " +:+ path)), m)
  | Some File => (Normal tt, with_fs (delete path) m)
  end.

Definition mkdirSync {R} (path : string) : Js R unit := λ m,
  match fs m !! path with
  | Some _ => (Throw (Error ("EEXIST: file already exists, mkdir '" +:+ path +:+ "'")), m)
  | None => (Normal tt, with_fs (insert path Directory) m)
  end.

(** ** [scripts/build-extension.js] *)

Definition vscodeBuiltinExtensionsNamespace : string := "vscode".

Definition isBuiltIn (id : string) : bool :=
  match head (JsString.split_dot id) with
  | Some namespace => String.eqb namespace vscodeBuiltinExtensionsNamespace
  | None => false
  end.

Definition alreadyPublished : string := "is already published.".

(** The test of the [catch] clause:
    [error && String(error).indexOf("is already published.") !== -1]. *)
Definition benign (e : Thrown) : bool :=
  thrown_truthy e && JsString.includes alreadyPublished (thrown_string e).

Definition outOfDate (ovsxVersion version : string) : string :=
  "extensions.json is out-of-date: Open VSX version " +:+ ovsxVersion
  +:+ " is already greater than specified version " +:+ version.

Definition skipped (version : string) : string :=
  "[SKIPPED] Requested version " +:+ version +:+ " is already published on Open VSX".

Definition licenseMissing (id : string) : string := id +:+ ": license is missing".

Definition versionNotResolved (id : string) : string := id +:+ ": version is not resolved".

Definition unpublishable (id : string) (deps : list string) : string :=
  id +:+ " is dependent on " +:+ JsString.join_comma deps +:+ ", which "
  +:+ (if (length deps =? 1)%nat then "has" else "have")
  +:+ " to be published to Open VSX first by "
  +:+ (if (length deps =? 1)%nat then "its author because of its license"
      else "their authors because of their licenses")
  +:+ ".".

Definition notOnOpenVsx (id : string) (deps : list string) : string :=
  id +:+ " is dependent on " +:+ JsString.join_comma deps +:+ ", which "
  +:+ (if (length deps =? 1)%nat then "has" else "have")
  +:+ " to be published to Open VSX first".

Definition noVsixFound (id target : string) : string :=
  "After running the custom commands, no .vsix file was found for " +:+ id +:+ "@" +:+ target.

Definition legacyPostinstall : string := "node ./node_modules/vscode/bin/install".

Section BuildExtension.
Context (W : World) (K : Constants).

(** Lines 37-53. *)
Definition ensureBuildPrerequisites {R} : Js R unit :=
  outside (λ t, exec W t "yarn config set script-shell /bin/bash" None);;
  outside (λ t, exec W t "git config --global advice.detachedHead false" None);;
  present ← existsSync (artifactDirectory K);
  if (present : bool)
  then try_catch (rmSync (artifactDirectory K +:+ "*")) (λ _, mret tt)
  else mkdirSync (artifactDirectory K).

(** Lines 66-69: [packagePath]. *)
Definition packagePath (ext : Extension.t) (ctx : PublishContext.t) : option string :=
  match PublishContext.repo ctx, Extension.location ext with
  | Some repo, Some location =>
      if JsString.truthy repo && JsString.truthy location
      then Some (path_join W [repo; location])
      else Some repo
  | other, _ => other
  end.

(** [path.join(publishContext.repo, extension.location ?? ".")] *)
Definition sourceDirectory (ext : Extension.t) (repo : string) : string :=
  path_join W [repo; default "." (Extension.location ext)].

(** Lines 95-114: the preferred Node and Python versions, best effort. *)
Definition pinRuntimes {R} (ext : Extension.t) (repo : string) : Js R unit :=
  try_catch
    (nvmFile ← outside (λ t, findUp W t ".nvmrc" (sourceDirectory ext repo));
     (if JsString.truthy_opt nvmFile
      then outside (λ t, exec W t "source ~/.nvm/nvm.sh && nvm install"
                           (Some (sourceDirectory ext repo)))
      else mret tt);;
     match Extension.pythonVersion ext with
     | Some python =>
         if JsString.truthy python
         then console_ LDebug (Text "Installing appropriate Python version...");;
              outside (λ t, exec W t ("pyenv install -s " +:+ python +:+ " && pyenv global " +:+ python)
                              (Some (sourceDirectory ext repo)))
         else mret tt
     | None => mret tt
     end)
    (λ _, mret tt).

(** Lines 116-154: the custom build commands. *)
Definition customBuild {R} (ext : Extension.t) (commands : list string)
    (repo : string) (target : option string) : Js R Options.t :=
  try_catch
    (for_of commands (λ command, outside (λ t, exec W t command (Some repo)));;
     let options :=
       Options.mk
         (Some (path_join W [repo; default "." (Extension.location ext);
                             default "extension.vsix" (Extension.extensionFile ext)]))
         None false in
     match target with
     | Some tgt =>
         if JsString.truthy tgt
         then
           console_ LInfo (Text ("Looking for a " +:+ tgt +:+ " vsix package in " +:+ repo +:+ "..."));;
           vsixFiles ← outside (λ t, fg W t (path_join W ["*-" +:+ tgt +:+ "-*.vsix"]) repo);
           match vsixFiles with
           | first :: _ =>
               console_ LInfo (Text ("Found " +:+ pretty (length vsixFiles) +:+ " " +:+ tgt
                                     +:+ " vsix package(s) in " +:+ repo +:+ ": "
                                     +:+ JsString.join_comma vsixFiles));;
               mret (Options.mk (Some (path_join W [repo; first])) (Some [target]) false)
           | [] => throw (Error (noVsixFound (Extension.id ext) tgt))
           end
         else mret options
     | None => mret options
     end)
    (λ e, throw e).

(** Lines 159-178: install the dependencies; on failure migrate a legacy
    [vscode] post-install hook and try once more. *)
Definition install {R} (yarn : bool) (cwd : string) : Js R unit :=
  let command := (if yarn then "yarn" else "npm") +:+ " install" in
  try_catch
    (outside (λ t, exec W t command (Some cwd)))
    (λ e,
      pck ← outside (λ t, readPackageJson W t (path_join W [cwd; "package.json"]));
      match postinstall pck with
      | Some hook =>
          if String.eqb hook legacyPostinstall
          then
            match engines pck with
            | None => throw (Xml.undefined_index "vscode")
            | Some _ =>
                outside (λ t, writeFile W t (path_join W [cwd; "package.json"]));;
                outside (λ t, exec W t command (Some cwd))
            end
          else throw e
      | None => throw e
      end).

(** Lines 155-206: the standard build. *)
Definition standardBuild {R} (ext : Extension.t) (repo : string)
    (pkgPath : string) (target : option string) : Js R Options.t :=
  yarn ← outside (λ t, Done (access W t (path_join W [repo; "yarn.lock"])));
  install yarn pkgPath;;
  (if JsString.truthy_opt (Extension.prepublish ext)
   then outside (λ t, exec W t (default EmptyString (Extension.prepublish ext)) (Some repo))
   else mret tt);;
  options ←
    (if JsString.truthy_opt (Extension.extensionFile ext)
     then mret (Options.mk (Some (path_join W [repo; default EmptyString (Extension.extensionFile ext)]))
                           None false)
     else
       let file := path_join W [repo; "extension.vsix"] in
       vsceTests ← getenv "VSCE_TESTS";
       setenv "VSCE_TESTS" (Some "1");;
       try_finally
         (outside (λ t, createVSIX W t pkgPath (Some file) yarn target))
         (setenv "VSCE_TESTS" vsceTests);;
       mret (Options.mk (Some file) None yarn));
  console_ LLog (Text (Extension.id ext +:+ ": prepared from " +:+ repo));;
  mret options.

(** Lines 75-207: build from a repository and a ref. *)
Definition buildFromSource {R} (ext : Extension.t) (repo : string)
    (ref : string) : Js R Options.t :=
  ctx ← read context;
  console_ LLog (Text (Extension.id ext +:+ ": preparing from " +:+ repo +:+ "..."));;
  outside (λ t, exec W t "rm -rf /tmp/repository /tmp/download" None);;
  outside (λ t, resolveExtension W t ext
                  (if JsString.truthy_opt (PublishContext.msVersion ctx)
                   then Some (default EmptyString (PublishContext.msVersion ctx),
                              PublishContext.msLastUpdated ctx)
                   else None));;
  let parts := JsString.split_dot (Extension.id ext) in
  setenv "EXTENSION_ID" (Some (Extension.id ext));;
  setenv "EXTENSION_PUBLISHER" (parts !! 0%nat);;
  setenv "EXTENSION_NAME" (parts !! 1%nat);;
  setenv "VERSION" (PublishContext.version ctx);;
  setenv "MS_VERSION" (PublishContext.msVersion ctx);;
  setenv "OVSX_VERSION" (PublishContext.ovsxVersion ctx);;
  outside (λ t, exec W t ("git checkout " +:+ ref) (Some repo));;
  pinRuntimes ext repo;;
  match Extension.custom ext with
  | Some commands => customBuild ext commands repo (PublishContext.target ctx)
  | None => standardBuild ext repo (default repo (packagePath ext ctx))
              (PublishContext.target ctx)
  end.

(** Lines 72-207: [options] is left [undefined] when the context has
    neither a file nor a repository with a ref. *)
Definition acquire {R} (ext : Extension.t) : Js R (option Options.t) :=
  ctx ← read context;
  if JsString.truthy_opt (PublishContext.file ctx)
  then mret (Some (Options.mk (PublishContext.file ctx)
                              (Some [PublishContext.target ctx]) false))
  else
    match PublishContext.repo ctx, PublishContext.ref ctx with
    | Some repo, Some ref =>
        if JsString.truthy repo && JsString.truthy ref
        then Some <$> buildFromSource ext repo ref
        else mret None
    | _, _ => mret None
    end.

(** Line 210: open the archive.  Reading [extensionFile] of an
    [undefined] options object and destructuring [undefined] are
    [TypeError]s; destructuring the empty string yields two [undefined]s. *)
Definition readPackage {R} (options : option Options.t) : Js R VsixPackage :=
  match options with
  | None => throw (Xml.undefined_index "extensionFile")
  | Some o =>
      match Options.extensionFile o with
      | None => throw (TypeError "Cannot destructure property 'xmlManifest' of undefined")
      | Some file =>
          if JsString.truthy file
          then outside (λ t, readVSIXPackage W t file)
          else mret (mkVsix None None)
      end
  end.

(** Lines 211-215: the version of the archive, from the XML manifest or
    else from the binary one; it is stored in the context. *)
Definition resolveVersion {R} (ext : Extension.t) (pkg : VsixPackage) : Js R string :=
  fromXml ← lift (Xml.version (xmlManifest pkg));
  let version :=
    if JsString.truthy_opt fromXml then fromXml
    else manifest pkg ≫= Manifest.version in
  update (with_context (PublishContext.set_version version));;
  match version with
  | Some v =>
      if JsString.truthy v then mret v
      else throw (Error (versionNotResolved (Extension.id ext)))
  | None => throw (Error (versionNotResolved (Extension.id ext)))
  end.

(** Lines 217-227: the version-freshness gate. *)
Definition versionGate {A} (version : string) : Js (option A) unit :=
  ctx ← read context;
  match PublishContext.ovsxVersion ctx with
  | Some ovsxVersion =>
      if JsString.truthy ovsxVersion
      then
        newer ← lift (semver_gt W ovsxVersion version);
        if (newer : bool)
        then throw (Error (outOfDate ovsxVersion version))
        else
          same ← lift (semver_eq W ovsxVersion version);
          force ← getenv "FORCE";
          if (same : bool) && negb (bool_decide (force = Some "true"))
          then console_ LLog (Text (skipped version));; return_ None
          else mret tt
      else mret tt
  | None => mret tt
  end.

(** Lines 230-236: the license gate. *)
Definition licenseGate {R} (ext : Extension.t) (pkgPath : option string)
    (pkg : VsixPackage) : Js R unit :=
  fromXml ← lift (Xml.license (xmlManifest pkg));
  if JsString.truthy_opt fromXml then mret tt
  else
    match manifest pkg with
    | None => throw (Xml.undefined_index "license")
    | Some mf =>
        if JsString.truthy_opt (Manifest.license mf) then mret tt
        else
          confirmed ←
            match pkgPath with
            | Some path =>
                if JsString.truthy path then outside (λ t, isLicenseOk W t path mf)
                else mret false
            | None => mret false
            end;
          if (confirmed : bool) then mret tt
          else throw (Error (licenseMissing (Extension.id ext)))
    end.

(** Line 253: [process.env.SKIP_PUBLISH &&
    Object.keys(extensions).find((key) => key === dependency)]. *)
Definition shortcut (skipPublish : option string) (extensions : list string)
    (dependency : string) : bool :=
  JsString.truthy_opt skipPublish
  && JsString.truthy_opt (find (λ key, String.eqb key dependency) extensions).

(** Lines 252-262: the dependencies that the registry answers for with an
    empty value, in order. *)
Fixpoint dependenciesNotOnOpenVsx {R} (extensions : list string)
    (dependencies : list string) (found : list string) : Js R (list string) :=
  match dependencies with
  | [] => mret found
  | dependency :: rest =>
      skipPublish ← getenv "SKIP_PUBLISH";
      if shortcut skipPublish extensions dependency
      then dependenciesNotOnOpenVsx extensions rest found
      else
        ovsxExtension ← settled (λ t, getExtension W t dependency);
        match ovsxExtension with
        | Fulfilled None => dependenciesNotOnOpenVsx extensions rest (found ++ [dependency])
        | Fulfilled (Some _) | RejectedWith _ =>
            dependenciesNotOnOpenVsx extensions rest found
        end
  end.

(** Lines 238-268: the dependency gate. *)
Definition dependencyGate {R} (ext : Extension.t) (pkg : VsixPackage) : Js R unit :=
  match manifest pkg with
  | None => throw (TypeError "Cannot destructure property 'extensionDependencies' of undefined")
  | Some mf =>
      match Manifest.extensionDependencies mf with
      | None => mret tt
      | Some extensionDependencies =>
          let notBuiltin := filter (λ id, isBuiltIn id = false) extensionDependencies in
          let unpublishableDependencies :=
            filter (λ dependency, dependency ∈ cannotPublish K) notBuiltin in
          if (0 <? length unpublishableDependencies)%nat
          then throw (Error (unpublishable (Extension.id ext) unpublishableDependencies))
          else
            extensions ← outside (λ t, readCatalogue W t);
            missing ← dependenciesNotOnOpenVsx extensions notBuiltin [];
            if (0 <? length missing)%nat
            then throw (Error (notOnOpenVsx (Extension.id ext) missing))
            else mret tt
      end
  end.

(** Lines 270-278: copy the archive into the artifact directory.  The
    archive lies outside the artifact directory, so the world decides
    whether the copy succeeds; when it does the new file is there. *)
Definition finalize {R} (ext : Extension.t) (options : Options.t) : Js R Options.t :=
  match Options.extensionFile options with
  | Some file =>
      if JsString.truthy file
      then
        ctx ← read context;
        console_ LInfo (Text ("Copying file to " +:+ artifactDirectory K));;
        let suffix :=
          match PublishContext.target ctx with
          | Some tgt => if JsString.truthy tgt then "@" +:+ tgt else EmptyString
          | None => EmptyString
          end in
        let outputPath :=
          path_join W [artifactDirectory K; Extension.id ext +:+ suffix +:+ ".vsix"] in
        outside (λ t, copyFile W t file outputPath);;
        update (with_fs (insert outputPath File));;
        mret (Options.set_extensionFile (Some outputPath) options)
      else mret options
  | None => mret options
  end.

(** Lines 229-280: the gates after the version-freshness gate, and the
    result. *)
Definition laterGates (ext : Extension.t) (pkgPath : option string)
    (options : option Options.t) (pkg : VsixPackage) : Js (option Options.t) unit :=
  licenseGate ext pkgPath pkg;;
  dependencyGate ext pkg;;
  match options with
  | Some o => final ← finalize ext o; return_ (Some final)
  | None => throw (Xml.undefined_index "extensionFile")
  end.

(** Lines 216-280: everything after the version is resolved. *)
Definition gates (ext : Extension.t) (pkgPath : option string)
    (options : option Options.t) (pkg : VsixPackage) (version : string)
    : Js (option Options.t) unit :=
  versionGate version;;
  laterGates ext pkgPath options pkg.

(** Lines 64-215: everything up to the resolved version. *)
Definition prepare {R} (ext : Extension.t)
    : Js R (option string * option Options.t * VsixPackage * string) :=
  ensureBuildPrerequisites;;
  ctx ← read context;
  let pkgPath := packagePath ext ctx in
  options ← acquire ext;
  pkg ← readPackage options;
  version ← resolveVersion ext pkg;
  mret (pkgPath, options, pkg, version).

(** Lines 64-280: the body of the [try]. *)
Definition tryBody (ext : Extension.t) : Js (option Options.t) unit :=
  '(pkgPath, options, pkg, version) ← prepare ext;
  gates ext pkgPath options pkg version.

(** Lines 281-291: the [catch] clause. *)
Definition catchClause {R} (ext : Extension.t) (error : Thrown) : Js R unit :=
  if benign error
  then
    console_ LLog (Text "Could not process extension -- assuming that it already exists");;
    console_ LLog (Value error)
  else
    ctx ← read context;
    console_ LError (CouldNotProcess ext ctx);;
    console_ LError (Value error);;
    update (with_exitCode 1).

(** Lines 292-297: the [finally] clause. *)
Definition cleanUp {R} (ext : Extension.t) : Js R unit :=
  if JsString.truthy_opt (Extension.pythonVersion ext)
  then outside (λ t, exec W t ("pyenv global " +:+ defaultPythonVersion K) None)
  else mret tt.

(** Lines 61-62: the two lines printed when a build starts. *)
Definition announce (ext : Extension.t) (m : Machine) : Machine :=
  let ctx := context m in
  with_console (LLog, ProcessingExtension ext ctx)
    (with_console
       (LDebug,
        Text ("Building " +:+ Extension.id ext +:+ " for "
              +:+ (if JsString.truthy_opt (PublishContext.target ctx)
                   then default EmptyString (PublishContext.target ctx) else "universal")
              +:+ "..."))
       m).

(** Lines 60-298. *)
Definition buildVersion {R} (ext : Extension.t) : Js R (option Options.t) :=
  update (announce ext);;
  function (try_finally (try_catch (tryBody ext) (catchClause ext)) (cleanUp ext)).

(** Lines 317-319: [if (options) allOptions.push(options)]. *)
Definition push (options : option Options.t) (allOptions : list Options.t) : list Options.t :=
  match options with
  | Some o => allOptions ++ [o]
  | None => allOptions
  end.

(** Lines 312-323: one build per downloaded release asset whose target
    the descriptor admits. *)
Fixpoint buildFiles {R} (ext : Extension.t) (entries : list (string * string))
    (allOptions : list Options.t) : Js R (list Options.t) :=
  match entries with
  | [] => mret allOptions
  | (target, file) :: rest =>
      let included :=
        match Extension.target ext with
        | None => true
        | Some targets => bool_decide (target ∈ targets.*1)
        end in
      if included
      then
        update (with_context (PublishContext.set_file (Some file)));;
        update (with_context (PublishContext.set_target (Some target)));;
        options ← buildVersion ext;
        buildFiles ext rest (push options allOptions)
      else
        console_ LLog (Text (Extension.id ext +:+ ": skipping, since target " +:+ target
                             +:+ " is not included"));;
        buildFiles ext rest allOptions
  end.

(** Lines 326-335: one build per declared target. *)
Fixpoint buildTargets {R} (ext : Extension.t) (entries : list (string * TargetData))
    (allOptions : list Options.t) : Js R (list Options.t) :=
  match entries with
  | [] => mret allOptions
  | (target, targetData) :: rest =>
      update (with_context (PublishContext.set_target (Some target)));;
      match targetData with
      | TargetTrue => mret tt
      | TargetObject env =>
          update (with_context (PublishContext.set_environmentVariables env))
      end;;
      options ← buildVersion ext;
      buildTargets ext rest (push options allOptions)
  end.

(** Lines 344-349: the archive paths of the builds that produced one. *)
Definition extensionFiles (allOptions : list Options.t) : list string :=
  omap (λ o, match Options.extensionFile o with
             | Some file => if JsString.truthy file then Some file else None
             | None => None
             end) allOptions.

(** Lines 305-352: [module.exports] of [build-extension.js]. *)
Definition buildExtension {R} (ext : Extension.t) : Js R (list string) :=
  update (with_context PublishContext.set_dates);;
  ctx ← read context;
  allOptions ←
    match PublishContext.files ctx with
    | Some files => buildFiles ext files []
    | None =>
        match Extension.target ext with
        | Some targets => buildTargets ext targets []
        | None => options ← buildVersion ext; mret (push options [])
        end
    end;
  mret (extensionFiles allOptions).
End BuildExtension.

(** ** [scripts/publish-extension.js] *)

Definition noToken : string :=
  "The OVSX_PAT environment variable was not provided, which means the extension cannot be published. Provide it or set SKIP_PUBLISH to true to avoid seeing this.".

Definition namespaceMismatch (expected : string) (found : option string) : string :=
  "Namespace name mismatch. Expected " +:+ expected +:+ ", but found " +:+ JsString.show found.

Definition extensionMismatch (expected : option string) (found : option string) : string :=
  "Extension name mismatch. Expected " +:+ JsString.show expected +:+ ", but found "
  +:+ JsString.show found.

Section PublishExtension.
Context (W : World) (K : Constants).

Definition registryUrl : string := "https://" +:+ registryHost K.

(** Lines 108-119: create the namespace if needed, then publish. *)
Definition publishFile {R} (extensionId namespace : string) (extension : option string)
    (extensionFile : string) : Js R unit :=
  try_catch
    (outside (λ t, createNamespace W t namespace registryUrl);;
     update (with_request (CreateNamespace namespace registryUrl)))
    (λ error,
      console_ LLog (Text "Creating Open VSX namespace failed -- assuming that it already exists");;
      console_ LLog (Value error));;
  console_ LInfo (Text ("Publishing extension " +:+ extensionId));;
  outside (λ t, publish W t extensionFile registryUrl);;
  update (with_request (Publish extensionFile registryUrl));;
  console_ LLog (Text ("Published " +:+ extensionFile +:+ " to " +:+ registryUrl
                       +:+ "/extension/" +:+ namespace +:+ "/" +:+ JsString.show extension)).

(** Lines 91-119: the body of the loop over the archives. *)
Definition publishOne {R} (extensionId namespace : string) (extension : option string)
    (extensionFile : string) : Js R unit :=
  xml ← outside (λ t, readXmlManifest W t extensionFile);
  publisher ← lift (Xml.lower_of (toLowerCase W) Xml.Publisher xml);
  if negb (bool_decide (publisher = Some (toLowerCase W namespace)))
  then
    found ← lift (Xml.publisher xml);
    console_ LError (Text (namespaceMismatch namespace found))
  else
    name ← lift (Xml.lower_of (toLowerCase W) Xml.Id xml);
    expected ← match extension with
               | Some e => mret (toLowerCase W e)
               | None => throw (Xml.undefined_index "toLowerCase")
               end;
    if negb (bool_decide (name = Some expected))
    then
      found ← lift (Xml.name xml);
      console_ LError (Text (extensionMismatch extension found))
    else publishFile extensionId namespace extension extensionFile.

(** Lines 80-121: [module.exports] of [publish-extension.js]. *)
Definition publishExtension {R} (extensionId : string) (extensionFiles : list string)
    : Js R unit :=
  let parts := JsString.split_dot extensionId in
  let namespace := default EmptyString (parts !! 0%nat) in
  let extension := parts !! 1%nat in
  console_ LLog (Text ("Attempting to publish " +:+ extensionId +:+ " to Open VSX"));;
  token ← getenv "OVSX_PAT";
  if negb (JsString.truthy_opt token)
  then throw (Error noToken)
  else for_of extensionFiles (publishOne extensionId namespace extension).
End PublishExtension.

(** ** The driver *)

Section Driver.
Context (W : World) (K : Constants).

(** Lines 138-139 of the driver: [process.env.SKIP_PUBLISH ??= "true"] and
    [process.env.FORCE ??= "true"]. *)
Definition defaults (m : Machine) : Machine :=
  default_env "FORCE" "true" (default_env "SKIP_PUBLISH" "true" m).

(** Lines 141-144: the callback handed to the catalogue iteration. *)
Definition processExtension {R} (ext : Extension.t) : Js R unit :=
  extensionFiles ← buildExtension W K ext;
  publishExtension W K (Extension.id ext) extensionFiles.

(** Modelled from the spec: [scripts/publish-extensions.js] is not part of
    the sources.  Section 4.4: the driver iterates the catalogue; for each
    extension it builds all targets and then runs the publish gate; a
    failure processing one extension does not prevent processing the
    following ones.  Each extension comes with its own publish context. *)
Fixpoint publishExtensions {R} (catalogue : list (Extension.t * PublishContext.t))
    : Js R unit :=
  match catalogue with
  | [] => mret tt
  | (ext, ctx) :: rest =>
      update (with_context (λ _, ctx));;
      try_catch (processExtension ext) (λ _, mret tt);;
      publishExtensions rest
  end.

(** Lines 137-145: the entry point. *)
Definition main {R} (catalogue : list (Extension.t * PublishContext.t)) : Js R unit :=
  update defaults;;
  publishExtensions catalogue.
End Driver.

(** ** Observations on a machine *)

(** The two switches of the driver. *)
Definition switches (m : Machine) : option string * option string :=
  (env m !! "FORCE", env m !! "SKIP_PUBLISH").

(** The version that the context records for the registry. *)
Definition registryVersion (m : Machine) : option string :=
  PublishContext.ovsxVersion (context m).

(** The builds attempted so far, by target: every call of [buildVersion]
    prints one [ProcessingExtension] line with the context it was given. *)
Definition attempted (line : Level * Message) : option (option string) :=
  match line with
  | (_, ProcessingExtension _ ctx) => Some (PublishContext.target ctx)
  | _ => None
  end.

Definition attempts (m : Machine) : list (option string) :=
  omap attempted (console m).

(** ** Computations that leave an observation alone *)

Definition keeps {O : Type} (obs : Machine → O) {R A} (c : Js R A) : Prop :=
  ∀ m, obs (c m).2 = obs m.

(** An observation that neither the clock nor the file system changes. *)
Record Quiet {O : Type} (obs : Machine → O) : Prop := {
  quiet_tick : ∀ m, obs (tick m) = obs m;
  quiet_fs : ∀ f m, obs (with_fs f m) = obs m;
}.

(** ** Collaborators for the examples *)

(** The numeric core of semantic versions, [MAJOR.MINOR.PATCH]: the order
    that [semver.gt] and [semver.eq] decide on such versions, and their
    [TypeError] on any other text. *)
Module Semver.
Definition digit (c : ascii) : option nat :=
  let n := nat_of_ascii c in
  if (48 <=? n)%nat && (n <=? 57)%nat then Some (n - 48)%nat else None.

Fixpoint number_from (acc : nat) (s : string) : option nat :=
  match s with
  | EmptyString => Some acc
  | String c rest => d ← digit c; number_from (10 * acc + d)%nat rest
  end.

Definition number (s : string) : option nat :=
  match s with
  | EmptyString => None
  | String _ _ => number_from 0 s
  end.

Definition parse (s : string) : option (nat * nat * nat) :=
  match JsString.split_dot s with
  | [major; minor; patch] =>
      x ← number major; y ← number minor; z ← number patch; Some (x, y, z)
  | _ => None
  end.

Definition compare_with (f : nat * nat * nat → nat * nat * nat → bool)
    (a b : string) : Result bool :=
  match parse a, parse b with
  | Some x, Some y => Done (f x y)
  | None, _ => Failed (TypeError ("Invalid Version: " +:+ a))
  | _, None => Failed (TypeError ("Invalid Version: " +:+ b))
  end.

Definition newer (x y : nat * nat * nat) : bool :=
  let '(a, b, c) := x in
  let '(a', b', c') := y in
  (a' <? a)%nat || ((a' =? a)%nat && ((b' <? b)%nat || ((b' =? b)%nat && (c' <? c)%nat))).

Definition gt : string → string → Result bool := compare_with newer.
Definition eq : string → string → Result bool := compare_with (λ x y, bool_decide (x = y)).
End Semver.

(** A host on which every command and every library call succeeds, except
    as its parameters say: the archive that is read, the registry's answer
    for each extension id, the shell's answer for each command, the keys of
    [extensions.json] and the verdict of the license check. *)
Module Sample.
Definition ends_with_slash (s : string) : bool :=
  match String.rev s with
  | String c _ => Ascii.eqb c "/"%char
  | EmptyString => false
  end.

Fixpoint join (parts : list string) : string :=
  match parts with
  | [] => "."
  | [p] => p
  | p :: rest => if ends_with_slash p then p +:+ join rest else p +:+ "/" +:+ join rest
  end.

(** The case mapping of the sample hosts moves the ASCII capitals and
    nothing else, which is all that the ids of the examples need. *)
Definition lower_ascii (c : ascii) : ascii :=
  let n := nat_of_ascii c in
  if (65 <=? n)%nat && (n <=? 90)%nat then ascii_of_nat (n + 32) else c.

Fixpoint lowerCase (s : string) : string :=
  match s with
  | EmptyString => EmptyString
  | String c rest => String (lower_ascii c) (lowerCase rest)
  end.

Definition world (pkg : VsixPackage)
    (registry : string → Settled (option PublishedExtension))
    (shell : string → Result unit) (catalogue : list string) (licenseOk : bool) : World :=
  {| exec := λ _ command _, shell command;
     resolveExtension := λ _ _ _, Done tt;
     findUp := λ _ _ _, Done None;
     fg := λ _ _ _, Done [];
     access := λ _ _, false;
     readPackageJson := λ _ _, Done (mkPackageJson None None);
     writeFile := λ _ _, Done tt;
     createVSIX := λ _ _ _ _ _, Done tt;
     readVSIXPackage := λ _ _, Done pkg;
     isLicenseOk := λ _ _ _, Done licenseOk;
     readCatalogue := λ _, Done catalogue;
     getExtension := λ _ id, registry id;
     copyFile := λ _ _ _, Done tt;
     readXmlManifest := λ _ _, Done (xmlManifest pkg);
     createNamespace := λ _ _ _, Done tt;
     publish := λ _ _ _, Done tt;
     path_join := join;
     semver_gt := Semver.gt;
     semver_eq := Semver.eq;
     toLowerCase := lowerCase |}.

Definition constants (cannot : list string) : Constants :=
  {| artifactDirectory := "/tmp/artifacts/";
     registryHost := "open-vsx.org";
     defaultPythonVersion := "3.8";
     cannotPublish := cannot |}.

Definition machine (vars : gmap string string) (files : gmap string Node)
    (ctx : PublishContext.t) : Machine :=
  mkMachine vars None [] files 0 ctx [].

(** An archive of extension [publisher.name] at [version]. *)
Definition xml (publisher name version : string) (license : option (list string)) : Xml.t :=
  Xml.mk (Some (Xml.mkPackageManifest (Some
    [Xml.mkMetadata
       (Some [Xml.mkIdentity (Some (Xml.mkAttrs (Some version) (Some publisher) (Some name)))])
       license]))).

Definition package (publisher name version : string) (license : option string)
    (dependencies : option (list string)) : VsixPackage :=
  mkVsix (Some (xml publisher name version None))
         (Some (Manifest.mk (Some version) license dependencies)).

(** A context that names a downloaded archive, for an extension whose
    registry version is [ovsx]. *)
Definition fromFile (file : string) (ovsx : option string) : PublishContext.t :=
  PublishContext.mk None None (Some file) None None None None (Raw None) ovsx (Raw None) None.

(** A context that names a repository and a ref. *)
Definition fromRepo (repo ref : string) (ovsx : option string) : PublishContext.t :=
  PublishContext.mk (Some repo) (Some ref) None None None None None (Raw None) ovsx (Raw None) None.

Definition extension (id : string) (python : option string)
    (targets : option (list (string * TargetData))) : Extension.t :=
  Extension.mk id None None None None python targets.

Definition everything_works (command : string) : Result unit := Done tt.

Definition nothing_published (id : string) : Settled (option PublishedExtension) :=
  Fulfilled None.

Definition all_published (id : string) : Settled (option PublishedExtension) :=
  Fulfilled (Some (published id)).

Definition outage (id : string) : Settled (option PublishedExtension) :=
  RejectedWith (Rejected (VObject "FetchError: request to https://open-vsx.org failed")).
End Sample.

(** ** Conditions and readings used in the statements *)

(** The command of the [finally] clause cannot fail: either the descriptor
    asks for no Python version, so that the command is not run, or the
    command succeeds whenever it is run. *)
Definition cleanUpSucceeds (W : World) (K : Constants) (ext : Extension.t) : Prop :=
  JsString.truthy_opt (Extension.pythonVersion ext) = false
  ∨ ∀ t, exec W t ("pyenv global " +:+ defaultPythonVersion K) None = Done tt.


(** [n] calls to the outside later. *)
Definition ticks (n : nat) (m : Machine) : Machine := Nat.iter n tick m.

(** The dependencies that are absent from the registry, among those that
    are looked up one after the other from time [t] on: a dependency is
    absent when its lookup is fulfilled with no extension. *)
Fixpoint absentAt (W : World) (t : nat) (queried : list string) : list string :=
  match queried with
  | [] => []
  | dependency :: rest =>
      match getExtension W t dependency with
      | Fulfilled None => dependency :: absentAt W (S t) rest
      | _ => absentAt W (S t) rest
      end
  end.

(** The dependencies that the gate looks up: not built in, and not
    shortcut by their membership of the catalogue in skip-publish mode. *)
Definition queried (skipPublish : option string) (extensions : list string)
    (dependencies : list string) : list string :=
  filter (λ dependency, shortcut skipPublish extensions dependency = false)
    (filter (λ id, isBuiltIn id = false) dependencies).

(** The dependency-completeness property in the words of the
    specification: whenever some looked-up dependency is absent from the
    registry, the gate fails with the one error that names all the absent
    ones. *)
Definition reportsAllAbsent (W : World) (K : Constants) (ext : Extension.t)
    (pkg : VsixPackage) (m : Machine) : Prop :=
  ∀ mf dependencies extensions,
    manifest pkg = Some mf →
    Manifest.extensionDependencies mf = Some dependencies →
    readCatalogue W (clock m) = Done extensions →
    let absent :=
      absentAt W (S (clock m)) (queried (env m !! "SKIP_PUBLISH") extensions dependencies) in
    absent ≠ [] →
    (@dependencyGate W K unit ext pkg m).1
    = Throw (Error (notOnOpenVsx (Extension.id ext) absent)).

(** The [Identity] element of the XML manifest, when it has attributes,
    has both [Publisher] and [Id]. *)
Definition identified (attrs : option Xml.Attrs) : Prop :=
  ∀ a, attrs = Some a → is_Some (Xml.Publisher a) ∧ is_Some (Xml.Id a).


(** The target that the context carries. *)
Definition buildTarget (m : Machine) : option string :=
  PublishContext.target (context m).

(** The name under which a build for [target] is stored in the artifact
    directory: [<id>.vsix], or [<id>@<target>.vsix] for a truthy target. *)
Definition artifactPath (W : World) (K : Constants) (ext : Extension.t)
    (target : option string) : string :=
  path_join W
    [artifactDirectory K;
     Extension.id ext
     +:+ match target with
         | Some tgt => if JsString.truthy tgt then "@" +:+ tgt else EmptyString
         | None => EmptyString
         end
     +:+ ".vsix"].

(** A computation that never completes by [return]. *)
Definition fallsThrough {R A} (c : Js R A) : Prop :=
  ∀ m r m', c m ≠ (Return r, m').

(** The descriptor admits the target of a downloaded file: it declares no
    targets at all, or it declares this one. *)
Definition admits (ext : Extension.t) (target : string) : bool :=
  match Extension.target ext with
  | None => true
  | Some targets => bool_decide (target ∈ targets.*1)
  end.

(** Hosts that differ from a given one in the answers of some
    collaborators. *)
Module Host.
(** The registry answers every namespace creation with [create] and every
    publication with [publishes]. *)
Definition registryCalls (W : World) (create publishes : Result unit) : World :=
  {| exec := exec W;
     resolveExtension := resolveExtension W;
     findUp := findUp W;
     fg := fg W;
     access := access W;
     readPackageJson := readPackageJson W;
     writeFile := writeFile W;
     createVSIX := createVSIX W;
     readVSIXPackage := readVSIXPackage W;
     isLicenseOk := isLicenseOk W;
     readCatalogue := readCatalogue W;
     getExtension := getExtension W;
     copyFile := copyFile W;
     readXmlManifest := readXmlManifest W;
     createNamespace := λ _ _ _, create;
     publish := λ _ _ _, publishes;
     path_join := path_join W;
     semver_gt := semver_gt W;
     semver_eq := semver_eq W;
     toLowerCase := toLowerCase W |}.

(** The shell answers by moment and command; the source tree has a lock
    file or not, the [package.json] that [read] gives, the archives that
    [found] lists, and packaging ends as [packaged] says. *)
Definition sourceTree (W : World) (shell : nat → string → Result unit) (lock : bool)
    (read : Result PackageJson) (found : Result (list string)) (packaged : Result unit)
    : World :=
  {| exec := λ t command _, shell t command;
     resolveExtension := resolveExtension W;
     findUp := findUp W;
     fg := λ _ _ _, found;
     access := λ _ _, lock;
     readPackageJson := λ _ _, read;
     writeFile := writeFile W;
     createVSIX := λ _ _ _ _ _, packaged;
     readVSIXPackage := readVSIXPackage W;
     isLicenseOk := isLicenseOk W;
     readCatalogue := readCatalogue W;
     getExtension := getExtension W;
     copyFile := copyFile W;
     readXmlManifest := readXmlManifest W;
     createNamespace := createNamespace W;
     publish := publish W;
     path_join := path_join W;
     semver_gt := semver_gt W;
     semver_eq := semver_eq W;
     toLowerCase := toLowerCase W |}.
End Host.

(** The exit code is as before or has been set to 1. *)
Definition raisedOnly (m m' : Machine) : Prop :=
  exitCode m' = exitCode m ∨ exitCode m' = Some 1.

(** The text of an id up to its first dot. *)
Fixpoint firstSegment (s : string) : string :=
  match s with
  | EmptyString => EmptyString
  | String c rest => if Ascii.eqb c "."%char then EmptyString else String c (firstSegment rest)
  end.

(** The variable [VSCE_TESTS] is as before, or holds the text of what it
    was before (the text ["undefined"] when it was not set). *)
Definition restored (m m' : Machine) : Prop :=
  env m' !! "VSCE_TESTS" = env m !! "VSCE_TESTS"
  ∨ env m' !! "VSCE_TESTS" = Some (JsString.show (env m !! "VSCE_TESTS")).

(** The value of [VSCE_TESTS]. *)
Definition vsceTests (m : Machine) : option string := env m !! "VSCE_TESTS".

(** What the process keeps outside the clock, the console and the file
    system. *)
Definition settings (m : Machine) : gmap string string * option nat * PublishContext.t :=
  (env m, exitCode m, context m).

(** ** Reading the XML manifest out of an archive

    Lines 18-73 of [scripts/publish-extension.js].  A stream is the list of
    the events it emits; an archive is the list of its entries, each with
    what opening its stream gives, and what closing the archive gives.  An
    awaited promise that never settles is [None].  Next to its outcome each
    function yields the list of what it did to the archive. *)
Module Zip.
Inductive StreamEvent : Type :=
  | Data (chunk : string)
  | Fault (e : Thrown)
  | End.

(** [Buffer.concat(buffers)] *)
Definition Buffer_concat (buffers : list string) : string :=
  fold_right String.append EmptyString buffers.

(** The listeners of [bufferStream]: every [data] event pushes its chunk,
    the first [error] rejects, the first [end] resolves with the chunks put
    together. *)
Fixpoint listen (events : list StreamEvent) (buffers : list string)
    : option (Result string) :=
  match events with
  | [] => None
  | Data chunk :: rest => listen rest (buffers ++ [chunk])
  | Fault e :: _ => Some (Failed e)
  | End :: _ => Some (Done (Buffer_concat buffers))
  end.

(** Lines 23-31. *)
Definition bufferStream (stream : list StreamEvent) : option (Result string) :=
  listen stream [].

Record Entry : Type := mkEntry {
  filename : string;
  openReadStream : Result (list StreamEvent);
}.

Record Zipfile : Type := mkZipfile {
  entries : list Entry;
  close : Result unit;
}.

Inductive Event : Type :=
  | Streamed (filename : string)
  | Closed.

(** Lines 43-49: the loop over the entries. *)
Fixpoint readEntries (filter : string → bool) (zipfile : list Entry)
    (result : gmap string string)
    : option (Result (gmap string string)) * list Event :=
  match zipfile with
  | [] => (Some (Done result), [])
  | entry :: rest =>
      if filter (filename entry)
      then
        match openReadStream entry with
        | Failed e => (Some (Failed e), [])
        | Done stream =>
            match bufferStream stream with
            | None => (None, [Streamed (filename entry)])
            | Some (Failed e) => (Some (Failed e), [Streamed (filename entry)])
            | Some (Done buffer) =>
                let '(outcome, done) :=
                  readEntries filter rest (<[filename entry := buffer]> result) in
                (outcome, Streamed (filename entry) :: done)
            end
        end
      else readEntries filter rest result
  end.

(** Lines 39-55: [yauzl.open], the loop, and [zipfile.close()] in the
    [finally] clause. *)
Definition readZip (opened : Result Zipfile) (filter : string → bool)
    : option (Result (gmap string string)) * list Event :=
  match opened with
  | Failed e => (Some (Failed e), [])
  | Done zipfile =>
      let '(outcome, done) := readEntries filter (entries zipfile) ∅ in
      match outcome with
      | None => (None, done)
      | Some settled =>
          match close zipfile with
          | Failed e => (Some (Failed e), done ++ [Closed])
          | Done _ => (Some settled, done ++ [Closed])
          end
      end
  end.

Definition fileName : string := "extension.vsixmanifest".

(** Lines 62-73, with the parser of [xml2js] as a parameter. *)
Definition readXmlManifest (parse : string → Result Xml.t) (opened : Result Zipfile)
    : option (Result (option Xml.t)) * list Event :=
  let '(outcome, done) := readZip opened (λ name, String.eqb name fileName) in
  match outcome with
  | None => (None, done)
  | Some (Failed e) => (Some (Failed e), done)
  | Some (Done result) =>
      match result !! fileName with
      | None => (Some (Done None), done)
      | Some rawFile =>
          match parse rawFile with
          | Done xml => (Some (Done (Some xml)), done)
          | Failed e => (Some (Failed e), done)
          end
      end
  end.
End Zip.

(** The environment variables a build finds in the shared context. *)
Definition buildEnvironment (m : Machine) : option (list (string * string)) :=
  PublishContext.environmentVariables (context m).

(** The target and the environment variables of every build announced on
    the console, oldest first. *)
Definition announced (line : Level * Message)
    : option (option string * option (list (string * string))) :=
  match line with
  | (_, ProcessingExtension _ ctx) =>
      Some (PublishContext.target ctx, PublishContext.environmentVariables ctx)
  | _ => None
  end.

Definition environments (m : Machine)
    : list (option string * option (list (string * string))) :=
  omap announced (console m).

(** What a run of builds from the machine [m] with the options
    [allOptions] has added when it ends in [m'] with [all]: the options
    of some of the builds attempted in between, in their order, each
    naming the artifact path of its target. *)
Definition produced (W : World) (K : Constants) (ext : Extension.t)
    (allOptions : list Options.t) (m : Machine)
    (all : list Options.t) (m' : Machine) : Prop :=
  ∃ new built added,
    attempts m' = attempts m ++ new
    ∧ sublist built new
    ∧ all = allOptions ++ added
    ∧ map Options.extensionFile added
      = map (λ target, Some (artifactPath W K ext target)) built.

(** The variables that a build from source exports to its commands
    (lines 87-92), as the process has them. *)
Definition exported (m : Machine) : list (option string) :=
  map (λ key, env m !! key)
    ["EXTENSION_ID"; "EXTENSION_PUBLISHER"; "EXTENSION_NAME"; "VERSION"; "MS_VERSION";
     "OVSX_VERSION"].

(** ** The scripts with the two switches read by a parameter

    The same build and driver, from the version gate up, in which
    [process.env.FORCE] and [process.env.SKIP_PUBLISH] are read through
    [readForce] and [readSkipPublish].  Read from the environment they are
    the scripts above; read as the constant ["true"] they are the scripts
    in their default configuration. *)

Definition fromEnvironment (key : string) : ∀ R : Type, Js R (option string) :=
  λ R, getenv key.


Module Configured.
Section Reads.
Context (W : World) (K : Constants).
Context (readForce readSkipPublish : ∀ R : Type, Js R (option string)).

(** Lines 217-227. *)
Definition versionGate {A} (version : string) : Js (option A) unit :=
  ctx ← read context;
  match PublishContext.ovsxVersion ctx with
  | Some ovsxVersion =>
      if JsString.truthy ovsxVersion
      then
        newer ← lift (semver_gt W ovsxVersion version);
        if (newer : bool)
        then throw (Error (outOfDate ovsxVersion version))
        else
          same ← lift (semver_eq W ovsxVersion version);
          force ← readForce (option A);
          if (same : bool) && negb (bool_decide (force = Some "true"))
          then console_ LLog (Text (skipped version));; return_ None
          else mret tt
      else mret tt
  | None => mret tt
  end.

(** Lines 252-262. *)
Fixpoint dependenciesNotOnOpenVsx {R} (extensions : list string)
    (dependencies : list string) (found : list string) : Js R (list string) :=
  match dependencies with
  | [] => mret found
  | dependency :: rest =>
      skipPublish ← readSkipPublish R;
      if shortcut skipPublish extensions dependency
      then dependenciesNotOnOpenVsx extensions rest found
      else
        ovsxExtension ← settled (λ t, getExtension W t dependency);
        match ovsxExtension with
        | Fulfilled None => dependenciesNotOnOpenVsx extensions rest (found ++ [dependency])
        | Fulfilled (Some _) | RejectedWith _ =>
            dependenciesNotOnOpenVsx extensions rest found
        end
  end.

(** Lines 238-268. *)
Definition dependencyGate {R} (ext : Extension.t) (pkg : VsixPackage) : Js R unit :=
  match manifest pkg with
  | None => throw (TypeError "Cannot destructure property 'extensionDependencies' of undefined")
  | Some mf =>
      match Manifest.extensionDependencies mf with
      | None => mret tt
      | Some extensionDependencies =>
          let notBuiltin := filter (λ id, isBuiltIn id = false) extensionDependencies in
          let unpublishableDependencies :=
            filter (λ dependency, dependency ∈ cannotPublish K) notBuiltin in
          if (0 <? length unpublishableDependencies)%nat
          then throw (Error (unpublishable (Extension.id ext) unpublishableDependencies))
          else
            extensions ← outside (λ t, readCatalogue W t);
            missing ← dependenciesNotOnOpenVsx extensions notBuiltin [];
            if (0 <? length missing)%nat
            then throw (Error (notOnOpenVsx (Extension.id ext) missing))
            else mret tt
      end
  end.

Definition laterGates (ext : Extension.t) (pkgPath : option string)
    (options : option Options.t) (pkg : VsixPackage) : Js (option Options.t) unit :=
  licenseGate W ext pkgPath pkg;;
  dependencyGate ext pkg;;
  match options with
  | Some o => final ← finalize W K ext o; return_ (Some final)
  | None => throw (Xml.undefined_index "extensionFile")
  end.

Definition gates (ext : Extension.t) (pkgPath : option string)
    (options : option Options.t) (pkg : VsixPackage) (version : string)
    : Js (option Options.t) unit :=
  versionGate version;;
  laterGates ext pkgPath options pkg.

Definition tryBody (ext : Extension.t) : Js (option Options.t) unit :=
  '(pkgPath, options, pkg, version) ← prepare W K ext;
  gates ext pkgPath options pkg version.

(** Lines 60-298. *)
Definition buildVersion {R} (ext : Extension.t) : Js R (option Options.t) :=
  update (announce ext);;
  function (try_finally (try_catch (tryBody ext) (catchClause ext)) (cleanUp W K ext)).

(** Lines 312-323. *)
Fixpoint buildFiles {R} (ext : Extension.t) (entries : list (string * string))
    (allOptions : list Options.t) : Js R (list Options.t) :=
  match entries with
  | [] => mret allOptions
  | (target, file) :: rest =>
      let included :=
        match Extension.target ext with
        | None => true
        | Some targets => bool_decide (target ∈ targets.*1)
        end in
      if included
      then
        update (with_context (PublishContext.set_file (Some file)));;
        update (with_context (PublishContext.set_target (Some target)));;
        options ← buildVersion ext;
        buildFiles ext rest (push options allOptions)
      else
        console_ LLog (Text (Extension.id ext +:+ ": skipping, since target " +:+ target
                             +:+ " is not included"));;
        buildFiles ext rest allOptions
  end.

(** Lines 326-335. *)
Fixpoint buildTargets {R} (ext : Extension.t) (entries : list (string * TargetData))
    (allOptions : list Options.t) : Js R (list Options.t) :=
  match entries with
  | [] => mret allOptions
  | (target, targetData) :: rest =>
      update (with_context (PublishContext.set_target (Some target)));;
      match targetData with
      | TargetTrue => mret tt
      | TargetObject env =>
          update (with_context (PublishContext.set_environmentVariables env))
      end;;
      options ← buildVersion ext;
      buildTargets ext rest (push options allOptions)
  end.

(** Lines 305-352. *)
Definition buildExtension {R} (ext : Extension.t) : Js R (list string) :=
  update (with_context PublishContext.set_dates);;
  ctx ← read context;
  allOptions ←
    match PublishContext.files ctx with
    | Some files => buildFiles ext files []
    | None =>
        match Extension.target ext with
        | Some targets => buildTargets ext targets []
        | None => options ← buildVersion ext; mret (push options [])
        end
    end;
  mret (extensionFiles allOptions).

(** Lines 141-144 of the driver. *)
Definition processExtension {R} (ext : Extension.t) : Js R unit :=
  extensionFiles ← buildExtension ext;
  publishExtension W K (Extension.id ext) extensionFiles.

(** Modelled from the spec: section 4.4, as [publishExtensions] above. *)
Fixpoint publishExtensions {R} (catalogue : list (Extension.t * PublishContext.t))
    : Js R unit :=
  match catalogue with
  | [] => mret tt
  | (ext, ctx) :: rest =>
      update (with_context (λ _, ctx));;
      try_catch (processExtension ext) (λ _, mret tt);;
      publishExtensions rest
  end.

(** Lines 137-145. *)
Definition main {R} (catalogue : list (Extension.t * PublishContext.t)) : Js R unit :=
  update defaults;;
  publishExtensions catalogue.
End Reads.
End Configured.



(** * Properties *)

Section Keeps.
Context {O : Type} (obs : Machine → O).

Lemma keeps_ret {R A} (a : A) : keeps obs (mret a : Js R A).
Proof. by intros m. Qed.

Lemma keeps_throw {R A} e : keeps obs (throw e : Js R A).
Proof. by intros m. Qed.

Lemma keeps_return {R A} r : keeps obs (return_ r : Js R A).
Proof. by intros m. Qed.

Lemma keeps_read {R A} (f : Machine → A) : keeps obs (read f : Js R A).
Proof. by intros m. Qed.

Lemma keeps_lift {R A} (r : Result A) : keeps obs (lift r : Js R A).
Proof. by destruct r. Qed.

Lemma keeps_update {R} f : (∀ m, obs (f m) = obs m) → keeps obs (update f : Js R unit).
Proof. intros Hf m. apply Hf. Qed.

Lemma keeps_bind {R A B} (c : Js R A) (f : A → Js R B) :
  keeps obs c → (∀ a, keeps obs (f a)) → keeps obs (c ≫= f).
Proof.
  intros Hc Hf m. specialize (Hc m). unfold mbind, Js_bind.
  destruct (c m) as [[a | r | e] m1]; simpl in *; [| done | done].
  by rewrite Hf.
Qed.

Lemma keeps_fmap {R A B} (g : A → B) (c : Js R A) : keeps obs c → keeps obs (g <$> c).
Proof. intros Hc. apply keeps_bind; [done | intros; apply keeps_ret]. Qed.

Lemma keeps_try_catch {R A} (body : Js R A) handler :
  keeps obs body → (∀ e, keeps obs (handler e)) → keeps obs (try_catch body handler).
Proof.
  intros Hb Hh m. specialize (Hb m). unfold try_catch.
  destruct (body m) as [[a | r | e] m1]; simpl in *; [done | done |].
  by rewrite Hh.
Qed.

Lemma keeps_try_finally {R A} (body : Js R A) cleanup :
  keeps obs body → keeps obs cleanup → keeps obs (try_finally body cleanup).
Proof.
  intros Hb Hc m. specialize (Hb m). unfold try_finally.
  destruct (body m) as [c m1]. specialize (Hc m1).
  destruct (cleanup m1) as [[a | r | e] m2]; simpl in *; congruence.
Qed.

Lemma keeps_function {R B} (body : Js (option B) unit) :
  keeps obs body → keeps obs (function body : Js R (option B)).
Proof.
  intros Hb m. specialize (Hb m). unfold function.
  by destruct (body m) as [[a | r | e] m1].
Qed.

Lemma keeps_for_of {R A} (xs : list A) (body : A → Js R unit) :
  (∀ x, keeps obs (body x)) → keeps obs (for_of xs body).
Proof.
  intros Hb. induction xs as [| x xs IH]; simpl.
  - apply keeps_ret.
  - apply keeps_bind; [apply Hb | by intros _].
Qed.

Context (Q : Quiet obs).

Lemma keeps_outside {R A} (f : nat → Result A) : keeps obs (outside f : Js R A).
Proof. intros m. unfold outside. destruct (f (clock m)); apply Q. Qed.

Lemma keeps_settled {R A} (f : nat → Settled A) : keeps obs (settled f : Js R (Settled A)).
Proof. intros m. apply Q. Qed.

Lemma keeps_existsSync {R} path : keeps obs (existsSync path : Js R bool).
Proof. by intros m. Qed.

Lemma keeps_rmSync {R} path : keeps obs (rmSync path : Js R unit).
Proof. intros m. unfold rmSync. destruct (fs m !! path) as [[|]|]; try done. apply Q. Qed.

Lemma keeps_mkdirSync {R} path : keeps obs (mkdirSync path : Js R unit).
Proof. intros m. unfold mkdirSync. destruct (fs m !! path); try done. apply Q. Qed.
End Keeps.

(** One step of a preservation proof: split the computation at its head
    construct; [side] closes the goals about single updates. *)
Ltac keeps_step Q side :=
  lazymatch goal with
  | |- keeps _ (mret _) => apply keeps_ret
  | |- keeps _ (throw _) => apply keeps_throw
  | |- keeps _ (return_ _) => apply keeps_return
  | |- keeps _ (read _) => apply keeps_read
  | |- keeps _ (getenv _) => apply keeps_read
  | |- keeps _ (lift _) => apply keeps_lift
  | |- keeps _ (outside _) => apply (keeps_outside _ Q)
  | |- keeps _ (settled _) => apply (keeps_settled _ Q)
  | |- keeps _ (existsSync _) => apply keeps_existsSync
  | |- keeps _ (rmSync _) => apply (keeps_rmSync _ Q)
  | |- keeps _ (mkdirSync _) => apply (keeps_mkdirSync _ Q)
  | |- keeps _ (mbind _ _) => apply keeps_bind; [| intros ?]
  | |- keeps _ (fmap _ _) => apply keeps_fmap
  | |- keeps _ (try_catch _ _) => apply keeps_try_catch; [| intros ?]
  | |- keeps _ (try_finally _ _) => apply keeps_try_finally
  | |- keeps _ (function _) => apply keeps_function
  | |- keeps _ (for_of _ _) => apply keeps_for_of; intros ?
  | |- keeps _ (console_ _ _) => apply keeps_update; intros ?; side
  | |- keeps _ (setenv _ _) => apply keeps_update; intros ?; side
  | |- keeps _ (update _) => apply keeps_update; intros ?; side
  | |- keeps _ (match ?x with _ => _ end) => destruct x
  | |- keeps _ (let _ := _ in _) => cbv zeta
  end.

Ltac keeps_steps Q side := repeat keeps_step Q side.

(** *** The switches and the registry version *)

Lemma switches_quiet : Quiet switches.
Proof. by split. Qed.

Lemma registryVersion_quiet : Quiet registryVersion.
Proof. by split. Qed.

Lemma attempts_quiet : Quiet attempts.
Proof. by split. Qed.

(** Writing a variable other than the two switches. *)
Ltac switches_side :=
  first
    [ reflexivity
    | unfold switches, with_env; simpl; rewrite !lookup_insert_ne by done; reflexivity ].

(** Updates that do not touch the registry version of the context. *)
Ltac context_side := reflexivity.

(** Printing anything but the line that announces a build. *)
Ltac attempts_side :=
  first
    [ reflexivity
    | unfold attempts, with_console; simpl; rewrite omap_app; simpl;
      by rewrite app_nil_r ].

Section BuildKeeps.
Context (W : World) (K : Constants).

Lemma ensureBuildPrerequisites_switches {R} :
  keeps switches (ensureBuildPrerequisites W K : Js R unit).
Proof. unfold ensureBuildPrerequisites. keeps_steps switches_quiet switches_side. Qed.

Lemma acquire_switches {R} ext : keeps switches (acquire W ext : Js R _).
Proof.
  unfold acquire, buildFromSource, pinRuntimes, customBuild, standardBuild, install.
  keeps_steps switches_quiet switches_side.
Qed.

Lemma prepare_switches {R} ext : keeps switches (prepare W K ext : Js R _).
Proof.
  unfold prepare, readPackage, resolveVersion.
  keeps_steps switches_quiet switches_side;
    first [apply ensureBuildPrerequisites_switches | apply acquire_switches].
Qed.

Lemma acquire_registryVersion {R} ext : keeps registryVersion (acquire W ext : Js R _).
Proof.
  unfold acquire, buildFromSource, pinRuntimes, customBuild, standardBuild, install.
  keeps_steps registryVersion_quiet context_side.
Qed.

Lemma prepare_registryVersion {R} ext : keeps registryVersion (prepare W K ext : Js R _).
Proof.
  unfold prepare, ensureBuildPrerequisites, readPackage, resolveVersion.
  keeps_steps registryVersion_quiet context_side; apply acquire_registryVersion.
Qed.

Lemma dependenciesNotOnOpenVsx_keeps {O} (obs : Machine → O) {R} extensions deps found :
  Quiet obs → keeps obs (dependenciesNotOnOpenVsx W extensions deps found : Js R _).
Proof.
  intros Q. revert found. induction deps as [| d deps IH]; intros found; simpl.
  - apply keeps_ret.
  - keeps_steps Q idtac; apply IH.
Qed.

Lemma gates_switches ext pkgPath options pkg version :
  keeps switches (gates W K ext pkgPath options pkg version).
Proof.
  unfold gates, laterGates, versionGate, licenseGate, dependencyGate, finalize.
  keeps_steps switches_quiet switches_side;
    apply dependenciesNotOnOpenVsx_keeps, switches_quiet.
Qed.

Lemma buildVersion_switches {R} ext : keeps switches (buildVersion W K ext : Js R _).
Proof.
  unfold buildVersion, tryBody, catchClause, cleanUp.
  keeps_steps switches_quiet switches_side;
    first [apply prepare_switches | apply gates_switches].
Qed.

Lemma buildFiles_switches {R} ext entries allOptions :
  keeps switches (buildFiles W K ext entries allOptions : Js R _).
Proof.
  revert allOptions. induction entries as [| [target file] rest IH]; intros allOptions; simpl.
  - apply keeps_ret.
  - keeps_steps switches_quiet switches_side;
      first [apply buildVersion_switches | apply IH].
Qed.

Lemma buildTargets_switches {R} ext entries allOptions :
  keeps switches (buildTargets W K ext entries allOptions : Js R _).
Proof.
  revert allOptions. induction entries as [| [target data] rest IH]; intros allOptions; simpl.
  - apply keeps_ret.
  - keeps_steps switches_quiet switches_side;
      first [apply buildVersion_switches | apply IH].
Qed.

Lemma buildExtension_switches {R} ext : keeps switches (buildExtension W K ext : Js R _).
Proof.
  unfold buildExtension.
  keeps_steps switches_quiet switches_side;
    first [apply buildFiles_switches | apply buildTargets_switches
          | apply buildVersion_switches].
Qed.

Lemma publishExtension_switches {R} extensionId files :
  keeps switches (publishExtension W K extensionId files : Js R _).
Proof.
  unfold publishExtension, publishOne, publishFile.
  keeps_steps switches_quiet switches_side.
Qed.

Lemma processExtension_switches {R} ext : keeps switches (processExtension W K ext : Js R _).
Proof.
  unfold processExtension.
  keeps_steps switches_quiet switches_side;
    first [apply buildExtension_switches | apply publishExtension_switches].
Qed.

Lemma publishExtensions_switches {R} catalogue :
  keeps switches (publishExtensions W K catalogue : Js R _).
Proof.
  induction catalogue as [| [ext ctx] rest IH]; simpl.
  - apply keeps_ret.
  - keeps_steps switches_quiet switches_side;
      first [apply processExtension_switches | apply IH].
Qed.

(** Inside one build nothing prints the line that announces a build. *)
Lemma guarded_attempts ext :
  keeps attempts (try_finally (try_catch (tryBody W K ext) (catchClause ext)) (cleanUp W K ext)).
Proof.
  unfold tryBody, prepare, ensureBuildPrerequisites, readPackage, resolveVersion, acquire,
    buildFromSource, pinRuntimes, customBuild, standardBuild, install, gates, laterGates, versionGate,
    licenseGate, dependencyGate, finalize, catchClause, cleanUp.
  keeps_steps attempts_quiet attempts_side;
    apply dependenciesNotOnOpenVsx_keeps, attempts_quiet.
Qed.
End BuildKeeps.

(** ** Sanity checks on the helpers *)

Example split_dot_id : JsString.split_dot "redhat.java" = ["redhat"; "java"].
Proof. reflexivity. Qed.

Example split_dot_no_dot : JsString.split_dot "java" = ["java"].
Proof. reflexivity. Qed.

Example isBuiltIn_git : isBuiltIn "vscode.git" = true.
Proof. reflexivity. Qed.

Example isBuiltIn_python : isBuiltIn "ms-python.python" = false.
Proof. reflexivity. Qed.

Example lowerCase_mixed : Sample.lowerCase "RedHat" = "redhat".
Proof. reflexivity. Qed.

Example semver_gt_minor : Semver.gt "1.10.0" "1.9.3" = Done true.
Proof. reflexivity. Qed.

Example semver_eq_same : Semver.eq "1.2.3" "1.2.3" = Done true.
Proof. reflexivity. Qed.

Example join_artifact : Sample.join ["/tmp/artifacts/"; "redhat.java.vsix"] = "/tmp/artifacts/redhat.java.vsix".
Proof. reflexivity. Qed.

Example already_published_is_benign :
  benign (Rejected (VObject "Error: Extension redhat.java 1.0.0 is already published.")) = true.
Proof. reflexivity. Qed.

Example license_missing_is_not_benign : benign (Error (licenseMissing "redhat.java")) = false.
Proof. reflexivity. Qed.

(** ** The prerequisite setup *)

Section Prerequisites.
Context (W : World) (K : Constants).

(** What the setup does to the file system once both configuration commands
    have succeeded: an absent directory is created; in a present one only
    the entry whose name is literally [*] is looked at. *)
Lemma ensureBuildPrerequisites_fs {R} (m : Machine) :
  exec W (clock m) "yarn config set script-shell /bin/bash" None = Done tt →
  exec W (S (clock m)) "git config --global advice.detachedHead false" None = Done tt →
  ∃ m', @ensureBuildPrerequisites W K R m = (Normal tt, m')
    ∧ fs m' =
        match fs m !! artifactDirectory K with
        | None => <[artifactDirectory K := Directory]> (fs m)
        | Some _ =>
            match fs m !! (artifactDirectory K +:+ "*") with
            | Some File => delete (artifactDirectory K +:+ "*") (fs m)
            | _ => fs m
            end
        end.
Proof.
  intros Hyarn Hgit.
  unfold ensureBuildPrerequisites, mbind, Js_bind, outside, existsSync, read.
  rewrite Hyarn. simpl. rewrite Hgit. simpl.
  destruct (fs m !! artifactDirectory K) as [node |] eqn:Hdir.
  - unfold try_catch, rmSync. simpl.
    destruct (fs m !! (artifactDirectory K +:+ "*")) as [[|] |]; simpl; eauto.
  - unfold mkdirSync. simpl. rewrite Hdir. simpl. eauto.
Qed.

(** C8, at the input where the code departs from it: the artifact directory
    exists and holds a file left over from an earlier build.  The setup
    completes and the file is still there: [fs.rmSync] is handed the
    directory path followed by a star, which it takes as the name of one
    entry, so nothing but an entry of that very name is removed. *)
Theorem prerequisites_leave_old_files {R} (m : Machine) (name : string) :
  exec W (clock m) "yarn config set script-shell /bin/bash" None = Done tt →
  exec W (S (clock m)) "git config --global advice.detachedHead false" None = Done tt →
  is_Some (fs m !! artifactDirectory K) →
  fs m !! (artifactDirectory K +:+ name) = Some File →
  name ≠ "*" →
  ∃ m', @ensureBuildPrerequisites W K R m = (Normal tt, m')
    ∧ fs m' !! (artifactDirectory K +:+ name) = Some File.
Proof.
  intros Hyarn Hgit [node Hdir] Hfile Hname.
  destruct (ensureBuildPrerequisites_fs (R := R) m Hyarn Hgit) as (m' & Hrun & Hfs).
  exists m'. split; [done |]. rewrite Hfs, Hdir.
  assert (artifactDirectory K +:+ "*" ≠ artifactDirectory K +:+ name) as Hne.
  { intros Heq. apply Hname. symmetry. by apply (inj (String.app (artifactDirectory K))). }
  destruct (fs m !! (artifactDirectory K +:+ "*")) as [[|] |]; try done.
  by rewrite lookup_delete_ne.
Qed.
End Prerequisites.

Lemma prerequisites_leave_old_files_witness :
  let m := Sample.machine ∅
             (<["/tmp/artifacts/old.vsix" := File]> {["/tmp/artifacts/" := Directory]})
             (Sample.fromFile "/tmp/download/java.vsix" None) in
  ∃ m', @ensureBuildPrerequisites
          (Sample.world (mkVsix None None) Sample.all_published Sample.everything_works [] true)
          (Sample.constants []) unit m = (Normal tt, m')
    ∧ fs m' !! "/tmp/artifacts/old.vsix" = Some File.
Proof.
  intros m.
  apply (prerequisites_leave_old_files
           (Sample.world (mkVsix None None) Sample.all_published Sample.everything_works [] true)
           (Sample.constants []) (R := unit) m "old.vsix").
  - reflexivity.
  - reflexivity.
  - exists Directory. reflexivity.
  - reflexivity.
  - discriminate.
Defined.

(** ** The failure policy *)

(** The guard [error &&] of the [catch] clause adds nothing: a falsy value
    never has the marker in its text. *)
Lemma benign_string (e : Thrown) :
  benign e = JsString.includes alreadyPublished (thrown_string e).
Proof.
  unfold benign. destruct e as [msg | msg | v]; try done.
  destruct v as [| | [|] | s | text]; try done.
  by destruct s.
Qed.

Lemma catchClause_completes {R} ext e m : (@catchClause R ext e m).1 = Normal tt.
Proof. unfold catchClause. by destruct (benign e). Qed.

(** A build whose body threw: the handler has run, what is left is the
    clean-up and falling off the end of the function. *)
Lemma buildVersion_caught (W : World) (K : Constants) {R} ext e m m1 :
  tryBody W K ext (announce ext m) = (Throw e, m1) →
  @buildVersion W K R ext m
  = function (cleanUp W K ext) (@catchClause (option Options.t) ext e m1).2.
Proof.
  intros Hbody.
  unfold buildVersion, mbind, Js_bind, update, function, try_finally, try_catch.
  simpl. rewrite Hbody.
  pose proof (catchClause_completes (R := option Options.t) ext e m1) as Hh.
  destruct (catchClause ext e m1) as [c h]. simpl in *. subst c.
  by destruct (cleanUp W K ext h) as [[[] | r | e'] m2].
Qed.

(** X25.  The exceptions that the policy handles.  For every exception [e]
    thrown by the body of a build: the [catch] clause completes normally, so [e]
    does not leave [buildVersion]; when
    the text of [e] contains the marker "is already published." two lines
    are logged and the exit code stays as it was; otherwise the extension
    with its context and the exception are logged as errors and the exit
    code becomes 1.  What remains of the build is the clean-up. *)
Theorem failure_policy (W : World) (K : Constants) {R} ext e m m1 :
  tryBody W K ext (announce ext m) = (Throw e, m1) →
  let handled := (@catchClause (option Options.t) ext e m1).2 in
  (@catchClause (option Options.t) ext e m1).1 = Normal tt
  ∧ (if JsString.includes alreadyPublished (thrown_string e)
     then exitCode handled = exitCode m1
          ∧ console handled = console m1 ++
              [(LLog, Text "Could not process extension -- assuming that it already exists");
               (LLog, Value e)]
     else exitCode handled = Some 1
          ∧ console handled = console m1 ++
              [(LError, CouldNotProcess ext (context m1)); (LError, Value e)])
  ∧ @buildVersion W K R ext m = function (cleanUp W K ext) handled
  ∧ (JsString.truthy_opt (Extension.pythonVersion ext) = false →
     @buildVersion W K R ext m = (Normal None, handled)).
Proof.
  intros Hbody handled. split; [apply catchClause_completes |].
  split; [| split].
  - subst handled. unfold catchClause. rewrite benign_string.
    destruct (JsString.includes alreadyPublished (thrown_string e)); simpl;
      by rewrite <- app_assoc.
  - by apply buildVersion_caught.
  - intros Hpy. rewrite (buildVersion_caught W K ext e m m1 Hbody).
    unfold function, cleanUp. by rewrite Hpy.
Qed.

Lemma failure_policy_witness :
  let W := Sample.world (Sample.package "redhat" "java" "1.2.3" None None)
             Sample.all_published Sample.everything_works [] true in
  let K := Sample.constants [] in
  let ext := Sample.extension "redhat.java" None None in
  let m := Sample.machine ∅ ∅ (Sample.fromFile "/tmp/download/java.vsix" (Some "1.2.0")) in
  (@buildVersion W K unit ext m).1 = Normal None
  ∧ exitCode (@buildVersion W K unit ext m).2 = Some 1.
Proof.
  intros W K ext m.
  assert (tryBody W K ext (announce ext m)
          = (Throw (Error (licenseMissing "redhat.java")),
             (tryBody W K ext (announce ext m)).2)) as Hbody
    by (vm_compute; reflexivity).
  destruct (failure_policy W K (R := unit) ext _ m _ Hbody) as (_ & Hlog & _ & Hret).
  rewrite Hret by reflexivity. split; [reflexivity |].
  simpl. exact (proj1 Hlog).
Defined.

(** ** The target matrix *)

Lemma bind_normal {R A B} (c : Js R A) (f : A → Js R B) m a m' :
  c m = (Normal a, m') → (c ≫= f) m = f a m'.
Proof. intros H. unfold mbind, Js_bind. by rewrite H. Qed.

Lemma bind_throw {R A B} (c : Js R A) (f : A → Js R B) m e m' :
  c m = (Throw e, m') → (c ≫= f) m = (Throw e, m').
Proof. intros H. unfold mbind, Js_bind. by rewrite H. Qed.


Section TargetMatrix.
Context (W : World) (K : Constants).

(** Each call of [buildVersion] is one attempt, for the target that the
    context carries at the call. *)
Lemma buildVersion_attempts {R} ext m :
  attempts (@buildVersion W K R ext m).2 = attempts m ++ [PublishContext.target (context m)].
Proof.
  unfold buildVersion. rewrite (bind_normal _ _ m tt (announce ext m)) by done.
  rewrite (keeps_function attempts _ (guarded_attempts W K ext)).
  unfold attempts, announce, with_console. simpl.
  rewrite !omap_app. simpl. by rewrite app_nil_r.
Qed.

(** The body of a build never lets an exception out: the result of the
    guarded part is the result of the clean-up. *)
Lemma guarded_or_cleanup ext m :
  ∃ c m1, try_catch (tryBody W K ext) (catchClause ext) m = (c, m1) ∧ ∀ e, c ≠ Throw e.
Proof.
  unfold try_catch. destruct (tryBody W K ext m) as [[[] | r | e] m1] eqn:Hbody.
  - by eexists _, _.
  - by eexists _, _.
  - pose proof (catchClause_completes (R := option Options.t) ext e m1) as Hh.
    destruct (catchClause ext e m1) as [c h]. simpl in Hh. subst c. by eexists _, _.
Qed.

Lemma buildVersion_completes {R} ext m :
  cleanUpSucceeds W K ext → ∃ options, (@buildVersion W K R ext m).1 = Normal options.
Proof.
  intros Hclean. unfold buildVersion.
  rewrite (bind_normal _ _ m tt (announce ext m)) by done.
  unfold function, try_finally.
  destruct (guarded_or_cleanup ext (announce ext m)) as (c & m1 & -> & Hc).
  assert (∃ m2, cleanUp W K ext m1 = (Normal tt, m2)) as [m2 ->].
  { unfold cleanUp. destruct Hclean as [-> | Hexec]; [by eexists |].
    destruct (JsString.truthy_opt _); [| by eexists].
    unfold outside. rewrite Hexec. by eexists. }
  destruct c as [[] | r | e]; simpl; eauto. by destruct (Hc e).
Qed.

Lemma buildVersion_cleanup_fails {R} ext m e :
  JsString.truthy_opt (Extension.pythonVersion ext) = true →
  (∀ t, exec W t ("pyenv global " +:+ defaultPythonVersion K) None = Failed e) →
  (@buildVersion W K R ext m).1 = Throw e.
Proof.
  intros Hpy Hexec. unfold buildVersion.
  rewrite (bind_normal _ _ m tt (announce ext m)) by done.
  unfold function, try_finally.
  destruct (try_catch (tryBody W K ext) (catchClause ext) (announce ext m)) as [c m1].
  unfold cleanUp. rewrite Hpy. unfold outside. by rewrite Hexec.
Qed.

(** When the clean-up cannot fail, the loop over the declared targets makes
    one attempt per entry, in order. *)
Lemma buildTargets_attempts {R} ext entries allOptions m :
  cleanUpSucceeds W K ext →
  (∃ all, (@buildTargets W K R ext entries allOptions m).1 = Normal all)
  ∧ attempts (@buildTargets W K R ext entries allOptions m).2
    = attempts m ++ map (λ entry, Some entry.1) entries.
Proof.
  intros Hclean. revert allOptions m.
  induction entries as [| [target data] rest IH]; intros allOptions m; simpl.
  - split; [by eexists |]. by rewrite app_nil_r.
  - set (m1 := with_context (PublishContext.set_target (Some target)) m).
    rewrite (bind_normal _ _ m tt m1) by done.
    set (m2 := match data with
               | TargetTrue => m1
               | TargetObject env =>
                   with_context (PublishContext.set_environmentVariables env) m1
               end).
    rewrite (bind_normal _ _ m1 tt m2) by (by destruct data).
    destruct (buildVersion_completes (R := R) ext m2 Hclean) as [options Hdone].
    pose proof (buildVersion_attempts (R := R) ext m2) as Hatt.
    destruct (buildVersion W K ext m2) as [c m3] eqn:Hrun. simpl in Hdone, Hatt. subst c.
    rewrite (bind_normal _ _ m2 options m3) by done.
    destruct (IH (push options allOptions) m3) as [Hall Hrest].
    split; [done |]. rewrite Hrest, Hatt.
    assert (attempts m2 = attempts m) as -> by (by destruct data).
    assert (PublishContext.target (context m2) = Some target) as -> by (by destruct data).
    by rewrite <- app_assoc.
Qed.

(** The target matrix when the clean-up cannot fail: without a map of
    downloaded files, a descriptor without targets gets exactly one attempt,
    for the target of the context as it came in; a descriptor with targets
    gets one attempt per target, in order; and the function returns. *)
Lemma one_build_per_target {R} ext m :
  cleanUpSucceeds W K ext →
  PublishContext.files (context m) = None →
  (∃ files, (@buildExtension W K R ext m).1 = Normal files)
  ∧ attempts (@buildExtension W K R ext m).2
    = attempts m ++
        match Extension.target ext with
        | Some entries => map (λ entry, Some entry.1) entries
        | None => [PublishContext.target (context m)]
        end.
Proof.
  intros Hclean Hfiles. unfold buildExtension.
  set (m1 := with_context PublishContext.set_dates m).
  rewrite (bind_normal _ _ m tt m1) by done.
  rewrite (bind_normal _ _ m1 (context m1) m1) by done.
  assert (PublishContext.files (context m1) = None) as -> by done.
  destruct (Extension.target ext) as [entries |].
  - destruct (buildTargets_attempts (R := R) ext entries [] m1 Hclean) as [[all Hall] Hatt].
    destruct (buildTargets W K ext entries [] m1) as [c m2] eqn:Hrun. simpl in Hall, Hatt. subst c.
    rewrite (bind_normal _ _ m1 all m2) by done. simpl. split; [by eexists | done].
  - destruct (buildVersion_completes (R := R) ext m1 Hclean) as [options Hdone].
    pose proof (buildVersion_attempts (R := R) ext m1) as Hatt.
    destruct (buildVersion W K ext m1) as [c m2] eqn:Hrun. simpl in Hdone, Hatt. subst c.
    rewrite (bind_normal _ _ m1 (push options []) m2)
      by (by rewrite (bind_normal _ _ m1 options m2)).
    simpl. split; [by eexists | done].
Qed.

(** C3, at the input where the code departs from it: the descriptor asks
    for a Python version and declares targets, and the command that restores
    the default Python version fails.  That command runs in the [finally]
    clause, outside the [try]: its exception leaves [buildVersion] and ends
    the loop over the targets.  Only the first declared target is attempted,
    however many are declared, and the function throws. *)
Theorem failed_cleanup_ends_the_target_loop {R} ext m e target data rest :
  JsString.truthy_opt (Extension.pythonVersion ext) = true →
  (∀ t, exec W t ("pyenv global " +:+ defaultPythonVersion K) None = Failed e) →
  PublishContext.files (context m) = None →
  Extension.target ext = Some ((target, data) :: rest) →
  (@buildExtension W K R ext m).1 = Throw e
  ∧ attempts (@buildExtension W K R ext m).2 = attempts m ++ [Some target].
Proof.
  intros Hpy Hexec Hfiles Htargets. unfold buildExtension.
  set (m1 := with_context PublishContext.set_dates m).
  rewrite (bind_normal _ _ m tt m1) by done.
  rewrite (bind_normal _ _ m1 (context m1) m1) by done.
  assert (PublishContext.files (context m1) = None) as -> by done.
  rewrite Htargets. simpl.
  set (m2 := with_context (PublishContext.set_target (Some target)) m1).
  set (m3 := match data with
             | TargetTrue => m2
             | TargetObject env =>
                 with_context (PublishContext.set_environmentVariables env) m2
             end).
  pose proof (buildVersion_cleanup_fails (R := R) ext m3 e Hpy Hexec) as Hthrow.
  pose proof (buildVersion_attempts (R := R) ext m3) as Hatt.
  destruct (buildVersion W K ext m3) as [c m4] eqn:Hrun. simpl in Hthrow, Hatt. subst c.
  assert (buildTargets W K (R := R) ext ((target, data) :: rest) [] m1 = (Throw e, m4)) as Hloop.
  { simpl. rewrite (bind_normal _ _ m1 tt m2) by done.
    rewrite (bind_normal _ _ m2 tt m3) by (by destruct data).
    by rewrite (bind_throw _ _ m3 e m4). }
  rewrite (bind_throw _ _ m1 e m4) by exact Hloop.
  simpl. split; [done |]. rewrite Hatt.
  assert (attempts m3 = attempts m) as -> by (by destruct data).
  assert (PublishContext.target (context m3) = Some target) as -> by (by destruct data).
  done.
Qed.
End TargetMatrix.

Lemma failed_cleanup_ends_the_target_loop_witness :
  let shell := λ command : string,
    if String.eqb command "pyenv global 3.8"
    then Failed (Rejected (VObject "Error: Command failed: pyenv global 3.8"))
    else Done tt in
  let W := Sample.world (Sample.package "ms-python" "python" "2024.1.0" (Some "MIT") None)
             Sample.all_published shell [] true in
  let K := Sample.constants [] in
  let ext := Sample.extension "ms-python.python" (Some "3.9.0")
               (Some [("linux-x64", TargetTrue); ("darwin-x64", TargetTrue)]) in
  let m := Sample.machine ∅ ∅ (Sample.fromRepo "/tmp/repository" "main" None) in
  (@buildExtension W K unit ext m).1
    = Throw (Rejected (VObject "Error: Command failed: pyenv global 3.8"))
  ∧ attempts (@buildExtension W K unit ext m).2 = [Some "linux-x64"].
Proof.
  intros shell W K ext m.
  apply (failed_cleanup_ends_the_target_loop W K (R := unit) ext m _
           "linux-x64" TargetTrue [("darwin-x64", TargetTrue)]).
  - reflexivity.
  - intros t. reflexivity.
  - reflexivity.
  - reflexivity.
Defined.

(** ** The version-freshness gate *)

Section VersionGate.
Context (W : World) (K : Constants).

Lemma tryBody_prepared ext m pkgPath options pkg version m1 :
  prepare W K (R := option Options.t) ext m = (Normal (pkgPath, options, pkg, version), m1) →
  tryBody W K ext m = gates W K ext pkgPath options pkg version m1.
Proof. intros Hprep. unfold tryBody. by rewrite (bind_normal _ _ _ _ _ Hprep). Qed.

(** The preparation leaves the switches and the registry version of the
    context as they were when the build was announced. *)
Lemma prepare_observations ext m r m1 :
  prepare W K (R := option Options.t) ext (announce ext m) = (r, m1) →
  env m1 !! "FORCE" = env m !! "FORCE"
  ∧ env m1 !! "SKIP_PUBLISH" = env m !! "SKIP_PUBLISH"
  ∧ registryVersion m1 = registryVersion m.
Proof.
  intros Hprep.
  pose proof (prepare_switches W K (R := option Options.t) ext (announce ext m)) as Hs.
  pose proof (prepare_registryVersion W K (R := option Options.t) ext (announce ext m)) as Hv.
  rewrite Hprep in Hs, Hv. simpl in Hs, Hv.
  injection Hs as Hforce Hskip. by rewrite Hforce, Hskip, Hv.
Qed.

Lemma versionGate_newer {A} ovsx version m :
  registryVersion m = Some ovsx → JsString.truthy ovsx = true →
  semver_gt W ovsx version = Done true →
  @versionGate W A version m = (Throw (Error (outOfDate ovsx version)), m).
Proof.
  unfold registryVersion. intros Hctx Htruthy Hgt.
  unfold versionGate, mbind, Js_bind, read. simpl.
  rewrite Hctx, Htruthy, Hgt. done.
Qed.


(** The clean-up changes neither the console, nor the exit code, nor the
    file system, and it hands no options to the caller. *)
Lemma function_cleanUp {R} ext m :
  let r := @function R Options.t (cleanUp W K ext) m in
  console r.2 = console m ∧ exitCode r.2 = exitCode m ∧ fs r.2 = fs m
  ∧ ∀ o, r.1 ≠ Normal (Some o).
Proof.
  unfold function, cleanUp, outside.
  destruct (JsString.truthy_opt _); [| done].
  by destruct (exec W (clock m) _ None).
Qed.



(** C2.  A build that resolves its version, for a context whose registry
    version is known and newer than it.  Whatever [FORCE] is, the body
    throws the out-of-date error; nothing is skipped: the [catch] clause
    logs the error, the exit code becomes 1 unless the text of the error
    matches the marker of the benign case, and no options reach the
    caller. *)
Theorem newer_registry_version_fails {R} ext m pkgPath options pkg version m1 ovsx :
  prepare W K (R := option Options.t) ext (announce ext m)
  = (Normal (pkgPath, options, pkg, version), m1) →
  registryVersion m = Some ovsx →
  JsString.truthy ovsx = true →
  semver_gt W ovsx version = Done true →
  let error := Error (outOfDate ovsx version) in
  tryBody W K ext (announce ext m) = (Throw error, m1)
  ∧ (∃ level, (level, Value error) ∈ console (@buildVersion W K R ext m).2)
  ∧ (benign error = false → exitCode (@buildVersion W K R ext m).2 = Some 1)
  ∧ (∀ o, (@buildVersion W K R ext m).1 ≠ Normal (Some o)).
Proof.
  intros Hprep Hctx Htruthy Hgt error.
  destruct (prepare_observations ext m _ m1 Hprep) as (_ & _ & Hversion).
  rewrite <- Hversion in Hctx.
  pose proof (versionGate_newer (A := Options.t) ovsx version m1 Hctx Htruthy Hgt) as Hgate.
  assert (tryBody W K ext (announce ext m) = (Throw error, m1)) as Hbody.
  { rewrite (tryBody_prepared ext _ _ _ _ _ _ Hprep). unfold gates.
    by rewrite (bind_throw _ _ _ _ _ Hgate). }
  split; [done |].
  rewrite (buildVersion_caught W K ext error m m1 Hbody).
  destruct (function_cleanUp (R := R) ext (@catchClause (option Options.t) ext error m1).2)
    as (Hconsole & Hexit & _ & Hnone).
  rewrite Hconsole, Hexit. split; [| split; [| done]].
  - unfold catchClause. destruct (benign error); simpl.
    + exists LLog. rewrite elem_of_app. right. by apply list_elem_of_singleton.
    + exists LError. rewrite elem_of_app. right. by apply list_elem_of_singleton.
  - intros Hnot. unfold catchClause. by rewrite Hnot.
Qed.
End VersionGate.


Lemma newer_registry_version_fails_witness :
  let pkg := Sample.package "redhat" "java" "1.2.3" (Some "EPL-2.0") None in
  let W := Sample.world pkg Sample.all_published Sample.everything_works [] true in
  let K := Sample.constants [] in
  let ext := Sample.extension "redhat.java" None None in
  let m := Sample.machine {["FORCE" := "true"]} ∅
             (Sample.fromFile "/tmp/download/java.vsix" (Some "1.3.0")) in
  tryBody W K ext (announce ext m)
    = (Throw (Error "extensions.json is out-of-date: Open VSX version 1.3.0 is already greater than specified version 1.2.3"),
       (prepare W K (R := option Options.t) ext (announce ext m)).2)
  ∧ exitCode (@buildVersion W K unit ext m).2 = Some 1.
Proof.
  intros pkg W K ext m.
  set (options := Options.mk (Some "/tmp/download/java.vsix") (Some [None]) false).
  assert (prepare W K (R := option Options.t) ext (announce ext m)
          = (Normal (None, Some options, pkg, "1.2.3"),
             (prepare W K (R := option Options.t) ext (announce ext m)).2)) as Hprep
    by (vm_compute; reflexivity).
  destruct (newer_registry_version_fails W K (R := unit) ext m None (Some options) pkg
              "1.2.3" _ "1.3.0" Hprep eq_refl eq_refl eq_refl)
    as (Hbody & _ & Hexit & _).
  split; [exact Hbody | apply Hexit; reflexivity].
Defined.

(** ** The license gate *)



(** ** The dependency gate *)

Section DependencyGate.
Context (W : World) (K : Constants).

Lemma ticks_tick n m : ticks n (tick m) = ticks (S n) m.
Proof. unfold ticks. by rewrite Nat.iter_succ_r. Qed.

(** The loop over the dependencies computes the absent ones among those it
    looks up, and makes one call per lookup. *)
Lemma dependenciesNotOnOpenVsx_spec {R} extensions dependencies found m :
  let looked := filter (λ dependency,
                  shortcut (env m !! "SKIP_PUBLISH") extensions dependency = false)
                  dependencies in
  @dependenciesNotOnOpenVsx W R extensions dependencies found m
  = (Normal (found ++ absentAt W (clock m) looked), ticks (length looked) m).
Proof.
  revert found m. induction dependencies as [| d rest IH]; intros found m; simpl.
  - by rewrite app_nil_r.
  - unfold mbind, Js_bind, getenv, read. simpl.
    destruct (shortcut (env m !! "SKIP_PUBLISH") extensions d) eqn:Hshort.
    + rewrite filter_cons_False by (by rewrite Hshort). apply IH.
    + rewrite filter_cons_True by done. cbn [length absentAt].
      rewrite <- ticks_tick. unfold settled.
      destruct (getExtension W (clock m) d) as [[ext |] | reason];
        rewrite IH; try done.
      by rewrite <- app_assoc.
Qed.

Lemma absentAt_elem t looked d :
  d ∈ absentAt W t looked → ∃ t', getExtension W t' d = Fulfilled None.
Proof.
  revert t. induction looked as [| x rest IH]; intros t; simpl.
  - by intros ?%elem_of_nil.
  - destruct (getExtension W t x) as [[ext |] | reason] eqn:Hlookup; eauto.
    intros [-> | Hin]%elem_of_cons; eauto.
Qed.

Lemma absentAt_rejected t looked :
  (∀ t' d, d ∈ looked → ∃ reason, getExtension W t' d = RejectedWith reason) →
  absentAt W t looked = [].
Proof.
  revert t. induction looked as [| x rest IH]; intros t Hout; simpl; [done |].
  destruct (Hout t x) as [reason ->]; [apply elem_of_cons; by left |].
  apply IH. intros t' d Hin. apply Hout. apply elem_of_cons. by right.
Qed.

Lemma nothing_unpublishable dependencies :
  (∀ d, d ∈ dependencies → isBuiltIn d = false → d ∉ cannotPublish K) →
  filter (λ dependency, dependency ∈ cannotPublish K)
    (filter (λ id, isBuiltIn id = false) dependencies) = [].
Proof.
  intros Hnone.
  destruct (filter _ (filter _ dependencies)) as [| x l] eqn:Hfilter; [done |].
  assert (x ∈ filter (λ dependency, dependency ∈ cannotPublish K)
                (filter (λ id, isBuiltIn id = false) dependencies)) as Hx
    by (rewrite Hfilter; apply elem_of_cons; by left).
  apply list_elem_of_filter in Hx as [Hcannot Hx].
  apply list_elem_of_filter in Hx as [Hbuiltin Hx].
  by destruct (Hnone x Hx Hbuiltin).
Qed.

(** The gate, for a manifest with dependencies none of which is on the
    cannot-publish list, once the catalogue has been read. *)
Lemma dependencyGate_spec {R} ext pkg mf dependencies extensions m :
  manifest pkg = Some mf →
  Manifest.extensionDependencies mf = Some dependencies →
  (∀ d, d ∈ dependencies → isBuiltIn d = false → d ∉ cannotPublish K) →
  readCatalogue W (clock m) = Done extensions →
  let absent :=
    absentAt W (S (clock m)) (queried (env m !! "SKIP_PUBLISH") extensions dependencies) in
  (@dependencyGate W K R ext pkg m).1
  = match absent with
    | [] => Normal tt
    | _ :: _ => Throw (Error (notOnOpenVsx (Extension.id ext) absent))
    end.
Proof.
  intros Hmf Hdeps Hnone Hcatalogue absent.
  unfold dependencyGate. rewrite Hmf, Hdeps.
  rewrite (nothing_unpublishable dependencies Hnone). simpl.
  unfold mbind, Js_bind, outside. rewrite Hcatalogue.
  rewrite dependenciesNotOnOpenVsx_spec. simpl.
  fold (queried (env m !! "SKIP_PUBLISH") extensions dependencies). fold absent.
  by destruct absent.
Qed.

(** C4, as the code has it.  For a manifest with dependencies none of which
    is on the cannot-publish list, once the catalogue has been read: when
    some looked-up dependency is absent from the registry, the gate throws
    one error that names every absent dependency, in order; when none is
    absent, the gate passes. *)
Theorem absent_dependencies_reported_together {R} ext pkg mf dependencies extensions m :
  manifest pkg = Some mf →
  Manifest.extensionDependencies mf = Some dependencies →
  (∀ d, d ∈ dependencies → isBuiltIn d = false → d ∉ cannotPublish K) →
  readCatalogue W (clock m) = Done extensions →
  let absent :=
    absentAt W (S (clock m)) (queried (env m !! "SKIP_PUBLISH") extensions dependencies) in
  (absent ≠ [] →
     (@dependencyGate W K R ext pkg m).1
     = Throw (Error (notOnOpenVsx (Extension.id ext) absent)))
  ∧ (absent = [] → (@dependencyGate W K R ext pkg m).1 = Normal tt).
Proof.
  intros Hmf Hdeps Hnone Hcatalogue absent.
  rewrite (dependencyGate_spec ext pkg mf dependencies extensions m Hmf Hdeps Hnone Hcatalogue).
  fold absent. by destruct absent.
Qed.

(** C9.  Every dependency that the loop adds to the missing list had a
    lookup fulfilled with no extension: a rejected lookup adds nothing.  So
    when every lookup is rejected, the gate never throws the error about
    dependencies missing from the registry: it fails only on the
    cannot-publish list or on reading the catalogue, and passes otherwise. *)
Theorem rejected_lookup_counts_as_published {R} ext pkg mf dependencies m :
  manifest pkg = Some mf →
  Manifest.extensionDependencies mf = Some dependencies →
  (∀ extensions looked found m' missing d,
     (@dependenciesNotOnOpenVsx W R extensions looked found m').1 = Normal missing →
     d ∈ missing → d ∈ found ∨ ∃ t, getExtension W t d = Fulfilled None)
  ∧ ((∀ t d, d ∈ dependencies → ∃ reason, getExtension W t d = RejectedWith reason) →
     (@dependencyGate W K R ext pkg m).1
     = match filter (λ dependency, dependency ∈ cannotPublish K)
               (filter (λ id, isBuiltIn id = false) dependencies) with
       | (_ :: _) as listed => Throw (Error (unpublishable (Extension.id ext) listed))
       | [] =>
           match readCatalogue W (clock m) with
           | Failed e => Throw e
           | Done _ => Normal tt
           end
       end).
Proof.
  intros Hmf Hdeps. split.
  - intros extensions looked found m' missing d.
    rewrite dependenciesNotOnOpenVsx_spec. simpl. intros [= <-].
    intros [Hfound | Habsent]%elem_of_app; [by left | right].
    by apply absentAt_elem in Habsent.
  - intros Hout. unfold dependencyGate. rewrite Hmf, Hdeps.
    destruct (filter _ (filter _ dependencies)) as [| x listed] eqn:Hlisted; [| done].
    simpl. unfold mbind, Js_bind, outside.
    destruct (readCatalogue W (clock m)) as [extensions | e]; [| done].
    rewrite dependenciesNotOnOpenVsx_spec. simpl.
    rewrite absentAt_rejected; [done |].
    intros t d Hin. apply Hout.
    apply list_elem_of_filter in Hin as [_ Hin].
    by apply list_elem_of_filter in Hin as [_ Hin].
Qed.
End DependencyGate.

Lemma absent_dependencies_reported_together_witness :
  let dependencies := ["vscode.git"; "redhat.java"; "twxs.cmake"; "ms-vscode.cmake-tools"] in
  let pkg := Sample.package "vadimcn" "vscode-lldb" "1.10.0" (Some "MIT") (Some dependencies) in
  let W := Sample.world pkg Sample.nothing_published Sample.everything_works
             ["redhat.java"; "vadimcn.vscode-lldb"] true in
  let K := Sample.constants ["ms-vscode.cpptools"] in
  let ext := Sample.extension "vadimcn.vscode-lldb" None None in
  let m := Sample.machine {["SKIP_PUBLISH" := "true"]} ∅
             (Sample.fromFile "/tmp/download/lldb.vsix" None) in
  (@dependencyGate W K unit ext pkg m).1
  = Throw (Error "vadimcn.vscode-lldb is dependent on twxs.cmake, ms-vscode.cmake-tools, which have to be published to Open VSX first").
Proof.
  intros dependencies pkg W K ext m.
  apply (absent_dependencies_reported_together W K (R := unit) ext pkg
           (Manifest.mk (Some "1.10.0") (Some "MIT") (Some dependencies)) dependencies
           ["redhat.java"; "vadimcn.vscode-lldb"] m eq_refl eq_refl).
  - intros d Hd _ Hcannot. apply list_elem_of_singleton in Hcannot as ->.
    vm_compute in Hd. repeat (apply elem_of_cons in Hd as [Hd | Hd]; [discriminate Hd |]).
    by apply elem_of_nil in Hd.
  - reflexivity.
  - vm_compute. discriminate.
Defined.

(** C4 as the specification words it fails when a dependency is on the
    cannot-publish list: the build then fails on that list, with an error
    that names the dependency on it and not the other absent one. *)
Lemma cannot_publish_list_comes_first :
  let dependencies := ["ms-vscode.cpptools"; "twxs.cmake"] in
  let pkg := Sample.package "vadimcn" "vscode-lldb" "1.10.0" (Some "MIT") (Some dependencies) in
  let W := Sample.world pkg Sample.nothing_published Sample.everything_works [] true in
  let K := Sample.constants ["ms-vscode.cpptools"] in
  let ext := Sample.extension "vadimcn.vscode-lldb" None None in
  let m := Sample.machine ∅ ∅ (Sample.fromFile "/tmp/download/lldb.vsix" None) in
  (@dependencyGate W K unit ext pkg m).1
  = Throw (Error "vadimcn.vscode-lldb is dependent on ms-vscode.cpptools, which has to be published to Open VSX first by its author because of its license.")
  ∧ ¬ reportsAllAbsent W K ext pkg m.
Proof.
  intros dependencies pkg W K ext m. split; [reflexivity |].
  intros Hclaim.
  specialize (Hclaim (Manifest.mk (Some "1.10.0") (Some "MIT") (Some dependencies))
                dependencies [] eq_refl eq_refl eq_refl).
  vm_compute in Hclaim.
  assert (Hgate := Hclaim ltac:(discriminate)).
  discriminate Hgate.
Qed.

Lemma rejected_lookup_counts_as_published_witness :
  let dependencies := ["vscode.git"; "twxs.cmake"] in
  let pkg := Sample.package "vadimcn" "vscode-lldb" "1.10.0" (Some "MIT") (Some dependencies) in
  let W := Sample.world pkg Sample.outage Sample.everything_works [] true in
  let K := Sample.constants ["ms-vscode.cpptools"] in
  let ext := Sample.extension "vadimcn.vscode-lldb" None None in
  let m := Sample.machine ∅ ∅ (Sample.fromFile "/tmp/download/lldb.vsix" None) in
  (@dependencyGate W K unit ext pkg m).1 = Normal tt.
Proof.
  intros dependencies pkg W K ext m.
  destruct (rejected_lookup_counts_as_published W K (R := unit) ext pkg
              (Manifest.mk (Some "1.10.0") (Some "MIT") (Some dependencies)) dependencies
              m eq_refl eq_refl) as [_ Houtage].
  rewrite Houtage; [reflexivity |].
  intros t d _. eexists. reflexivity.
Defined.

(** ** The publish gate *)

Section PublishGate.
Context (W : World) (K : Constants).

(** X26.  Where the manifest names what is compared.  For an archive whose XML
    manifest is read, with [publisher] and [id] the attributes of its
    [Identity] element ([undefined] when the manifest or the element is
    missing): both are compared with the namespace and the name of the
    requested id after lower-casing, by whatever case mapping the runtime
    has.  When
    the publisher differs, or when the publisher agrees and the name
    differs, the loop logs the mismatch as an error and goes on with the
    remaining archives from a machine that has received nothing but that
    line and the tick of the read, so that no request for this archive has
    reached the registry.  When both agree, the archive goes on to be
    published. *)
Theorem mismatch_skips_the_artifact {R} extensionId namespace name file rest xml attrs m :
  readXmlManifest W (clock m) file = Done xml →
  Xml.identity xml = Done attrs →
  identified attrs →
  let publisher := attrs ≫= Xml.Publisher in
  let id := attrs ≫= Xml.Id in
  let one := @publishOne W K R extensionId namespace (Some name) in
  (toLowerCase W <$> publisher ≠ Some (toLowerCase W namespace) →
     for_of (file :: rest) one m
     = for_of rest one
         (with_console (LError, Text (namespaceMismatch namespace publisher)) (tick m)))
  ∧ (toLowerCase W <$> publisher = Some (toLowerCase W namespace) →
     toLowerCase W <$> id ≠ Some (toLowerCase W name) →
     for_of (file :: rest) one m
     = for_of rest one
         (with_console (LError, Text (extensionMismatch (Some name) id)) (tick m)))
  ∧ (toLowerCase W <$> publisher = Some (toLowerCase W namespace) →
     toLowerCase W <$> id = Some (toLowerCase W name) →
     one file m = publishFile W K extensionId namespace (Some name) file (tick m)).
Proof.
  intros Hread Hidentity Hattrs publisher id one.
  assert (Xml.lower_of (toLowerCase W) Xml.Publisher xml = Done (toLowerCase W <$> publisher)
          ∧ Xml.lower_of (toLowerCase W) Xml.Id xml = Done (toLowerCase W <$> id)
          ∧ Xml.publisher xml = Done publisher
          ∧ Xml.name xml = Done id) as (Hlp & Hli & Hp & Hn).
  { unfold Xml.lower_of, Xml.publisher, Xml.name. rewrite Hidentity.
    subst publisher id. destruct attrs as [a |]; [| done].
    destruct (Hattrs a eq_refl) as [[p Hpa] [i Hia]]. simpl. by rewrite Hpa, Hia. }
  assert (∀ k : option Xml.t → Js R unit,
            (outside (λ t, readXmlManifest W t file) ≫= k) m = k xml (tick m)) as Hstart.
  { intros k. apply bind_normal. unfold outside. by rewrite Hread. }
  repeat split.
  - intros Hne.
    assert (one file m
            = (Normal tt,
               with_console (LError, Text (namespaceMismatch namespace publisher))
                 (tick m))) as Hone.
    { subst one. unfold publishOne.
      rewrite Hstart. unfold mbind, Js_bind, lift. rewrite Hlp. simpl.
      rewrite bool_decide_eq_false_2 by done. simpl. by rewrite Hp. }
    simpl. by rewrite (bind_normal _ _ _ _ _ Hone).
  - intros Heq Hne.
    assert (one file m
            = (Normal tt,
               with_console (LError, Text (extensionMismatch (Some name) id))
                 (tick m))) as Hone.
    { subst one. unfold publishOne.
      rewrite Hstart. unfold mbind, Js_bind, lift. rewrite Hlp. simpl.
      rewrite bool_decide_eq_true_2 by done. simpl. rewrite Hli. simpl.
      rewrite bool_decide_eq_false_2 by done. simpl. by rewrite Hn. }
    simpl. by rewrite (bind_normal _ _ _ _ _ Hone).
  - intros Heqp Heqi. subst one. unfold publishOne.
    rewrite Hstart. unfold mbind at 1, Js_bind at 1, lift. rewrite Hlp. simpl.
    rewrite bool_decide_eq_true_2 by done. simpl.
    unfold mbind at 1, Js_bind at 1. rewrite Hli. simpl.
    unfold mbind at 1, Js_bind at 1. simpl.
    by rewrite bool_decide_eq_true_2 by done.
Qed.

(** The loop is what [module.exports] runs once the token is there. *)
Lemma publishExtension_loop {R} extensionId files m :
  JsString.truthy_opt (env m !! "OVSX_PAT") = true →
  @publishExtension W K R extensionId files m
  = for_of files
      (publishOne W K extensionId (default EmptyString (JsString.split_dot extensionId !! 0%nat))
         (JsString.split_dot extensionId !! 1%nat))
      (with_console
         (LLog, Text ("Attempting to publish " +:+ extensionId +:+ " to Open VSX")) m).
Proof.
  intros Htoken. unfold publishExtension, mbind, Js_bind, console_, update, getenv, read.
  simpl. by rewrite Htoken.
Qed.
End PublishGate.

Lemma mismatch_skips_the_artifact_witness :
  let pkg := Sample.package "RedHat" "Java" "1.2.3" (Some "EPL-2.0") None in
  let W := Sample.world pkg Sample.all_published Sample.everything_works [] true in
  let K := Sample.constants [] in
  let m := Sample.machine {["OVSX_PAT" := "token"]} ∅
             (Sample.fromFile "/tmp/download/java.vsix" None) in
  requests (@publishExtension W K unit "redhat.kotlin" ["/tmp/artifacts/redhat.kotlin.vsix"] m).2
    = []
  ∧ requests (@publishExtension W K unit "redhat.java" ["/tmp/artifacts/redhat.java.vsix"] m).2
    = [CreateNamespace "redhat" "https://open-vsx.org";
       Publish "/tmp/artifacts/redhat.java.vsix" "https://open-vsx.org"].
Proof.
  intros pkg W K m.
  set (attrs := Xml.mkAttrs (Some "1.2.3") (Some "RedHat") (Some "Java")).
  assert (identified (Some attrs)) as Hattrs.
  { intros a [= <-]. split; eexists; reflexivity. }
  split.
  - destruct (mismatch_skips_the_artifact W K (R := unit) "redhat.kotlin" "redhat" "kotlin"
                "/tmp/artifacts/redhat.kotlin.vsix" [] (xmlManifest pkg) (Some attrs)
                (with_console
                   (LLog, Text "Attempting to publish redhat.kotlin to Open VSX") m)
                eq_refl eq_refl Hattrs)
      as (_ & Hname & _).
    specialize (Hname eq_refl ltac:(discriminate)).
    match type of Hname with ?loop = _ => change (requests loop.2 = []) end.
    rewrite Hname. reflexivity.
  - reflexivity.
Defined.

Section PublishGateFails.
Context (W : World) (K : Constants).

(** C6, at the inputs where the code departs from it: an archive whose
    manifest is read but does not name what is compared.  The optional
    chain [xmlManifest?.PackageManifest?.Metadata[0]?.Identity[0]["$"]?.Publisher.toLowerCase()]
    guards a missing manifest, a missing root, an empty [Metadata] and a
    missing ["$"], which all count as a mismatch; it does not guard a
    missing [Metadata] or [Identity] element ([Xml.identity] fails), nor
    a ["$"] without the attribute [Publisher], nor, once the publisher
    agrees, one without [Id].  There the comparison throws a [TypeError]:
    no mismatch is logged, the exception ends the loop, and the archives
    after this one are neither read nor published. *)
Theorem unreadable_identity_ends_the_loop {R} extensionId namespace name file rest xml e m :
  readXmlManifest W (clock m) file = Done xml →
  Xml.identity xml = Failed e
  ∨ (∃ attrs, Xml.identity xml = Done (Some attrs)
       ∧ Xml.Publisher attrs = None
       ∧ e = Xml.undefined_index "toLowerCase")
  ∨ (∃ attrs publisher, Xml.identity xml = Done (Some attrs)
       ∧ Xml.Publisher attrs = Some publisher
       ∧ toLowerCase W publisher = toLowerCase W namespace
       ∧ Xml.Id attrs = None
       ∧ e = Xml.undefined_index "toLowerCase") →
  for_of (file :: rest) (@publishOne W K R extensionId namespace (Some name)) m
  = (Throw e, tick m).
Proof.
  intros Hread Hshape.
  assert (@publishOne W K R extensionId namespace (Some name) file m = (Throw e, tick m))
    as Hone.
  { unfold publishOne.
    rewrite (bind_normal _ _ m xml (tick m)) by (unfold outside; by rewrite Hread).
    destruct Hshape as [Hidentity | [(attrs & Hidentity & Hpublisher & ->)
                                    | (attrs & publisher & Hidentity & Hpublisher & Hsame & Hid & ->)]].
    - apply bind_throw. unfold lift, Xml.lower_of. by rewrite Hidentity.
    - apply bind_throw. unfold lift, Xml.lower_of. by rewrite Hidentity, Hpublisher.
    - rewrite (bind_normal _ _ (tick m) (Some (toLowerCase W namespace)) (tick m))
        by (unfold lift, Xml.lower_of; by rewrite Hidentity, Hpublisher, Hsame).
      rewrite bool_decide_eq_true_2 by done. simpl.
      apply bind_throw. unfold lift, Xml.lower_of. by rewrite Hidentity, Hid. }
  simpl. by apply bind_throw.
Qed.
End PublishGateFails.

Lemma unreadable_identity_ends_the_loop_witness :
  let unnamed :=
    Xml.mk (Some (Xml.mkPackageManifest (Some
      [Xml.mkMetadata
         (Some [Xml.mkIdentity (Some (Xml.mkAttrs (Some "1.2.3") None (Some "java")))])
         None]))) in
  let W := Sample.world (mkVsix (Some unnamed) None) Sample.all_published
             Sample.everything_works [] true in
  let K := Sample.constants [] in
  let m := Sample.machine {["OVSX_PAT" := "token"]} ∅
             (Sample.fromFile "/tmp/download/java.vsix" None) in
  let files := ["/tmp/artifacts/redhat.java@linux-x64.vsix";
                "/tmp/artifacts/redhat.java@darwin-arm64.vsix"] in
  @publishExtension W K unit "redhat.java" files m
  = (Throw (TypeError "Cannot read properties of undefined (reading 'toLowerCase')"),
     tick (with_console (LLog, Text "Attempting to publish redhat.java to Open VSX") m)).
Proof.
  intros unnamed W K m files.
  rewrite (publishExtension_loop W K "redhat.java" files m eq_refl).
  apply (unreadable_identity_ends_the_loop W K (R := unit) "redhat.java" "redhat" "java"
           "/tmp/artifacts/redhat.java@linux-x64.vsix"
           ["/tmp/artifacts/redhat.java@darwin-arm64.vsix"] (Some unnamed)).
  - reflexivity.
  - right. left. eexists. split; [reflexivity |]. split; reflexivity.
Defined.

(** ** The driver *)

Section DriverDefaults.
Context (W : World) (K : Constants).


(** The iteration over the catalogue lets no exception out. *)
Lemma publishExtensions_completes catalogue m :
  (publishExtensions W K (R := Empty_set) catalogue m).1 = Normal tt.
Proof.
  revert m. induction catalogue as [| [ext ctx] rest IH]; intros m; simpl; [done |].
  unfold mbind, Js_bind, update, try_catch. simpl.
  destruct (processExtension W K ext _) as [[[] | [] | e] m1]; simpl; apply IH.
Qed.

Lemma publishExtensions_app before after m :
  publishExtensions W K (R := Empty_set) (before ++ after) m
  = publishExtensions W K after (publishExtensions W K (R := Empty_set) before m).2.
Proof.
  revert m. induction before as [| [ext ctx] rest IH]; intros m; simpl; [done |].
  unfold mbind, Js_bind, update, try_catch. simpl.
  destruct (processExtension W K ext _) as [[[] | [] | e] m1]; simpl; apply IH.
Qed.

Lemma shortcut_known extensions d :
  d ∈ extensions → d ≠ EmptyString → shortcut (Some "true") extensions d = true.
Proof.
  intros Hin Hne. unfold shortcut. simpl.
  induction extensions as [| key rest IH]; [by apply elem_of_nil in Hin |].
  simpl. destruct (String.eqb key d) eqn:Hkey.
  - apply String.eqb_eq in Hkey as ->. by destruct d.
  - apply IH. apply elem_of_cons in Hin as [-> | Hin]; [| done].
    by rewrite String.eqb_refl in Hkey.
Qed.
End DriverDefaults.

(** ** The default configuration of the driver *)

(** Read from the environment, the configured scripts are the scripts. *)
Section ReadFromEnvironment.
Context (W : World) (K : Constants).

Lemma configured_versionGate {A} version :
  Configured.versionGate W (fromEnvironment "FORCE") (A := A) version = versionGate W version.
Proof. reflexivity. Qed.

Lemma configured_dependencyGate {R} ext pkg :
  @Configured.dependencyGate W K (fromEnvironment "SKIP_PUBLISH") R ext pkg
  = dependencyGate W K ext pkg.
Proof. reflexivity. Qed.

Lemma configured_buildVersion {R} ext :
  @Configured.buildVersion W K (fromEnvironment "FORCE") (fromEnvironment "SKIP_PUBLISH") R ext
  = buildVersion W K ext.
Proof. reflexivity. Qed.

Lemma configured_buildExtension {R} ext :
  @Configured.buildExtension W K (fromEnvironment "FORCE") (fromEnvironment "SKIP_PUBLISH") R ext
  = buildExtension W K ext.
Proof. reflexivity. Qed.

Lemma configured_main {R} catalogue :
  @Configured.main W K (fromEnvironment "FORCE") (fromEnvironment "SKIP_PUBLISH") R catalogue
  = main W K catalogue.
Proof. reflexivity. Qed.
End ReadFromEnvironment.

Section Agree.
Context {R : Type}.





End Agree.


Section DefaultConfiguration.
Context (W : World) (K : Constants).















End DefaultConfiguration.


(** * Further properties of the scripts *)

(** ** Reading a sequence backwards *)

Lemma bind_Normal_inv {R A B} (c : Js R A) (f : A → Js R B) m b m' :
  (c ≫= f) m = (Normal b, m') → ∃ a m1, c m = (Normal a, m1) ∧ f a m1 = (Normal b, m').
Proof.
  unfold mbind, Js_bind. destruct (c m) as [[a | r | e] m1]; [eauto | done | done].
Qed.

Lemma bind_Return_inv {R A B} (c : Js R A) (f : A → Js R B) m r m' :
  (c ≫= f) m = (Return r, m') →
  c m = (Return r, m') ∨ ∃ a m1, c m = (Normal a, m1) ∧ f a m1 = (Return r, m').
Proof.
  unfold mbind, Js_bind. destruct (c m) as [[a | r' | e] m1]; [eauto | | done].
  intros [= <- <-]. by left.
Qed.

(** ** Computations that never [return] *)

Section FallsThrough.
Context {R : Type}.

Lemma fallsThrough_ret {A} (a : A) : fallsThrough (mret a : Js R A).
Proof. by intros m r m'. Qed.

Lemma fallsThrough_throw {A} e : fallsThrough (throw e : Js R A).
Proof. by intros m r m'. Qed.

Lemma fallsThrough_read {A} (f : Machine → A) : fallsThrough (read f : Js R A).
Proof. by intros m r m'. Qed.

Lemma fallsThrough_update f : fallsThrough (update f : Js R unit).
Proof. by intros m r m'. Qed.

Lemma fallsThrough_lift {A} (x : Result A) : fallsThrough (lift x : Js R A).
Proof. by destruct x. Qed.

Lemma fallsThrough_outside {A} (f : nat → Result A) : fallsThrough (outside f : Js R A).
Proof. intros m r m'. unfold outside. by destruct (f (clock m)). Qed.

Lemma fallsThrough_settled {A} (f : nat → Settled A) :
  fallsThrough (settled f : Js R (Settled A)).
Proof. by intros m r m'. Qed.

Lemma fallsThrough_existsSync path : fallsThrough (existsSync path : Js R bool).
Proof. by intros m r m'. Qed.

Lemma fallsThrough_rmSync path : fallsThrough (rmSync path : Js R unit).
Proof. intros m r m'. unfold rmSync. by destruct (fs m !! path) as [[|] |]. Qed.

Lemma fallsThrough_mkdirSync path : fallsThrough (mkdirSync path : Js R unit).
Proof. intros m r m'. unfold mkdirSync. by destruct (fs m !! path). Qed.

Lemma fallsThrough_bind {A B} (c : Js R A) (f : A → Js R B) :
  fallsThrough c → (∀ a, fallsThrough (f a)) → fallsThrough (c ≫= f).
Proof.
  intros Hc Hf m r m' [Hret | (a & m1 & _ & Hret)]%bind_Return_inv.
  - by apply Hc in Hret.
  - by apply Hf in Hret.
Qed.

Lemma fallsThrough_fmap {A B} (g : A → B) (c : Js R A) :
  fallsThrough c → fallsThrough (g <$> c).
Proof. intros Hc. apply fallsThrough_bind; [done | intros; apply fallsThrough_ret]. Qed.

Lemma fallsThrough_try_catch {A} (body : Js R A) handler :
  fallsThrough body → (∀ e, fallsThrough (handler e)) → fallsThrough (try_catch body handler).
Proof.
  intros Hb Hh m r m'. unfold try_catch.
  destruct (body m) as [[a | r' | e] m1] eqn:Hbody; [done | | apply Hh].
  by apply Hb in Hbody.
Qed.

Lemma fallsThrough_try_finally {A} (body : Js R A) cleanup :
  fallsThrough body → fallsThrough cleanup → fallsThrough (try_finally body cleanup).
Proof.
  intros Hb Hc m r m'. unfold try_finally.
  destruct (body m) as [c m1] eqn:Hbody.
  destruct (cleanup m1) as [[[] | r' | e] m2] eqn:Hclean; [| | done].
  - intros [= -> <-]. by apply Hb in Hbody.
  - by apply Hc in Hclean.
Qed.

Lemma fallsThrough_function {B} (body : Js (option B) unit) :
  fallsThrough (function body : Js R (option B)).
Proof. intros m r m'. unfold function. by destruct (body m) as [[a | r' | e] m1]. Qed.

Lemma fallsThrough_for_of {A} (xs : list A) (body : A → Js R unit) :
  (∀ x, fallsThrough (body x)) → fallsThrough (for_of xs body).
Proof.
  intros Hb. induction xs as [| x xs IH]; simpl.
  - apply fallsThrough_ret.
  - apply fallsThrough_bind; [apply Hb | by intros _].
Qed.
End FallsThrough.

Ltac fallsThrough_step :=
  lazymatch goal with
  | |- fallsThrough (mret _) => apply fallsThrough_ret
  | |- fallsThrough (throw _) => apply fallsThrough_throw
  | |- fallsThrough (read _) => apply fallsThrough_read
  | |- fallsThrough (getenv _) => apply fallsThrough_read
  | |- fallsThrough (lift _) => apply fallsThrough_lift
  | |- fallsThrough (outside _) => apply fallsThrough_outside
  | |- fallsThrough (settled _) => apply fallsThrough_settled
  | |- fallsThrough (existsSync _) => apply fallsThrough_existsSync
  | |- fallsThrough (rmSync _) => apply fallsThrough_rmSync
  | |- fallsThrough (mkdirSync _) => apply fallsThrough_mkdirSync
  | |- fallsThrough (mbind _ _) => apply fallsThrough_bind; [| intros ?]
  | |- fallsThrough (fmap _ _) => apply fallsThrough_fmap
  | |- fallsThrough (try_catch _ _) => apply fallsThrough_try_catch; [| intros ?]
  | |- fallsThrough (try_finally _ _) => apply fallsThrough_try_finally
  | |- fallsThrough (function _) => apply fallsThrough_function
  | |- fallsThrough (for_of _ _) => apply fallsThrough_for_of; intros ?
  | |- fallsThrough (console_ _ _) => apply fallsThrough_update
  | |- fallsThrough (setenv _ _) => apply fallsThrough_update
  | |- fallsThrough (update _) => apply fallsThrough_update
  | |- fallsThrough (match ?x with _ => _ end) => destruct x
  | |- fallsThrough (let _ := _ in _) => cbv zeta
  end.

Ltac fallsThrough_steps := repeat fallsThrough_step.

Section BuildFallsThrough.
Context (W : World) (K : Constants).

Lemma acquire_fallsThrough {R} ext : fallsThrough (acquire W ext : Js R _).
Proof.
  unfold acquire, buildFromSource, pinRuntimes, customBuild, standardBuild, install.
  fallsThrough_steps.
Qed.

Lemma prepare_fallsThrough {R} ext : fallsThrough (prepare W K ext : Js R _).
Proof.
  unfold prepare, ensureBuildPrerequisites, readPackage, resolveVersion.
  fallsThrough_steps; apply acquire_fallsThrough.
Qed.

Lemma licenseGate_fallsThrough {R} ext pkgPath pkg :
  fallsThrough (licenseGate W ext pkgPath pkg : Js R _).
Proof. unfold licenseGate. fallsThrough_steps. Qed.

Lemma dependenciesNotOnOpenVsx_fallsThrough {R} extensions deps found :
  fallsThrough (dependenciesNotOnOpenVsx W extensions deps found : Js R _).
Proof.
  intros m r m'. by rewrite dependenciesNotOnOpenVsx_spec.
Qed.

Lemma dependencyGate_fallsThrough {R} ext pkg :
  fallsThrough (dependencyGate W K ext pkg : Js R _).
Proof.
  unfold dependencyGate. fallsThrough_steps. apply dependenciesNotOnOpenVsx_fallsThrough.
Qed.

Lemma finalize_fallsThrough {R} ext options :
  fallsThrough (finalize W K ext options : Js R _).
Proof. unfold finalize. fallsThrough_steps. Qed.

Lemma buildVersion_fallsThrough {R} ext : fallsThrough (buildVersion W K ext : Js R _).
Proof. unfold buildVersion. fallsThrough_steps. Qed.

Lemma buildExtension_fallsThrough {R} ext : fallsThrough (buildExtension W K ext : Js R _).
Proof.
  assert (∀ entries allOptions,
            fallsThrough (buildFiles W K (R := R) ext entries allOptions)) as Hfiles.
  { induction entries as [| [target file] rest IH]; intros allOptions; simpl.
    - apply fallsThrough_ret.
    - fallsThrough_steps; first [apply buildVersion_fallsThrough | apply IH]. }
  assert (∀ entries allOptions,
            fallsThrough (buildTargets W K (R := R) ext entries allOptions)) as Htargets.
  { induction entries as [| [target data] rest IH]; intros allOptions; simpl.
    - apply fallsThrough_ret.
    - fallsThrough_steps; first [apply buildVersion_fallsThrough | apply IH]. }
  unfold buildExtension.
  fallsThrough_steps;
    first [apply Hfiles | apply Htargets | apply buildVersion_fallsThrough].
Qed.

Lemma publishExtension_fallsThrough {R} extensionId files :
  fallsThrough (publishExtension W K extensionId files : Js R _).
Proof. unfold publishExtension, publishOne, publishFile. fallsThrough_steps. Qed.
End BuildFallsThrough.

(** ** More on the dependency gate *)

Section DependencyGateMore.
Context (W : World) (K : Constants).

(** X1.  A manifest one of whose dependencies, not built in, is on the
    cannot-publish list: the gate throws the error that names the listed
    dependencies, all of them and in the order of the manifest, and does so
    before anything is asked of the outside: the catalogue is not read and
    the registry is not queried. *)
Theorem cannot_publish_dependency_fails {R} ext pkg mf dependencies m :
  manifest pkg = Some mf →
  Manifest.extensionDependencies mf = Some dependencies →
  let listed := filter (λ dependency, dependency ∈ cannotPublish K)
                  (filter (λ id, isBuiltIn id = false) dependencies) in
  listed ≠ [] →
  @dependencyGate W K R ext pkg m
  = (Throw (Error (unpublishable (Extension.id ext) listed)), m).
Proof.
  intros Hmf Hdeps listed Hlisted. unfold dependencyGate. rewrite Hmf, Hdeps.
  fold listed. by destruct listed.
Qed.

(** What [absentAt] reads: the lookup number [i] is made at the moment
    [t + i] and asks for the dependency number [i]. *)
Lemma absentAt_lookup t looked d :
  d ∈ absentAt W t looked
  ↔ ∃ i, looked !! i = Some d ∧ getExtension W (t + i) d = Fulfilled None.
Proof.
  revert t. induction looked as [| x rest IH]; intros t; simpl.
  - split; [by intros ?%elem_of_nil | by intros (i & ? & _)].
  - assert (d ∈ absentAt W (S t) rest
            ↔ ∃ i, (x :: rest) !! S i = Some d
                   ∧ getExtension W (t + S i) d = Fulfilled None) as Hlater.
    { rewrite IH. by setoid_rewrite Nat.add_succ_r. }
    destruct (getExtension W t x) as [[found |] | reason] eqn:Hlookup.
    + rewrite Hlater. split; [intros (i & ?); by exists (S i) |].
      intros ([| i] & Hat & Hnone); [| by exists i].
      injection Hat as <-. rewrite Nat.add_0_r in Hnone. congruence.
    + rewrite elem_of_cons, Hlater. split.
      * intros [-> | (i & ?)]; [| by exists (S i)].
        exists 0. by rewrite Nat.add_0_r.
      * intros ([| i] & Hat & Hnone); [left; by injection Hat | right; by exists i].
    + rewrite Hlater. split; [intros (i & ?); by exists (S i) |].
      intros ([| i] & Hat & Hnone); [| by exists i].
      injection Hat as <-. rewrite Nat.add_0_r in Hnone. congruence.
Qed.

(** X2.  The loop over the dependencies asks the registry once for each
    dependency that is not shortcut, in order, and for no other: the
    lookup number [i] asks for the dependency number [i] among those, and
    there are as many calls as there are such dependencies.  A dependency
    is reported missing exactly when one of its own lookups was fulfilled
    with no extension, and the report keeps the order of the manifest. *)
Theorem lookups_follow_the_dependencies {R} extensions dependencies m :
  let looked := filter (λ dependency,
                  shortcut (env m !! "SKIP_PUBLISH") extensions dependency = false)
                  dependencies in
  let missing := absentAt W (clock m) looked in
  @dependenciesNotOnOpenVsx W R extensions dependencies [] m
  = (Normal missing, ticks (length looked) m)
  ∧ missing `sublist_of` looked
  ∧ ∀ d, d ∈ missing
         ↔ ∃ i, looked !! i = Some d ∧ getExtension W (clock m + i) d = Fulfilled None.
Proof.
  intros looked missing.
  split; [by rewrite dependenciesNotOnOpenVsx_spec |].
  split; [| apply absentAt_lookup].
  subst missing. generalize (clock m).
  induction looked as [| d rest IH]; intros t; simpl; [done |].
  destruct (getExtension W t d) as [[found |] | reason].
  - by apply sublist_cons.
  - by apply sublist_skip.
  - by apply sublist_cons.
Qed.

(** X3.  A manifest that declares no dependency list passes the gate without
    a call to the outside, and so does one whose list is empty except for
    the read of the catalogue. *)
Theorem no_dependencies_no_lookup {R} ext pkg mf m :
  manifest pkg = Some mf →
  (Manifest.extensionDependencies mf = None →
     @dependencyGate W K R ext pkg m = (Normal tt, m))
  ∧ (∀ dependencies extensions,
       Manifest.extensionDependencies mf = Some dependencies →
       Forall (λ id, isBuiltIn id = true) dependencies →
       readCatalogue W (clock m) = Done extensions →
       @dependencyGate W K R ext pkg m = (Normal tt, tick m)).
Proof.
  intros Hmf. split.
  - intros Hnone. unfold dependencyGate. by rewrite Hmf, Hnone.
  - intros dependencies extensions Hdeps Hbuiltin Hcatalogue.
    unfold dependencyGate. rewrite Hmf, Hdeps.
    assert (filter (λ id, isBuiltIn id = false) dependencies = []) as ->.
    { clear Hdeps. induction dependencies as [| d rest IH]; [done |].
      apply Forall_cons in Hbuiltin as [Hd Hrest].
      rewrite filter_cons_False by (by rewrite Hd). by apply IH. }
    simpl. unfold mbind, Js_bind, outside. by rewrite Hcatalogue.
Qed.
End DependencyGateMore.

Lemma cannot_publish_dependency_fails_witness :
  let dependencies := ["vscode.git"; "ms-vscode.cpptools"; "twxs.cmake"; "ms-vscode.remote-ssh"] in
  let pkg := Sample.package "vadimcn" "vscode-lldb" "1.10.0" (Some "MIT") (Some dependencies) in
  let W := Sample.world pkg Sample.all_published Sample.everything_works [] true in
  let K := Sample.constants ["ms-vscode.remote-ssh"; "ms-vscode.cpptools"] in
  let ext := Sample.extension "vadimcn.vscode-lldb" None None in
  let m := Sample.machine ∅ ∅ (Sample.fromFile "/tmp/download/lldb.vsix" None) in
  @dependencyGate W K unit ext pkg m
  = (Throw (Error "vadimcn.vscode-lldb is dependent on ms-vscode.cpptools, ms-vscode.remote-ssh, which have to be published to Open VSX first by their authors because of their licenses."),
     m).
Proof.
  intros dependencies pkg W K ext m.
  apply (cannot_publish_dependency_fails W K (R := unit) ext pkg
           (Manifest.mk (Some "1.10.0") (Some "MIT") (Some dependencies)) dependencies m
           eq_refl eq_refl).
  vm_compute. discriminate.
Defined.

Lemma no_dependencies_no_lookup_witness :
  let pkg := Sample.package "redhat" "java" "1.2.3" (Some "EPL-2.0") (Some ["vscode.git"]) in
  let W := Sample.world pkg Sample.nothing_published Sample.everything_works [] true in
  let K := Sample.constants [] in
  let ext := Sample.extension "redhat.java" None None in
  let m := Sample.machine ∅ ∅ (Sample.fromFile "/tmp/download/java.vsix" None) in
  @dependencyGate W K unit ext pkg m = (Normal tt, tick m).
Proof.
  intros pkg W K ext m.
  destruct (no_dependencies_no_lookup W K (R := unit) ext pkg
              (Manifest.mk (Some "1.2.3") (Some "EPL-2.0") (Some ["vscode.git"])) m eq_refl)
    as [_ Hbuiltin].
  apply (Hbuiltin ["vscode.git"] []); [reflexivity | | reflexivity].
  repeat constructor.
Defined.

(** ** More on the version-freshness gate *)

(** X4.  A context without a registry version, or with an empty one, passes
    the gate without a comparison; so does a registry version that is
    neither newer than nor equal to the resolved one, whatever [FORCE] is.
    A version that [semver] rejects makes the gate throw what [semver]
    threw. *)
Theorem unknown_or_older_registry_version_passes (W : World) {A} version m :
  (JsString.truthy_opt (registryVersion m) = false →
     @versionGate W A version m = (Normal tt, m))
  ∧ (∀ ovsx, registryVersion m = Some ovsx → JsString.truthy ovsx = true →
       semver_gt W ovsx version = Done false →
       semver_eq W ovsx version = Done false →
       @versionGate W A version m = (Normal tt, m))
  ∧ (∀ ovsx e, registryVersion m = Some ovsx → JsString.truthy ovsx = true →
       semver_gt W ovsx version = Failed e →
       @versionGate W A version m = (Throw e, m)).
Proof.
  unfold registryVersion, versionGate, mbind, Js_bind, read. simpl. repeat split.
  - destruct (PublishContext.ovsxVersion (context m)) as [ovsx |]; [| done].
    simpl. by intros ->.
  - intros ovsx -> -> Hgt Heq. rewrite Hgt. simpl. by rewrite Heq.
  - intros ovsx e -> -> Hgt. by rewrite Hgt.
Qed.

Lemma unknown_or_older_registry_version_passes_witness :
  let W := Sample.world (mkVsix None None) Sample.all_published Sample.everything_works [] true in
  let m := Sample.machine ∅ ∅ (Sample.fromFile "/tmp/download/java.vsix" (Some "1.2.3")) in
  @versionGate W Options.t "1.3.0" m = (Normal tt, m)
  ∧ (@versionGate W Options.t "1.3.0-next" m).1 = Throw (TypeError "Invalid Version: 1.3.0-next").
Proof.
  intros W m.
  destruct (unknown_or_older_registry_version_passes W (A := Options.t) "1.3.0" m)
    as (_ & Holder & _).
  destruct (unknown_or_older_registry_version_passes W (A := Options.t) "1.3.0-next" m)
    as (_ & _ & Hinvalid).
  split.
  - by apply (Holder "1.2.3").
  - by rewrite (Hinvalid "1.2.3" (TypeError "Invalid Version: 1.3.0-next")).
Defined.

(** ** More on the publish gate *)

Section PublishGateMore.
Context (W : World) (K : Constants).

(** X5.  Without a token the publish gate throws before it looks at a single
    archive: whatever the list of archives is, empty or not, and whatever
    [SKIP_PUBLISH] is, the machine has received one log line and nothing
    else, the clock has not moved and the registry has received nothing. *)
Theorem no_token_no_publish {R} extensionId files m :
  JsString.truthy_opt (env m !! "OVSX_PAT") = false →
  @publishExtension W K R extensionId files m
  = (Throw (Error noToken),
     with_console
       (LLog, Text ("Attempting to publish " +:+ extensionId +:+ " to Open VSX")) m).
Proof.
  intros Htoken. unfold publishExtension, mbind, Js_bind, console_, update, getenv, read.
  simpl. by rewrite Htoken.
Qed.

(** A matching archive is handed to [publishFile]. *)
Lemma publishOne_matching {R} extensionId namespace name file xml attrs publisher id m :
  readXmlManifest W (clock m) file = Done xml →
  Xml.identity xml = Done (Some attrs) →
  Xml.Publisher attrs = Some publisher →
  Xml.Id attrs = Some id →
  toLowerCase W publisher = toLowerCase W namespace →
  toLowerCase W id = toLowerCase W name →
  @publishOne W K R extensionId namespace (Some name) file m
  = publishFile W K extensionId namespace (Some name) file (tick m).
Proof.
  intros Hread Hidentity Hpublisher Hid Heqp Heqi. unfold publishOne.
  rewrite (bind_normal _ _ m xml (tick m)) by (unfold outside; by rewrite Hread).
  unfold Xml.lower_of. rewrite Hidentity, Hpublisher, Hid.
  unfold mbind at 1, Js_bind at 1, lift. simpl.
  rewrite bool_decide_eq_true_2 by congruence. simpl.
  unfold mbind at 1, Js_bind at 1. simpl.
  unfold mbind at 1, Js_bind at 1. simpl.
  by rewrite bool_decide_eq_true_2 by congruence.
Qed.

(** X6.  Creating the namespace is best effort: when the registry rejects
    the creation, the rejection is logged and the archive is published all
    the same; the only request recorded is the publication. *)
Theorem namespace_failure_does_not_stop_publishing {R} extensionId namespace extension file e m :
  createNamespace W (clock m) namespace (registryUrl K) = Failed e →
  publish W (S (clock m)) file (registryUrl K) = Done tt →
  let after := (@publishFile W K R extensionId namespace extension file m).2 in
  (@publishFile W K R extensionId namespace extension file m).1 = Normal tt
  ∧ requests after = requests m ++ [Publish file (registryUrl K)]
  ∧ (LLog, Value e) ∈ console after
  ∧ exitCode after = exitCode m.
Proof.
  intros Hcreate Hpublish.
  unfold publishFile, mbind, Js_bind, try_catch, outside, console_, update. simpl.
  rewrite Hcreate. simpl. rewrite Hpublish. simpl. repeat split.
  rewrite !elem_of_app. left. left. right. by apply list_elem_of_singleton.
Qed.

(** X7.  A rejected publication is not caught: it ends the loop over the
    archives with the rejection.  The archives after it are not read, and
    the registry has no publication on record for the rejected one. *)
Theorem publish_failure_ends_the_loop {R} extensionId namespace name file rest xml attrs
    publisher id e m :
  readXmlManifest W (clock m) file = Done xml →
  Xml.identity xml = Done (Some attrs) →
  Xml.Publisher attrs = Some publisher →
  Xml.Id attrs = Some id →
  toLowerCase W publisher = toLowerCase W namespace →
  toLowerCase W id = toLowerCase W name →
  publish W (S (S (clock m))) file (registryUrl K) = Failed e →
  let loop := for_of (file :: rest) (@publishOne W K R extensionId namespace (Some name)) in
  (loop m).1 = Throw e
  ∧ clock (loop m).2 = S (S (S (clock m)))
  ∧ ∀ url, Publish file url ∉ drop (length (requests m)) (requests (loop m).2).
Proof.
  intros Hread Hidentity Hpublisher Hid Heqp Heqi Hpublish loop.
  pose proof (publishOne_matching (R := R) extensionId namespace name file xml attrs
                publisher id m Hread Hidentity Hpublisher Hid Heqp Heqi) as Hone.
  assert (∃ m', publishFile W K (R := R) extensionId namespace (Some name) file (tick m)
                = (Throw e, m')
                ∧ clock m' = S (S (S (clock m)))
                ∧ ∀ url, Publish file url ∉ drop (length (requests m)) (requests m'))
    as (m' & Hfile & Hclock & Hrequests).
  { unfold publishFile, mbind, Js_bind, try_catch, outside, console_, update. simpl.
    destruct (createNamespace W (S (clock m)) namespace (registryUrl K)); simpl;
      rewrite Hpublish; simpl; eexists; (split; [reflexivity |]); (split; [reflexivity |]).
    - intros url. simpl. rewrite drop_app_length.
      by intros [= ]%list_elem_of_singleton.
    - intros url. simpl. rewrite drop_all. apply not_elem_of_nil. }
  rewrite <- Hone in Hfile. subst loop. simpl.
  by rewrite (bind_throw _ _ _ _ _ Hfile).
Qed.

(** X8.  The publish script never changes the exit code: a mismatch is
    logged as an error, but it does not mark the run as failed. *)
Theorem publishing_leaves_the_exit_code {R} extensionId files m :
  exitCode (@publishExtension W K R extensionId files m).2 = exitCode m.
Proof.
  revert m. change (keeps exitCode (publishExtension W K (R := R) extensionId files)).
  assert (Quiet exitCode) as Q by (by split).
  unfold publishExtension, publishOne, publishFile.
  keeps_steps Q context_side.
Qed.
End PublishGateMore.

Lemma no_token_no_publish_witness :
  let W := Sample.world (mkVsix None None) Sample.all_published Sample.everything_works [] true in
  let K := Sample.constants [] in
  let m := Sample.machine {["SKIP_PUBLISH" := "true"]} ∅
             (Sample.fromFile "/tmp/download/java.vsix" None) in
  (@publishExtension W K unit "redhat.java" [] m).1 = Throw (Error noToken).
Proof.
  intros W K m.
  by rewrite (no_token_no_publish W K (R := unit) "redhat.java" [] m eq_refl).
Defined.

Lemma namespace_failure_does_not_stop_publishing_witness :
  let taken := Rejected (VObject "Error: Namespace already exists: redhat") in
  let pkg := Sample.package "redhat" "java" "1.2.3" (Some "EPL-2.0") None in
  let W := Host.registryCalls
             (Sample.world pkg Sample.all_published Sample.everything_works [] true)
             (Failed taken) (Done tt) in
  let K := Sample.constants [] in
  let m := Sample.machine {["OVSX_PAT" := "token"]} ∅
             (Sample.fromFile "/tmp/download/java.vsix" None) in
  requests (@publishFile W K unit "redhat.java" "redhat" (Some "java")
              "/tmp/artifacts/redhat.java.vsix" m).2
  = [Publish "/tmp/artifacts/redhat.java.vsix" "https://open-vsx.org"].
Proof.
  intros taken pkg W K m.
  destruct (namespace_failure_does_not_stop_publishing W K (R := unit) "redhat.java" "redhat"
              (Some "java") "/tmp/artifacts/redhat.java.vsix" taken m eq_refl eq_refl)
    as (_ & Hrequests & _).
  exact Hrequests.
Defined.

Lemma publish_failure_ends_the_loop_witness :
  let refused := Rejected (VObject "Error: Unauthorized") in
  let pkg := Sample.package "redhat" "java" "1.2.3" (Some "EPL-2.0") None in
  let W := Host.registryCalls
             (Sample.world pkg Sample.all_published Sample.everything_works [] true)
             (Done tt) (Failed refused) in
  let K := Sample.constants [] in
  let m := Sample.machine {["OVSX_PAT" := "token"]} ∅
             (Sample.fromFile "/tmp/download/java.vsix" None) in
  let files := ["/tmp/artifacts/redhat.java@linux-x64.vsix";
                "/tmp/artifacts/redhat.java@darwin-x64.vsix"] in
  (for_of files (@publishOne W K unit "redhat.java" "redhat" (Some "java")) m).1
    = Throw refused
  ∧ clock (for_of files (@publishOne W K unit "redhat.java" "redhat" (Some "java")) m).2 = 3.
Proof.
  intros refused pkg W K m files.
  destruct (publish_failure_ends_the_loop W K (R := unit) "redhat.java" "redhat" "java"
              "/tmp/artifacts/redhat.java@linux-x64.vsix"
              ["/tmp/artifacts/redhat.java@darwin-x64.vsix"] (xmlManifest pkg)
              (Xml.mkAttrs (Some "1.2.3") (Some "redhat") (Some "java")) "redhat" "java"
              refused m eq_refl eq_refl eq_refl eq_refl eq_refl eq_refl eq_refl)
    as (Hthrow & Hclock & _).
  split; [exact Hthrow | exact Hclock].
Defined.

(** ** What a build that returns options has done *)

Section SuccessfulBuild.
Context (W : World) (K : Constants).

Lemma exitCode_quiet : Quiet exitCode.
Proof. by split. Qed.

Lemma buildTarget_quiet : Quiet buildTarget.
Proof. by split. Qed.

Lemma context_quiet : Quiet context.
Proof. by split. Qed.

Lemma tryBody_exitCode ext : keeps exitCode (tryBody W K ext).
Proof.
  unfold tryBody, prepare, ensureBuildPrerequisites, readPackage, resolveVersion, acquire,
    buildFromSource, pinRuntimes, customBuild, standardBuild, install, gates, laterGates,
    versionGate, licenseGate, dependencyGate, finalize.
  keeps_steps exitCode_quiet context_side;
    apply dependenciesNotOnOpenVsx_keeps, exitCode_quiet.
Qed.

Lemma tryBody_buildTarget ext : keeps buildTarget (tryBody W K ext).
Proof.
  unfold tryBody, prepare, ensureBuildPrerequisites, readPackage, resolveVersion, acquire,
    buildFromSource, pinRuntimes, customBuild, standardBuild, install, gates, laterGates,
    versionGate, licenseGate, dependencyGate, finalize.
  keeps_steps buildTarget_quiet context_side;
    apply dependenciesNotOnOpenVsx_keeps, buildTarget_quiet.
Qed.

Lemma gates_context ext pkgPath options pkg version :
  keeps context (gates W K ext pkgPath options pkg version).
Proof.
  unfold gates, laterGates, versionGate, licenseGate, dependencyGate, finalize.
  keeps_steps context_quiet context_side;
    apply dependenciesNotOnOpenVsx_keeps, context_quiet.
Qed.

(** The archive is opened only for options that name a file. *)
Lemma readPackage_Normal_inv {R} options pkg m m' :
  @readPackage W R options m = (Normal pkg, m') →
  ∃ o file, options = Some o ∧ Options.extensionFile o = Some file
    ∧ (JsString.truthy file = true ∨ pkg = mkVsix None None).
Proof.
  unfold readPackage. destruct options as [o |]; [| done].
  destruct (Options.extensionFile o) as [file |] eqn:Hfile; [| done].
  destruct (JsString.truthy file) eqn:Htruthy.
  - intros _. exists o, file. eauto.
  - intros [= <- <-]. exists o, file. eauto.
Qed.

(** A resolved version is truthy and is the one stored in the context. *)
Lemma resolveVersion_Normal_inv {R} ext pkg version m m' :
  @resolveVersion R ext pkg m = (Normal version, m') →
  JsString.truthy version = true
  ∧ PublishContext.version (context m') = Some version
  ∧ pkg ≠ mkVsix None None.
Proof.
  unfold resolveVersion, lift.
  destruct (Xml.version (xmlManifest pkg)) as [fromXml | e] eqn:Hxml; [| done].
  rewrite (bind_normal _ _ m fromXml m) by done.
  set (chosen := if JsString.truthy_opt fromXml then fromXml
                 else manifest pkg ≫= Manifest.version).
  rewrite (bind_normal _ _ m tt (with_context (PublishContext.set_version chosen) m))
    by done.
  destruct chosen as [v |] eqn:Hchosen; [| done].
  destruct (JsString.truthy v) eqn:Htruthy; [| done].
  intros [= <- <-]. repeat split; [done |].
  intros ->. simpl in Hxml. injection Hxml as <-. by subst chosen.
Qed.

Lemma versionGate_Return_inv {A} version m r m' :
  @versionGate W A version m = (Return r, m') → r = None.
Proof.
  unfold versionGate, mbind, Js_bind, read, getenv, read, lift. simpl.
  destruct (PublishContext.ovsxVersion (context m)) as [ovsx |]; [| done].
  destruct (JsString.truthy ovsx); [| done].
  destruct (semver_gt W ovsx version) as [[|] | e]; simpl; [done | | done].
  destruct (semver_eq W ovsx version) as [same | e]; simpl; [| done].
  destruct (same && _); simpl; [| done]. by intros [= <- _].
Qed.

(** Copying an archive that the options name: the options then name the
    artifact path and the file is there. *)
Lemma finalize_Normal_inv {R} ext o file final m m' :
  Options.extensionFile o = Some file → JsString.truthy file = true →
  @finalize W K R ext o m = (Normal final, m') →
  Options.extensionFile final = Some (artifactPath W K ext (buildTarget m))
  ∧ fs m' !! artifactPath W K ext (buildTarget m) = Some File.
Proof.
  intros Hfile Htruthy. unfold finalize. rewrite Hfile, Htruthy.
  unfold mbind, Js_bind, read, console_, update, outside. simpl.
  destruct (copyFile W (clock m) file _) as [[] | e]; simpl; [| done].
  intros [= <- <-]. simpl. split; [done |]. apply lookup_insert_eq.
Qed.

(** What the body of a build has done when it returns options. *)
Lemma tryBody_Return_inv ext m final m' :
  tryBody W K ext m = (Return (Some final), m') →
  Options.extensionFile final = Some (artifactPath W K ext (buildTarget m))
  ∧ fs m' !! artifactPath W K ext (buildTarget m) = Some File
  ∧ JsString.truthy_opt (PublishContext.version (context m')) = true.
Proof.
  intros Hbody.
  pose proof (tryBody_buildTarget ext m) as Htarget. rewrite Hbody in Htarget.
  simpl in Htarget.
  unfold tryBody in Hbody.
  apply bind_Return_inv in Hbody
    as [Hret | ([[[pkgPath options] pkg] version] & m1 & Hprep & Hgates)];
    [by apply prepare_fallsThrough in Hret |].
  (* the preparation *)
  unfold prepare in Hprep.
  apply bind_Normal_inv in Hprep as ([] & ma & _ & Hprep).
  apply bind_Normal_inv in Hprep as (ctx & mb & _ & Hprep).
  apply bind_Normal_inv in Hprep as (options' & mc & _ & Hprep).
  apply bind_Normal_inv in Hprep as (pkg' & md & Hread & Hprep).
  apply bind_Normal_inv in Hprep as (version' & me & Hresolve & Hprep).
  injection Hprep as _ <- <- <- <-.
  apply readPackage_Normal_inv in Hread as (o & file & -> & Hfile & Hopened).
  apply resolveVersion_Normal_inv in Hresolve as (Htruthy & Hversion & Hpkg).
  destruct Hopened as [Hfiletruthy | ->]; [| done].
  (* the gates *)
  pose proof (gates_context ext pkgPath (Some o) pkg' version' me) as Hctx.
  rewrite Hgates in Hctx. simpl in Hctx.
  unfold gates in Hgates.
  apply bind_Return_inv in Hgates as [Hret | ([] & mf & Hversiongate & Hgates)];
    [by apply versionGate_Return_inv in Hret |].
  unfold laterGates in Hgates.
  apply bind_Return_inv in Hgates as [Hret | ([] & mg & _ & Hgates)];
    [by apply licenseGate_fallsThrough in Hret |].
  apply bind_Return_inv in Hgates as [Hret | ([] & mh & _ & Hgates)];
    [by apply dependencyGate_fallsThrough in Hret |].
  apply bind_Return_inv in Hgates as [Hret | (final' & mi & Hfinal & Hgates)];
    [by apply finalize_fallsThrough in Hret |].
  injection Hgates as <- <-.
  destruct (finalize_Normal_inv ext o file final' mh mi Hfile Hfiletruthy Hfinal)
    as [Hpath Hexists].
  assert (buildTarget mh = buildTarget mi) as Hsame.
  { assert (keeps buildTarget (finalize W K (R := option Options.t) ext o)) as Hk.
    { unfold finalize. keeps_steps buildTarget_quiet context_side. }
    specialize (Hk mh). by rewrite Hfinal in Hk. }
  rewrite Hsame, Htarget in Hpath, Hexists.
  repeat split; [done | done |].
  by rewrite Hctx, Hversion.
Qed.

(** The clean-up ends normally or by an exception, and touches nothing but
    the clock. *)
Lemma cleanUp_outcome {R} ext m :
  (∃ m', @cleanUp W K R ext m = (Normal tt, m')
     ∧ fs m' = fs m ∧ context m' = context m ∧ exitCode m' = exitCode m)
  ∨ ∃ e m', @cleanUp W K R ext m = (Throw e, m').
Proof.
  unfold cleanUp, outside. destruct (JsString.truthy_opt _); [| left; by eexists].
  destruct (exec W (clock m) _ None) as [[] | e]; [left | right]; by repeat eexists.
Qed.

(** A build hands options to its caller only when its body returned them,
    and then nothing but the clean-up follows. *)
Lemma buildVersion_Some_inv {R} ext m o :
  (@buildVersion W K R ext m).1 = Normal (Some o) →
  ∃ m1, tryBody W K ext (announce ext m) = (Return (Some o), m1)
    ∧ fs (@buildVersion W K R ext m).2 = fs m1
    ∧ context (@buildVersion W K R ext m).2 = context m1
    ∧ exitCode (@buildVersion W K R ext m).2 = exitCode m1.
Proof.
  unfold buildVersion. rewrite (bind_normal _ _ m tt (announce ext m)) by done.
  unfold function, try_finally, try_catch.
  destruct (tryBody W K ext (announce ext m)) as [[[] | r | e] m1] eqn:Hbody.
  - by destruct (cleanUp_outcome (R := option Options.t) ext m1)
      as [(m2 & -> & _) | (e & m2 & ->)].
  - destruct (cleanUp_outcome (R := option Options.t) ext m1)
      as [(m2 & -> & Hfs & Hctx & Hexit) | (e & m2 & ->)]; [| done].
    simpl. intros [= ->]. by exists m1.
  - pose proof (catchClause_completes (R := option Options.t) ext e m1) as Hh.
    destruct (catchClause ext e m1) as [c h]. simpl in Hh. subst c.
    by destruct (cleanUp_outcome (R := option Options.t) ext h)
      as [(m2 & -> & _) | (e' & m2 & ->)].
Qed.

(** X9.  Whenever [buildVersion] hands options to its caller, they name the
    artifact path of the extension and of the target the build was called
    for, a file is at that path, the context records a version that is not
    empty, and the exit code is as it was before the build. *)
Theorem successful_build_guarantees {R} ext m o :
  (@buildVersion W K R ext m).1 = Normal (Some o) →
  let after := (@buildVersion W K R ext m).2 in
  Options.extensionFile o = Some (artifactPath W K ext (buildTarget m))
  ∧ fs after !! artifactPath W K ext (buildTarget m) = Some File
  ∧ JsString.truthy_opt (PublishContext.version (context after)) = true
  ∧ exitCode after = exitCode m.
Proof.
  intros Hsome after.
  destruct (buildVersion_Some_inv ext m o Hsome) as (m1 & Hbody & Hfs & Hctx & Hexit).
  destruct (tryBody_Return_inv ext (announce ext m) o m1 Hbody) as (Hpath & Hfile & Hversion).
  subst after. rewrite Hfs, Hctx, Hexit.
  pose proof (tryBody_exitCode ext (announce ext m)) as Hkeep. rewrite Hbody in Hkeep.
  done.
Qed.

(** X10.  A context that names neither a file nor a repository with a ref
    leaves the options undefined: once the prerequisites are set up, the
    body throws the [TypeError] of reading [extensionFile] of [undefined];
    the build hands no options to its caller and the exit code becomes 1. *)
Theorem build_without_source_fails {R} ext m m1 :
  JsString.truthy_opt (PublishContext.file (context m)) = false →
  JsString.truthy_opt (PublishContext.repo (context m)) = false
  ∨ JsString.truthy_opt (PublishContext.ref (context m)) = false →
  @ensureBuildPrerequisites W K (option Options.t) (announce ext m) = (Normal tt, m1) →
  tryBody W K ext (announce ext m) = (Throw (Xml.undefined_index "extensionFile"), m1)
  ∧ (∀ o, (@buildVersion W K R ext m).1 ≠ Normal (Some o))
  ∧ exitCode (@buildVersion W K R ext m).2 = Some 1.
Proof.
  intros Hfile Hsource Hsetup.
  assert (context m1 = context m) as Hctx.
  { assert (keeps context (ensureBuildPrerequisites W K (R := option Options.t))) as Hk.
    { unfold ensureBuildPrerequisites. keeps_steps context_quiet context_side. }
    specialize (Hk (announce ext m)). by rewrite Hsetup in Hk. }
  assert (acquire W (R := option Options.t) ext m1 = (Normal None, m1)) as Hacquire.
  { unfold acquire, mbind, Js_bind, read. simpl. rewrite Hctx, Hfile.
    destruct (PublishContext.repo (context m)) as [repo |]; [| done].
    destruct (PublishContext.ref (context m)) as [ref |]; [| done].
    simpl in Hsource. by destruct Hsource as [-> | ->]; [| rewrite andb_false_r]. }
  assert (tryBody W K ext (announce ext m)
          = (Throw (Xml.undefined_index "extensionFile"), m1)) as Hbody.
  { unfold tryBody, prepare.
    rewrite (bind_throw _ _ _ (Xml.undefined_index "extensionFile") m1); [done |].
    rewrite (bind_normal _ _ _ _ _ Hsetup).
    rewrite (bind_normal _ _ m1 (context m1) m1) by done.
    by rewrite (bind_normal _ _ _ _ _ Hacquire). }
  split; [done |].
  rewrite (buildVersion_caught W K ext _ m m1 Hbody).
  destruct (function_cleanUp W K (R := R) ext
              (@catchClause (option Options.t) ext (Xml.undefined_index "extensionFile") m1).2)
    as (_ & Hexit & _ & Hnone).
  split; [done |]. by rewrite Hexit.
Qed.
End SuccessfulBuild.

Lemma successful_build_guarantees_witness :
  let pkg := Sample.package "redhat" "java" "1.2.3" (Some "EPL-2.0") None in
  let W := Sample.world pkg Sample.all_published Sample.everything_works [] true in
  let K := Sample.constants [] in
  let ext := Sample.extension "redhat.java" None None in
  let m := Sample.machine ∅ ∅
             (PublishContext.set_target (Some "linux-x64")
                (Sample.fromFile "/tmp/download/java-linux-x64.vsix" (Some "1.2.0"))) in
  fs (@buildVersion W K unit ext m).2 !! "/tmp/artifacts/redhat.java@linux-x64.vsix" = Some File
  ∧ exitCode (@buildVersion W K unit ext m).2 = None.
Proof.
  intros pkg W K ext m.
  assert ((@buildVersion W K unit ext m).1
          = Normal (Some (Options.mk (Some "/tmp/artifacts/redhat.java@linux-x64.vsix")
                            (Some [Some "linux-x64"]) false))) as Hsome
    by (vm_compute; reflexivity).
  destruct (successful_build_guarantees W K (R := unit) ext m _ Hsome)
    as (_ & Hfile & _ & Hexit).
  split; [exact Hfile | exact Hexit].
Defined.

Lemma build_without_source_fails_witness :
  let W := Sample.world (mkVsix None None) Sample.all_published Sample.everything_works [] true in
  let K := Sample.constants [] in
  let ext := Sample.extension "redhat.java" None None in
  let m := Sample.machine ∅ ∅
             (PublishContext.mk (Some "/tmp/repository") None None None None None None
                (Raw None) None (Raw None) None) in
  exitCode (@buildVersion W K unit ext m).2 = Some 1.
Proof.
  intros W K ext m.
  assert (@ensureBuildPrerequisites W K (option Options.t) (announce ext m)
          = (Normal tt, (@ensureBuildPrerequisites W K (option Options.t) (announce ext m)).2))
    as Hsetup by (vm_compute; reflexivity).
  destruct (build_without_source_fails W K (R := unit) ext m _ eq_refl
              (or_intror eq_refl) Hsetup) as (_ & _ & Hexit).
  exact Hexit.
Defined.

(** ** The exit code *)

Section ExitCode.
Context (W : World) (K : Constants).

Lemma function_state {R B} (body : Js (option B) unit) m :
  (@function R B body m).2 = (body m).2.
Proof. unfold function. by destruct (body m) as [[[] | r | e] m1]. Qed.

Lemma try_finally_state {R A} (body : Js R A) cleanup m :
  (try_finally body cleanup m).2 = (cleanup (body m).2).2.
Proof.
  unfold try_finally. destruct (body m) as [c m1]. simpl.
  by destruct (cleanup m1) as [[[] | r | e] m2].
Qed.

Lemma cleanUp_exitCode {R} ext : keeps exitCode (cleanUp W K ext : Js R unit).
Proof. unfold cleanUp. keeps_steps (exitCode_quiet) context_side. Qed.

(** A build leaves the exit code as it found it or sets it to 1. *)
Lemma buildVersion_exitCode {R} ext m :
  exitCode (@buildVersion W K R ext m).2 = exitCode m
  ∨ exitCode (@buildVersion W K R ext m).2 = Some 1.
Proof.
  unfold buildVersion. rewrite (bind_normal _ _ m tt (announce ext m)) by done.
  rewrite function_state, try_finally_state, cleanUp_exitCode.
  pose proof (tryBody_exitCode W K ext (announce ext m)) as Hbody.
  unfold try_catch.
  destruct (tryBody W K ext (announce ext m)) as [[[] | r | e] m1]; simpl in Hbody;
    [by left | by left |].
  unfold catchClause. destruct (benign e); simpl; [by left | by right].
Qed.
Lemma raisedOnly_refl m : raisedOnly m m.
Proof. by left. Qed.

Lemma raisedOnly_trans m1 m2 m3 : raisedOnly m1 m2 → raisedOnly m2 m3 → raisedOnly m1 m3.
Proof. unfold raisedOnly. intros [H12 | H12] [H23 | H23]; rewrite ?H23, ?H12; auto. Qed.

Lemma raisedOnly_bind {R A B} (c : Js R A) (f : A → Js R B) m :
  raisedOnly m (c m).2 → (∀ a m1, raisedOnly m1 (f a m1).2) → raisedOnly m ((c ≫= f) m).2.
Proof.
  intros Hc Hf. unfold mbind, Js_bind.
  destruct (c m) as [[a | r | e] m1]; simpl in *; [| done | done].
  eapply raisedOnly_trans; [exact Hc | apply Hf].
Qed.

Lemma raisedOnly_keeps {R A} (c : Js R A) m : keeps exitCode c → raisedOnly m (c m).2.
Proof. intros Hk. left. apply Hk. Qed.

Lemma buildFiles_raisedOnly {R} ext entries allOptions m :
  raisedOnly m (@buildFiles W K R ext entries allOptions m).2.
Proof.
  revert allOptions m. induction entries as [| [target file] rest IH]; intros allOptions m.
  - apply raisedOnly_refl.
  - simpl. destruct (match Extension.target ext with | Some _ => _ | None => _ end).
    + apply raisedOnly_bind; [by left | intros _ m1].
      apply raisedOnly_bind; [by left | intros _ m2].
      apply raisedOnly_bind; [apply buildVersion_exitCode | intros options m3; apply IH].
    + apply raisedOnly_bind; [by left | intros _ m1; apply IH].
Qed.

Lemma buildTargets_raisedOnly {R} ext entries allOptions m :
  raisedOnly m (@buildTargets W K R ext entries allOptions m).2.
Proof.
  revert allOptions m. induction entries as [| [target data] rest IH]; intros allOptions m.
  - apply raisedOnly_refl.
  - simpl. apply raisedOnly_bind; [by left | intros _ m1].
    apply raisedOnly_bind; [by destruct data; left | intros _ m2].
    apply raisedOnly_bind; [apply buildVersion_exitCode | intros options m3; apply IH].
Qed.

Lemma buildExtension_raisedOnly {R} ext m :
  raisedOnly m (@buildExtension W K R ext m).2.
Proof.
  unfold buildExtension.
  apply raisedOnly_bind; [by left | intros _ m1].
  apply raisedOnly_bind; [by left | intros ctx m2].
  apply raisedOnly_bind; [| intros all m3; by left].
  destruct (PublishContext.files ctx) as [files |]; [apply buildFiles_raisedOnly |].
  destruct (Extension.target ext) as [targets |]; [apply buildTargets_raisedOnly |].
  apply raisedOnly_bind; [apply buildVersion_exitCode | intros options m3; by left].
Qed.

Lemma publishExtension_exitCode {R} extensionId files :
  keeps exitCode (publishExtension W K extensionId files : Js R unit).
Proof.
  unfold publishExtension, publishOne, publishFile.
  keeps_steps exitCode_quiet context_side.
Qed.

(** X11.  Building an extension and publishing its archives writes nothing
    to the exit code but 1: afterwards the exit code is what it was, or 1.
    A failure recorded by an earlier build is therefore never cleared. *)
Theorem exit_code_only_raised {R} ext m :
  exitCode (@processExtension W K R ext m).2 = exitCode m
  ∨ exitCode (@processExtension W K R ext m).2 = Some 1.
Proof.
  unfold processExtension.
  apply (raisedOnly_bind (buildExtension W K ext)); [apply buildExtension_raisedOnly |].
  intros files m1. apply raisedOnly_keeps, publishExtension_exitCode.
Qed.
End ExitCode.

(** ** An exception of the clean-up *)

Section CleanUpFails.
Context (W : World) (K : Constants).

Lemma buildVersion_cleanup_throws {R} ext m e :
  JsString.truthy_opt (Extension.pythonVersion ext) = true →
  (∀ t, exec W t ("pyenv global " +:+ defaultPythonVersion K) None = Failed e) →
  @buildVersion W K R ext m
  = (Throw e, tick (try_catch (tryBody W K ext) (catchClause ext) (announce ext m)).2).
Proof.
  intros Hpy Hexec. unfold buildVersion.
  rewrite (bind_normal _ _ m tt (announce ext m)) by done.
  unfold function, try_finally.
  destruct (try_catch (tryBody W K ext) (catchClause ext) (announce ext m)) as [c m1].
  unfold cleanUp. rewrite Hpy. unfold outside. by rewrite Hexec.
Qed.

(** The state in which a sequence ends whose last step only computes. *)
Lemma bind_ret_state {R A B} (c : Js R A) (g : A → B) m :
  ((c ≫= λ a, mret (g a)) m).2 = (c m).2.
Proof. unfold mbind, Js_bind. by destruct (c m) as [[a | r | e] m1]. Qed.

(** One failing build: the first build that a loop attempts is its last. *)
Lemma buildVersion_last {R} ext m e :
  JsString.truthy_opt (Extension.pythonVersion ext) = true →
  (∀ t, exec W t ("pyenv global " +:+ defaultPythonVersion K) None = Failed e) →
  ∃ m', @buildVersion W K R ext m = (Throw e, m')
    ∧ attempts m' = attempts m ++ [PublishContext.target (context m)].
Proof.
  intros Hpy Hexec. eexists. split; [by apply buildVersion_cleanup_throws |].
  rewrite <- (buildVersion_attempts W K (R := R) ext m).
  by rewrite (buildVersion_cleanup_throws ext m e Hpy Hexec).
Qed.

Lemma buildFiles_cleanup_fails {R} ext entries allOptions m e :
  JsString.truthy_opt (Extension.pythonVersion ext) = true →
  (∀ t, exec W t ("pyenv global " +:+ defaultPythonVersion K) None = Failed e) →
  attempts (@buildFiles W K R ext entries allOptions m).2 = attempts m
  ∨ (@buildFiles W K R ext entries allOptions m).1 = Throw e
    ∧ ∃ target, attempts (@buildFiles W K R ext entries allOptions m).2
                = attempts m ++ [target].
Proof.
  intros Hpy Hexec. revert m.
  induction entries as [| [target file] rest IH]; intros m; simpl; [by left |].
  destruct (match Extension.target ext with | Some _ => _ | None => _ end).
  - right.
    set (m1 := with_context (PublishContext.set_file (Some file)) m).
    rewrite (bind_normal _ _ m tt m1) by done.
    set (m2 := with_context (PublishContext.set_target (Some target)) m1).
    rewrite (bind_normal _ _ m1 tt m2) by done.
    destruct (buildVersion_last (R := R) ext m2 e Hpy Hexec) as (m3 & Hrun & Hatt).
    rewrite (bind_throw _ _ m2 e m3) by done. simpl. split; [done |].
    by exists (Some target).
  - set (m1 := with_console
                 (LLog, Text (Extension.id ext +:+ ": skipping, since target " +:+ target
                              +:+ " is not included")) m).
    rewrite (bind_normal _ _ m tt m1) by done.
    assert (attempts m1 = attempts m) as <-; [| apply IH].
    unfold attempts, m1. simpl. rewrite omap_app. simpl. by rewrite app_nil_r.
Qed.

Lemma buildTargets_cleanup_fails {R} ext entries allOptions m e :
  JsString.truthy_opt (Extension.pythonVersion ext) = true →
  (∀ t, exec W t ("pyenv global " +:+ defaultPythonVersion K) None = Failed e) →
  attempts (@buildTargets W K R ext entries allOptions m).2 = attempts m
  ∨ (@buildTargets W K R ext entries allOptions m).1 = Throw e
    ∧ ∃ target, attempts (@buildTargets W K R ext entries allOptions m).2
                = attempts m ++ [target].
Proof.
  intros Hpy Hexec. destruct entries as [| [target data] rest]; simpl; [by left |].
  right.
  set (m1 := with_context (PublishContext.set_target (Some target)) m).
  rewrite (bind_normal _ _ m tt m1) by done.
  set (m2 := match data with
             | TargetTrue => m1
             | TargetObject env =>
                 with_context (PublishContext.set_environmentVariables env) m1
             end).
  rewrite (bind_normal _ _ m1 tt m2) by (by destruct data).
  destruct (buildVersion_last (R := R) ext m2 e Hpy Hexec) as (m3 & Hrun & Hatt).
  rewrite (bind_throw _ _ m2 e m3) by done. simpl. split; [done |].
  exists (Some target). rewrite Hatt. by destruct data.
Qed.

(** C7, at the input where the code departs from it: the descriptor asks
    for a Python version and the command that restores the default one
    fails.  That exception is thrown during the build, in the [finally]
    clause, where no [catch] reaches it.  So the failure policy does not
    see it: the build ends in that exception whatever its body did; nothing
    is logged for it and it does not set the exit code, which after a body
    that threw nothing is what it was before the build; and it aborts what
    follows, since the script that runs the builds rejects after the first
    build it attempts.  The defect is the one of C3. *)
Theorem cleanup_exception_escapes_the_policy {R} ext m e :
  JsString.truthy_opt (Extension.pythonVersion ext) = true →
  (∀ t, exec W t ("pyenv global " +:+ defaultPythonVersion K) None = Failed e) →
  let guarded := try_catch (tryBody W K ext) (catchClause ext) (announce ext m) in
  let after := (@buildVersion W K R ext m).2 in
  (@buildVersion W K R ext m).1 = Throw e
  ∧ console after = console guarded.2
  ∧ exitCode after = exitCode guarded.2
  ∧ ((∀ e0 m1, tryBody W K ext (announce ext m) ≠ (Throw e0, m1)) →
     exitCode after = exitCode m)
  ∧ ∀ m0, attempts (@buildExtension W K R ext m0).2 ≠ attempts m0 →
      (@buildExtension W K R ext m0).1 = Throw e
      ∧ ∃ target, attempts (@buildExtension W K R ext m0).2 = attempts m0 ++ [target].
Proof.
  intros Hpy Hexec guarded after. subst after.
  rewrite (buildVersion_cleanup_throws ext m e Hpy Hexec). fold guarded.
  split; [done |]. split; [done |]. split; [done |]. split.
  - intros Hquiet. simpl. subst guarded. unfold try_catch.
    pose proof (tryBody_exitCode W K ext (announce ext m)) as Hkeep.
    destruct (tryBody W K ext (announce ext m)) as [[[] | r | e0] m1] eqn:Hbody;
      [exact Hkeep | exact Hkeep | by destruct (Hquiet e0 m1)].
  - intros m0. unfold buildExtension.
    set (m1 := with_context PublishContext.set_dates m0).
    rewrite (bind_normal _ _ m0 tt m1) by done.
    rewrite (bind_normal _ _ m1 (context m1) m1) by done.
    destruct (PublishContext.files (context m1)) as [listed |];
      [| destruct (Extension.target ext) as [targets |]].
    + rewrite bind_ret_state.
      destruct (buildFiles_cleanup_fails (R := R) ext listed [] m1 e Hpy Hexec)
        as [Hnone | [Hthrow Hone]]; [intros Hne; destruct Hne; exact Hnone |].
      intros _. split; [| done].
      destruct (buildFiles W K ext listed [] m1) as [c m2] eqn:Hrun.
      simpl in Hthrow. subst c. by rewrite (bind_throw _ _ m1 e m2 Hrun).
    + rewrite bind_ret_state.
      destruct (buildTargets_cleanup_fails (R := R) ext targets [] m1 e Hpy Hexec)
        as [Hnone | [Hthrow Hone]]; [intros Hne; destruct Hne; exact Hnone |].
      intros _. split; [| done].
      destruct (buildTargets W K ext targets [] m1) as [c m2] eqn:Hrun.
      simpl in Hthrow. subst c. by rewrite (bind_throw _ _ m1 e m2 Hrun).
    + intros _.
      destruct (buildVersion_last (R := R) ext m1 e Hpy Hexec) as (m2 & Hrun & Hatt).
      rewrite (bind_throw _ _ m1 e m2) by (by rewrite (bind_throw _ _ m1 e m2)).
      simpl. split; [done |]. by eexists.
Qed.
End CleanUpFails.

Lemma cleanup_exception_escapes_the_policy_witness :
  let rejection := Rejected (VObject "Error: Command failed: pyenv global 3.8") in
  let shell := λ command : string,
    if String.eqb command "pyenv global 3.8" then Failed rejection else Done tt in
  let W := Sample.world (Sample.package "ms-python" "python" "2024.1.0" None None)
             Sample.all_published shell [] false in
  let K := Sample.constants [] in
  let ext := Sample.extension "ms-python.python" (Some "3.9.0")
               (Some [("linux-x64", TargetTrue); ("darwin-x64", TargetTrue)]) in
  let m := Sample.machine ∅ ∅ (Sample.fromRepo "/tmp/repository" "main" None) in
  (@buildVersion W K unit ext m).1 = Throw rejection
  ∧ last (console (@buildVersion W K unit ext m).2)
    = Some (LError, Value (Error (licenseMissing "ms-python.python")))
  ∧ (@buildExtension W K unit ext m).1 = Throw rejection
  ∧ attempts (@buildExtension W K unit ext m).2 = [Some "linux-x64"].
Proof.
  intros rejection shell W K ext m.
  destruct (cleanup_exception_escapes_the_policy W K (R := unit) ext m rejection eq_refl
              (λ _, eq_refl))
    as (Hthrow & Hconsole & _ & _ & Habort).
  split; [exact Hthrow |]. rewrite Hconsole.
  split; [vm_compute; reflexivity |].
  destruct (Habort m) as [Hrejects _]; [vm_compute; discriminate |].
  split; [exact Hrejects |]. vm_compute. reflexivity.
Defined.

(** ** Built-in extensions *)

Lemma split_dot_head s : head (JsString.split_dot s) = Some (firstSegment s).
Proof.
  induction s as [| c rest IH]; simpl; [done |].
  destruct (Ascii.eqb c "."); [done |].
  destruct (JsString.split_dot rest) as [| part parts]; [done |].
  simpl in *. by injection IH as ->.
Qed.

Lemma firstSegment_inv s h :
  firstSegment s = h → s = h ∨ ∃ rest, s = h +:+ "." +:+ rest.
Proof.
  revert h. induction s as [| c rest IH]; intros h; simpl; [by left |].
  destruct (Ascii.eqb c ".") eqn:Hdot.
  - apply Ascii.eqb_eq in Hdot as ->. intros <-. right. by exists rest.
  - intros <-. destruct (IH (firstSegment rest) eq_refl) as [Heq | [tail Heq]].
    + left. by rewrite <- Heq.
    + right. exists tail.
      change (String c rest = String c (firstSegment rest +:+ "." +:+ tail)).
      by rewrite <- Heq.
Qed.

(** X12.  An id is built in exactly when it is [vscode] or starts with
    [vscode.]: a publisher whose name merely begins with those letters is
    not taken for the built-in namespace. *)
Theorem isBuiltIn_iff (id : string) :
  isBuiltIn id = true ↔ id = "vscode" ∨ ∃ rest, id = "vscode." +:+ rest.
Proof.
  unfold isBuiltIn. rewrite split_dot_head. split.
  - intros Heq. apply String.eqb_eq in Heq.
    destruct (firstSegment_inv id _ Heq) as [-> | [rest ->]]; [by left |].
    right. by exists rest.
  - by intros [-> | [rest ->]].
Qed.

Example isBuiltIn_vscodevim : isBuiltIn "vscodevim.vim" = false.
Proof. reflexivity. Qed.

(** ** The files of a release *)

Section ReleaseFiles.
Context (W : World) (K : Constants).

Lemma buildFiles_attempts {R} ext entries allOptions m :
  cleanUpSucceeds W K ext →
  (∃ all, (@buildFiles W K R ext entries allOptions m).1 = Normal all)
  ∧ attempts (@buildFiles W K R ext entries allOptions m).2
    = attempts m ++ map Some (filter (λ target, admits ext target = true) entries.*1).
Proof.
  intros Hclean. revert allOptions m.
  induction entries as [| [target file] rest IH]; intros allOptions m; simpl.
  - split; [by eexists |]. by rewrite app_nil_r.
  - change (match Extension.target ext with
            | Some targets => bool_decide (target ∈ targets.*1)
            | None => true
            end) with (admits ext target).
    destruct (admits ext target) eqn:Hadmits.
    + rewrite filter_cons_True by done.
      set (m1 := with_context (PublishContext.set_file (Some file)) m).
      rewrite (bind_normal _ _ m tt m1) by done.
      set (m2 := with_context (PublishContext.set_target (Some target)) m1).
      rewrite (bind_normal _ _ m1 tt m2) by done.
      destruct (buildVersion_completes W K (R := R) ext m2 Hclean) as [options Hdone].
      pose proof (buildVersion_attempts W K (R := R) ext m2) as Hatt.
      destruct (buildVersion W K ext m2) as [c m3] eqn:Hrun. simpl in Hdone, Hatt. subst c.
      rewrite (bind_normal _ _ m2 options m3) by done.
      destruct (IH (push options allOptions) m3) as [Hall Hrest].
      split; [done |]. rewrite Hrest, Hatt. simpl. by rewrite <- app_assoc.
    + rewrite filter_cons_False by (by rewrite Hadmits).
      rewrite (bind_normal _ _ m tt
                 (with_console
                    (LLog, Text (Extension.id ext +:+ ": skipping, since target " +:+ target
                                 +:+ " is not included")) m)) by done.
      destruct (IH allOptions
                  (with_console
                     (LLog, Text (Extension.id ext +:+ ": skipping, since target " +:+ target
                                  +:+ " is not included")) m)) as [Hall Hrest].
      split; [done |]. rewrite Hrest. f_equal.
      unfold attempts. simpl. rewrite omap_app. simpl. by rewrite app_nil_r.
Qed.

(** X13.  When the context carries a map of downloaded files, and the
    clean-up cannot fail: the files decide what is built.  One build is
    attempted for each file whose target the descriptor admits (every file
    when the descriptor declares no targets), in the order of the map, and
    none for the others or for a declared target that has no file. *)
Theorem release_files_decide_the_builds {R} ext files m :
  cleanUpSucceeds W K ext →
  PublishContext.files (context m) = Some files →
  (∃ result, (@buildExtension W K R ext m).1 = Normal result)
  ∧ attempts (@buildExtension W K R ext m).2
    = attempts m ++ map Some (filter (λ target, admits ext target = true) files.*1).
Proof.
  intros Hclean Hfiles. unfold buildExtension.
  set (m1 := with_context PublishContext.set_dates m).
  rewrite (bind_normal _ _ m tt m1) by done.
  rewrite (bind_normal _ _ m1 (context m1) m1) by done.
  assert (PublishContext.files (context m1) = Some files) as -> by done.
  destruct (buildFiles_attempts (R := R) ext files [] m1 Hclean) as [[all Hall] Hatt].
  destruct (buildFiles W K ext files [] m1) as [c m2] eqn:Hrun. simpl in Hall, Hatt. subst c.
  rewrite (bind_normal _ _ m1 all m2) by done. simpl. split; [by eexists | done].
Qed.
End ReleaseFiles.

Lemma release_files_decide_the_builds_witness :
  let pkg := Sample.package "redhat" "java" "1.2.3" (Some "EPL-2.0") None in
  let W := Sample.world pkg Sample.all_published Sample.everything_works [] true in
  let K := Sample.constants [] in
  let ext := Sample.extension "redhat.java" None
               (Some [("linux-x64", TargetTrue); ("darwin-arm64", TargetTrue)]) in
  let files := [("win32-x64", "/tmp/download/java-win32-x64.vsix");
                ("darwin-arm64", "/tmp/download/java-darwin-arm64.vsix")] in
  let m := Sample.machine ∅ ∅
             (PublishContext.mk None None None (Some files) None None None (Raw None) None
                (Raw None) None) in
  attempts (@buildExtension W K unit ext m).2 = [Some "darwin-arm64"].
Proof.
  intros pkg W K ext files m.
  destruct (release_files_decide_the_builds W K (R := unit) ext files m) as [_ Hattempts].
  - left. reflexivity.
  - reflexivity.
  - rewrite Hattempts. reflexivity.
Defined.

(** ** Building from source *)

Section FromSource.
Context (W : World) (K : Constants).

Lemma settings_quiet : Quiet settings.
Proof. by split. Qed.

Lemma try_catch_swallows {R A} (body : Js R A) (a : A) m e m' :
  try_catch body (λ _, mret a) m ≠ (Throw e, m').
Proof. unfold try_catch. by destruct (body m) as [[a' | r | e'] m1]. Qed.

(** X14.  Pinning the Node and Python versions is best effort: whatever the
    lookup of [.nvmrc] and the two installations answer, the step completes
    normally, and it changes neither the environment, nor the exit code,
    nor the context. *)
Theorem runtime_pinning_never_fails {R} ext repo m :
  ∃ m', @pinRuntimes W R ext repo m = (Normal tt, m') ∧ settings m' = settings m.
Proof.
  assert (keeps settings (pinRuntimes W (R := R) ext repo)) as Hkeeps.
  { unfold pinRuntimes. keeps_steps settings_quiet context_side. }
  assert (fallsThrough (pinRuntimes W (R := R) ext repo)) as Hfalls.
  { unfold pinRuntimes. fallsThrough_steps. }
  specialize (Hkeeps m). specialize (Hfalls m).
  destruct (pinRuntimes W ext repo m) as [[[] | r | e] m'] eqn:Hrun.
  - by exists m'.
  - by destruct (Hfalls r m').
  - exfalso. revert Hrun. unfold pinRuntimes. apply try_catch_swallows.
Qed.

(** X15.  Installing the dependencies.  When the first installation fails
    and the [package.json] that is read has no legacy post-install hook, the
    exception thrown is the one of the installation, not a new one.  When
    the hook is the legacy one (and [engines] is there) and the rewritten
    file is saved, the installation is run a second time and its outcome is
    the outcome of the step: there is no third attempt. *)
Theorem install_retries_once {R} (yarn : bool) cwd e pck m :
  let command := (if yarn then "yarn" else "npm") +:+ " install" in
  exec W (clock m) command (Some cwd) = Failed e →
  readPackageJson W (S (clock m)) (path_join W [cwd; "package.json"]) = Done pck →
  (postinstall pck ≠ Some legacyPostinstall →
     @install W R yarn cwd m = (Throw e, ticks 2 m))
  ∧ (∀ vscode, postinstall pck = Some legacyPostinstall →
       engines pck = Some vscode →
       writeFile W (S (S (clock m))) (path_join W [cwd; "package.json"]) = Done tt →
       @install W R yarn cwd m
       = (match exec W (S (S (S (clock m)))) command (Some cwd) with
          | Done _ => Normal tt
          | Failed e' => Throw e'
          end, ticks 4 m)).
Proof.
  intros command Hexec Hread. unfold install. fold command.
  unfold try_catch, outside, mbind, Js_bind. rewrite Hexec. simpl. rewrite Hread. simpl.
  split.
  - intros Hhook. destruct (postinstall pck) as [hook |]; [| done].
    destruct (String.eqb hook legacyPostinstall) eqn:Heq; [| done].
    apply String.eqb_eq in Heq. by subst hook.
  - intros vscode -> -> Hwrite. simpl. rewrite Hwrite. simpl.
    by destruct (exec W (S (S (S (clock m)))) command (Some cwd)) as [[] | e'].
Qed.

Lemma restored_refl m : restored m m.
Proof. by left. Qed.

Lemma restored_trans m1 m2 m3 : restored m1 m2 → restored m2 m3 → restored m1 m3.
Proof.
  unfold restored. intros [H12 | H12] [H23 | H23]; rewrite H23, ?H12; auto.
Qed.

Lemma restored_bind {R A B} (c : Js R A) (f : A → Js R B) m :
  restored m (c m).2 → (∀ a m1, restored m1 (f a m1).2) → restored m ((c ≫= f) m).2.
Proof.
  intros Hc Hf. unfold mbind, Js_bind.
  destruct (c m) as [[a | r | e] m1]; simpl in *; [| done | done].
  eapply restored_trans; [exact Hc | apply Hf].
Qed.

Lemma vsceTests_quiet : Quiet vsceTests.
Proof. by split. Qed.

Lemma restored_keeps {R A} (c : Js R A) m : keeps vsceTests c → restored m (c m).2.
Proof. intros Hk. left. apply Hk. Qed.

(** Writing a variable other than [VSCE_TESTS]. *)
Ltac vsceTests_side :=
  first
    [ reflexivity
    | unfold vsceTests, with_env; simpl; rewrite !lookup_insert_ne by done; reflexivity ].

Lemma standardBuild_restored {R} ext repo pkgPath target m :
  restored m (@standardBuild W R ext repo pkgPath target m).2.
Proof.
  unfold standardBuild.
  apply restored_bind; [apply restored_keeps; keeps_steps vsceTests_quiet vsceTests_side |].
  intros yarn m1.
  apply restored_bind;
    [apply restored_keeps; unfold install; keeps_steps vsceTests_quiet vsceTests_side |].
  intros _ m2.
  apply restored_bind; [apply restored_keeps; keeps_steps vsceTests_quiet vsceTests_side |].
  intros _ m3.
  apply restored_bind; [| intros options m4; by left].
  destruct (JsString.truthy_opt (Extension.extensionFile ext)); [by left |].
  unfold mbind, Js_bind, getenv, read, setenv, update, try_finally, outside. simpl.
  right. destruct (createVSIX W (clock m3) _ _ _ _) as [[] | e]; simpl;
    unfold vsceTests; simpl; by rewrite lookup_insert_eq.
Qed.

(** X16.  The standard build sets [VSCE_TESTS] to 1 while it packages and
    puts the old value back on every path, also when packaging fails: a
    value that was set is set again afterwards.  A variable that was not
    set is not set afterwards or holds the text "undefined", never 1. *)
Theorem vsce_tests_is_put_back {R} ext repo pkgPath target m :
  let after := (@standardBuild W R ext repo pkgPath target m).2 in
  (∀ value, env m !! "VSCE_TESTS" = Some value → env after !! "VSCE_TESTS" = Some value)
  ∧ (env m !! "VSCE_TESTS" = None →
     env after !! "VSCE_TESTS" = None ∨ env after !! "VSCE_TESTS" = Some "undefined").
Proof.
  intros after. pose proof (standardBuild_restored (R := R) ext repo pkgPath target m) as H.
  fold after in H. unfold restored in H. split.
  - intros value Hset. rewrite Hset in H. by destruct H.
  - intros Hunset. rewrite Hunset in H. by destruct H; [left | right].
Qed.

(** X17.  A custom build for a target, once its commands have run: when no
    archive in the repository matches the target, the build throws the
    error that names the extension and the target; when some do, the
    options name the first match and carry the target. *)
Theorem custom_build_looks_for_the_target {R} ext commands repo tgt m m1 :
  for_of (R := R) commands (λ command, outside (λ t, exec W t command (Some repo))) m
  = (Normal tt, m1) →
  JsString.truthy tgt = true →
  (fg W (clock m1) (path_join W ["*-" +:+ tgt +:+ "-*.vsix"]) repo = Done [] →
     (@customBuild W R ext commands repo (Some tgt) m).1
     = Throw (Error (noVsixFound (Extension.id ext) tgt)))
  ∧ (∀ first others,
       fg W (clock m1) (path_join W ["*-" +:+ tgt +:+ "-*.vsix"]) repo
       = Done (first :: others) →
       (@customBuild W R ext commands repo (Some tgt) m).1
       = Normal (Options.mk (Some (path_join W [repo; first])) (Some [Some tgt]) false)).
Proof.
  intros Hcommands Htruthy. unfold customBuild, try_catch.
  rewrite (bind_normal _ _ _ _ _ Hcommands). rewrite Htruthy.
  unfold mbind, Js_bind, console_, update, outside. simpl. split.
  - by intros ->.
  - by intros first others ->.
Qed.
End FromSource.

Lemma install_retries_once_witness :
  let failed := Rejected (VObject "Error: Command failed: npm install") in
  let shell := λ (t : nat) (command : string),
    if (t =? 0)%nat then Failed failed else Done tt in
  let W := Host.sourceTree
             (Sample.world (mkVsix None None) Sample.all_published Sample.everything_works []
                true)
             shell false
             (Done (mkPackageJson (Some "node ./node_modules/vscode/bin/install")
                      (Some (Some "^1.50.0"))))
             (Done []) (Done tt) in
  let m := Sample.machine ∅ ∅ (Sample.fromRepo "/tmp/repository" "main" None) in
  @install W unit false "/tmp/repository" m = (Normal tt, ticks 4 m).
Proof.
  intros failed shell W m.
  destruct (install_retries_once W (R := unit) false "/tmp/repository" failed
              (mkPackageJson (Some "node ./node_modules/vscode/bin/install")
                 (Some (Some "^1.50.0"))) m eq_refl eq_refl) as [_ Hlegacy].
  exact (Hlegacy (Some "^1.50.0") eq_refl eq_refl eq_refl).
Defined.

Lemma vsce_tests_is_put_back_witness :
  let W := Host.sourceTree
             (Sample.world (mkVsix None None) Sample.all_published Sample.everything_works []
                true)
             (λ _ _, Done tt) true (Done (mkPackageJson None None)) (Done [])
             (Failed (Rejected (VObject "Error: Manifest missing field: publisher"))) in
  let ext := Sample.extension "redhat.java" None None in
  let set := Sample.machine {["VSCE_TESTS" := "0"]} ∅
               (Sample.fromRepo "/tmp/repository" "main" None) in
  let unset := Sample.machine ∅ ∅ (Sample.fromRepo "/tmp/repository" "main" None) in
  env (@standardBuild W unit ext "/tmp/repository" "/tmp/repository" None set).2
    !! "VSCE_TESTS" = Some "0"
  ∧ (env (@standardBuild W unit ext "/tmp/repository" "/tmp/repository" None unset).2
       !! "VSCE_TESTS" = None
     ∨ env (@standardBuild W unit ext "/tmp/repository" "/tmp/repository" None unset).2
         !! "VSCE_TESTS" = Some "undefined").
Proof.
  intros W ext set unset. split.
  - by apply (vsce_tests_is_put_back W (R := unit) ext "/tmp/repository" "/tmp/repository"
                None set).
  - by apply (vsce_tests_is_put_back W (R := unit) ext "/tmp/repository" "/tmp/repository"
                None unset).
Defined.

Example vsce_tests_left_as_text :
  let W := Sample.world (mkVsix None None) Sample.all_published Sample.everything_works []
             true in
  let ext := Sample.extension "redhat.java" None None in
  let unset := Sample.machine ∅ ∅ (Sample.fromRepo "/tmp/repository" "main" None) in
  env (@standardBuild W unit ext "/tmp/repository" "/tmp/repository" None unset).2
    !! "VSCE_TESTS" = Some "undefined".
Proof. reflexivity. Qed.

Lemma custom_build_looks_for_the_target_witness :
  let W := Sample.world (mkVsix None None) Sample.all_published Sample.everything_works []
             true in
  let ext := Extension.mk "rust-lang.rust-analyzer" None (Some ["npm ci"; "npm run package"])
               None None None None in
  let m := Sample.machine ∅ ∅ (Sample.fromRepo "/tmp/repository" "main" None) in
  (@customBuild W unit ext ["npm ci"; "npm run package"] "/tmp/repository"
     (Some "linux-x64") m).1
  = Throw (Error "After running the custom commands, no .vsix file was found for rust-lang.rust-analyzer@linux-x64").
Proof.
  intros W ext m.
  destruct (custom_build_looks_for_the_target W (R := unit) ext ["npm ci"; "npm run package"]
              "/tmp/repository" "linux-x64" m (ticks 2 m) eq_refl eq_refl) as [Hnone _].
  exact (Hnone eq_refl).
Defined.


(** ** Reading the XML manifest out of an archive *)

Module ZipFacts.
Import Zip.

Lemma listen_chunks chunks buffers rest :
  listen (map Data chunks ++ rest) buffers = listen rest (buffers ++ chunks).
Proof.
  revert buffers. induction chunks as [| chunk chunks IH]; intros buffers; simpl.
  - by rewrite app_nil_r.
  - rewrite IH. by rewrite <- app_assoc.
Qed.

(** X18.  [bufferStream] resolves with the chunks of the stream put together
    in the order they came, up to the first [end]; it rejects with the
    first error when that comes before the end; and for a stream that
    neither ends nor fails the promise never settles. *)
Theorem bufferStream_settles_once (chunks : list string) :
  (∀ rest, bufferStream (map Data chunks ++ End :: rest) = Some (Done (Buffer_concat chunks)))
  ∧ (∀ e rest, bufferStream (map Data chunks ++ Fault e :: rest) = Some (Failed e))
  ∧ bufferStream (map Data chunks) = None.
Proof.
  unfold bufferStream. repeat split.
  - intros rest. by rewrite listen_chunks.
  - intros e rest. by rewrite listen_chunks.
  - rewrite <- (app_nil_r (map Data chunks)). by rewrite listen_chunks.
Qed.

(** The loop does nothing to the archive but open the streams of entries
    that pass the filter. *)
Lemma readEntries_streamed filter zipfile result outcome done event :
  readEntries filter zipfile result = (outcome, done) →
  event ∈ done →
  ∃ name, event = Streamed name ∧ filter name = true ∧ name ∈ map filename zipfile.
Proof.
  revert result outcome done.
  induction zipfile as [| entry rest IH]; intros result outcome done; simpl.
  - intros [= <- <-] Hin. by apply elem_of_nil in Hin.
  - assert (∀ name, name ∈ map filename rest → name ∈ filename entry :: map filename rest)
      as Hright by (intros name Hin; apply elem_of_cons; by right).
    assert (filename entry ∈ filename entry :: map filename rest)
      as Hleft by (apply elem_of_cons; by left).
    destruct (filter (filename entry)) eqn:Hfilter.
    + destruct (openReadStream entry) as [stream | e];
        [| intros [= <- <-] Hin; by apply elem_of_nil in Hin].
      destruct (bufferStream stream) as [[buffer | e] |].
      * destruct (readEntries filter rest _) as [outcome' done'] eqn:Hrest.
        intros [= <- <-] [-> | Hin]%elem_of_cons; [by eexists |].
        destruct (IH _ _ _ Hrest Hin) as (name & -> & Hf & Hname). eauto.
      * intros [= <- <-] ->%list_elem_of_singleton. by eexists.
      * intros [= <- <-] ->%list_elem_of_singleton. by eexists.
    + intros Hrest Hin. destruct (IH _ _ _ Hrest Hin) as (name & -> & Hf & Hname). eauto.
Qed.

(** Every key of the map that the loop resolves with was there before or is
    the name of an entry that passes the filter. *)
Lemma readEntries_keys filter zipfile result final done name :
  readEntries filter zipfile result = (Some (Done final), done) →
  is_Some (final !! name) →
  is_Some (result !! name) ∨ (filter name = true ∧ name ∈ map filename zipfile).
Proof.
  revert result done.
  induction zipfile as [| entry rest IH]; intros result done; simpl.
  - intros [= <- <-]. by left.
  - destruct (filter (filename entry)) eqn:Hfilter.
    + destruct (openReadStream entry) as [stream | e]; [| done].
      destruct (bufferStream stream) as [[buffer | e] |]; [| done | done].
      destruct (readEntries filter rest _) as [outcome' done'] eqn:Hrest.
      intros [= -> <-] Hsome.
      destruct (IH _ _ Hrest Hsome) as [Hbefore | [Hf Hin]].
      * destruct (decide (filename entry = name)) as [<- | Hne].
        -- right. split; [done | apply elem_of_cons; by left].
        -- left. by rewrite lookup_insert_ne in Hbefore.
      * right. split; [done | apply elem_of_cons; by right].
    + intros Hrest Hsome. destruct (IH _ _ Hrest Hsome) as [Hbefore | [Hf Hin]]; [by left |].
      right. split; [done | apply elem_of_cons; by right].
Qed.

(** X19.  When the archive has been opened and [readZip] settles, closing
    the archive is the last thing it did, also when reading an entry
    failed; it opened the stream of no entry that the filter rejects; and
    every key of the map it resolves with is the name of an entry that the
    filter accepts. *)
Theorem readZip_closes_and_filters zipfile filter settled done :
  readZip (Done zipfile) filter = (Some settled, done) →
  last done = Some Closed
  ∧ (∀ name, Streamed name ∈ done → filter name = true ∧ name ∈ map filename (entries zipfile))
  ∧ ∀ result name, settled = Done result → is_Some (result !! name) →
      filter name = true ∧ name ∈ map filename (entries zipfile).
Proof.
  unfold readZip.
  destruct (readEntries filter (entries zipfile) ∅) as [outcome done'] eqn:Hloop.
  destruct outcome as [read |]; [| done].
  assert (∀ name, Streamed name ∈ done' ++ [Closed] →
                  filter name = true ∧ name ∈ map filename (entries zipfile)) as Hall.
  { intros name [Hin | Hin]%elem_of_app; [| by apply list_elem_of_singleton in Hin].
    by destruct (readEntries_streamed _ _ _ _ _ _ Hloop Hin) as (name' & [= <-] & Hf & Hname). }
  destruct (close zipfile) as [[] | e]; intros [= <- <-];
    (split; [apply last_snoc |]); (split; [exact Hall |]).
  - intros result name -> Hsome.
    destruct (readEntries_keys _ _ _ _ _ _ Hloop Hsome) as [Hempty | Hkey]; [| done].
    rewrite lookup_empty in Hempty. by destruct Hempty.
  - by intros result name [= ].
Qed.
Lemma readEntries_rejected filter zipfile result :
  Forall (λ entry, filter (filename entry) = false) zipfile →
  readEntries filter zipfile result = (Some (Done result), []).
Proof.
  induction 1 as [| entry rest Hentry _ IH]; simpl; [done |]. by rewrite Hentry.
Qed.

Lemma readEntries_app filter first second result between done :
  readEntries filter first result = (Some (Done between), done) →
  readEntries filter (first ++ second) result
  = ((readEntries filter second between).1, done ++ (readEntries filter second between).2).
Proof.
  revert result done. induction first as [| entry rest IH]; intros result done; simpl.
  - intros [= <- <-]. by destruct (readEntries filter second result).
  - destruct (filter (filename entry)); [| apply IH].
    destruct (openReadStream entry) as [stream | e]; [| done].
    destruct (bufferStream stream) as [[buffer | e] |]; [| done | done].
    destruct (readEntries filter rest _) as [outcome' done'] eqn:Hrest.
    intros [= -> <-]. by rewrite (IH _ _ Hrest).
Qed.

Lemma readEntries_readable filter zipfile result :
  Forall (λ entry, filter (filename entry) = true →
            ∃ stream buffer, openReadStream entry = Done stream
              ∧ bufferStream stream = Some (Done buffer)) zipfile →
  ∃ between done, readEntries filter zipfile result = (Some (Done between), done).
Proof.
  intros Hall. revert result.
  induction Hall as [| entry rest Hentry _ IH]; intros result; simpl; [by eexists _, _ |].
  destruct (filter (filename entry)); [| apply IH].
  destruct (Hentry eq_refl) as (stream & buffer & -> & ->).
  destruct (IH (<[filename entry := buffer]> result)) as (between & done & ->).
  by eexists _, _.
Qed.

Lemma eqb_fileName_false name : name ≠ fileName → String.eqb name fileName = false.
Proof. intros Hne. by apply String.eqb_neq. Qed.

(** X20.  An archive without an entry named [extension.vsixmanifest]:
    [readXmlManifest] resolves with [undefined], whatever the parser would
    do, having opened no stream and closed the archive. *)
Theorem archive_without_manifest zipfile parse :
  close zipfile = Done tt →
  Forall (λ entry, filename entry ≠ fileName) (entries zipfile) →
  readXmlManifest parse (Done zipfile) = (Some (Done None), [Closed]).
Proof.
  intros Hclose Hnone. unfold readXmlManifest, readZip.
  rewrite readEntries_rejected, Hclose; [done |].
  eapply Forall_impl; [exact Hnone |]. intros entry. apply eqb_fileName_false.
Qed.

(** X21.  When several entries of the archive are named
    [extension.vsixmanifest] and their streams are read, the last one is
    the one that is parsed: the outcome is that of the parser on its
    content. *)
Theorem last_manifest_entry_is_parsed zipfile parse before entry after stream rawFile :
  entries zipfile = before ++ entry :: after →
  filename entry = fileName →
  Forall (λ other, filename other ≠ fileName) after →
  Forall (λ other, filename other = fileName →
            ∃ stream buffer, openReadStream other = Done stream
              ∧ bufferStream stream = Some (Done buffer)) before →
  openReadStream entry = Done stream →
  bufferStream stream = Some (Done rawFile) →
  close zipfile = Done tt →
  (readXmlManifest parse (Done zipfile)).1
  = Some (match parse rawFile with
          | Done xml => Done (Some xml)
          | Failed e => Failed e
          end).
Proof.
  intros Hentries Hname Hafter Hbefore Hopen Hbuffer Hclose.
  unfold readXmlManifest, readZip. rewrite Hentries.
  destruct (readEntries_readable (λ name, String.eqb name fileName) before ∅)
    as (between & done & Hfirst).
  { eapply Forall_impl; [exact Hbefore |]. intros other Hother Heq.
    apply Hother. by apply String.eqb_eq. }
  rewrite (readEntries_app _ _ _ _ _ _ Hfirst). simpl.
  rewrite Hname, String.eqb_refl, Hopen, Hbuffer.
  rewrite readEntries_rejected
    by (eapply Forall_impl; [exact Hafter |]; intros other; apply eqb_fileName_false).
  simpl. rewrite Hclose. simpl. rewrite lookup_insert_eq.
  by destruct (parse rawFile).
Qed.
End ZipFacts.

Lemma readZip_closes_and_filters_witness :
  let broken := Rejected (VObject "Error: invalid stored block lengths") in
  let zipfile :=
    Zip.mkZipfile
      [Zip.mkEntry "extension/package.json" (Done [Zip.Data "{}"; Zip.End]);
       Zip.mkEntry "extension.vsixmanifest"
         (Done [Zip.Data "<PackageManifest"; Zip.Fault broken])]
      (Done tt) in
  let filter := λ name, String.eqb name Zip.fileName in
  let done := [Zip.Streamed "extension.vsixmanifest"; Zip.Closed] in
  Zip.readZip (Done zipfile) filter = (Some (Failed broken), done)
  ∧ last done = Some Zip.Closed
  ∧ ∀ name, Zip.Streamed name ∈ done →
      filter name = true ∧ name ∈ map Zip.filename (Zip.entries zipfile).
Proof.
  intros broken zipfile filter done. split; [reflexivity |].
  destruct (ZipFacts.readZip_closes_and_filters zipfile filter (Failed broken) done eq_refl)
    as (Hlast & Hstreamed & _).
  split; assumption.
Defined.

Lemma archive_without_manifest_witness :
  let zipfile :=
    Zip.mkZipfile
      [Zip.mkEntry "extension/package.json" (Done [Zip.Data "{}"; Zip.End]);
       Zip.mkEntry "[Content_Types].xml" (Failed (Rejected (VObject "Error: not opened")))]
      (Done tt) in
  Zip.readXmlManifest (λ _, Failed (Rejected (VObject "Error: not parsed"))) (Done zipfile)
  = (Some (Done None), [Zip.Closed]).
Proof.
  intros zipfile. apply ZipFacts.archive_without_manifest; [reflexivity |].
  repeat constructor; discriminate.
Defined.

Lemma last_manifest_entry_is_parsed_witness :
  let parse := λ text : string,
    Done (Sample.xml (if String.eqb text "<second/>" then "redhat" else "other") "java"
            "1.2.3" None) in
  let first := Zip.mkEntry "extension.vsixmanifest" (Done [Zip.Data "<first/>"; Zip.End]) in
  let second :=
    Zip.mkEntry "extension.vsixmanifest" (Done [Zip.Data "<sec"; Zip.Data "ond/>"; Zip.End]) in
  let other := Zip.mkEntry "extension/package.json" (Done [Zip.Data "{}"; Zip.End]) in
  (Zip.readXmlManifest parse (Done (Zip.mkZipfile [first; second; other] (Done tt)))).1
  = Some (Done (Some (Sample.xml "redhat" "java" "1.2.3" None))).
Proof.
  intros parse first second other.
  rewrite (ZipFacts.last_manifest_entry_is_parsed
             (Zip.mkZipfile [first; second; other] (Done tt)) parse [first] second [other]
             [Zip.Data "<sec"; Zip.Data "ond/>"; Zip.End] "<second/>" eq_refl eq_refl).
  - reflexivity.
  - repeat constructor. discriminate.
  - repeat constructor. intros _. eexists _, _. split; reflexivity.
  - reflexivity.
  - reflexivity.
  - reflexivity.
Defined.


(** ** The environment variables of a target *)

Lemma buildEnvironment_quiet : Quiet buildEnvironment.
Proof. by split. Qed.

Lemma environments_quiet : Quiet environments.
Proof. by split. Qed.

Ltac environments_side :=
  first
    [ reflexivity
    | unfold environments, with_console; simpl; rewrite omap_app; simpl;
      by rewrite app_nil_r ].

Section Environments.
Context (W : World) (K : Constants).

Lemma guarded_buildEnvironment ext :
  keeps buildEnvironment
    (try_finally (try_catch (tryBody W K ext) (catchClause ext)) (cleanUp W K ext)).
Proof.
  unfold tryBody, prepare, ensureBuildPrerequisites, readPackage, resolveVersion, acquire,
    buildFromSource, pinRuntimes, customBuild, standardBuild, install, gates, laterGates, versionGate,
    licenseGate, dependencyGate, finalize, catchClause, cleanUp.
  keeps_steps buildEnvironment_quiet context_side;
    apply dependenciesNotOnOpenVsx_keeps, buildEnvironment_quiet.
Qed.

Lemma guarded_environments ext :
  keeps environments
    (try_finally (try_catch (tryBody W K ext) (catchClause ext)) (cleanUp W K ext)).
Proof.
  unfold tryBody, prepare, ensureBuildPrerequisites, readPackage, resolveVersion, acquire,
    buildFromSource, pinRuntimes, customBuild, standardBuild, install, gates, laterGates, versionGate,
    licenseGate, dependencyGate, finalize, catchClause, cleanUp.
  keeps_steps environments_quiet environments_side;
    apply dependenciesNotOnOpenVsx_keeps, environments_quiet.
Qed.

Lemma buildVersion_environments {R} ext m :
  environments (@buildVersion W K R ext m).2
  = environments m ++ [(PublishContext.target (context m), buildEnvironment m)]
  ∧ buildEnvironment (@buildVersion W K R ext m).2 = buildEnvironment m.
Proof.
  unfold buildVersion. rewrite (bind_normal _ _ m tt (announce ext m)) by done.
  rewrite (keeps_function environments _ (guarded_environments ext)).
  rewrite (keeps_function buildEnvironment _ (guarded_buildEnvironment ext)).
  split; [| done].
  unfold environments, announce, with_console. simpl.
  rewrite !omap_app. simpl. by rewrite app_nil_r.
Qed.

(** Targets given as [true] after the environment [env] has been stored. *)
Lemma buildTargets_plain {R} ext entries allOptions m :
  cleanUpSucceeds W K ext →
  Forall (λ entry, entry.2 = TargetTrue) entries →
  environments (@buildTargets W K R ext entries allOptions m).2
  = environments m ++ map (λ entry, (Some entry.1, buildEnvironment m)) entries.
Proof.
  intros Hclean Hplain. revert allOptions m.
  induction Hplain as [| [target data] rest Hdata _ IH]; intros allOptions m; simpl.
  - by rewrite app_nil_r.
  - simpl in Hdata. subst data.
    set (m1 := with_context (PublishContext.set_target (Some target)) m).
    rewrite (bind_normal _ _ m tt m1) by done.
    rewrite (bind_normal _ _ m1 tt m1) by done.
    destruct (buildVersion_completes W K (R := R) ext m1 Hclean) as [options Hdone].
    destruct (buildVersion_environments (R := R) ext m1) as [Hlog Henv].
    destruct (buildVersion W K ext m1) as [c m2] eqn:Hrun. simpl in Hdone, Hlog, Henv. subst c.
    rewrite (bind_normal _ _ m1 options m2) by done.
    rewrite IH, Hlog, Henv. by rewrite <- app_assoc.
Qed.

Lemma buildTargets_environments_app {R} ext before after allOptions m :
  cleanUpSucceeds W K ext →
  ∃ between m1,
    @buildTargets W K R ext before allOptions m = (Normal between, m1)
    ∧ @buildTargets W K R ext (before ++ after) allOptions m
      = @buildTargets W K R ext after between m1
    ∧ ∃ earlier, environments m1 = environments m ++ earlier ∧ length earlier = length before.
Proof.
  intros Hclean. revert allOptions m.
  induction before as [| [target data] rest IH]; intros allOptions m; simpl.
  - exists allOptions, m. repeat split. exists []. by rewrite app_nil_r.
  - set (m1 := with_context (PublishContext.set_target (Some target)) m).
    rewrite !(bind_normal _ _ m tt m1) by done.
    set (m2 := match data with
               | TargetTrue => m1
               | TargetObject env =>
                   with_context (PublishContext.set_environmentVariables env) m1
               end).
    rewrite !(bind_normal _ _ m1 tt m2) by (by destruct data).
    destruct (buildVersion_completes W K (R := R) ext m2 Hclean) as [options Hdone].
    destruct (buildVersion_environments (R := R) ext m2) as [Hlog _].
    destruct (buildVersion W K ext m2) as [c m3] eqn:Hrun. simpl in Hdone, Hlog. subst c.
    rewrite !(bind_normal _ _ m2 options m3) by done.
    destruct (IH (push options allOptions) m3) as (between & m4 & Hfirst & Hrest & earlier & Hlog' & Hlen).
    exists between, m4. repeat split; [done | done |].
    eexists (_ :: earlier). split; [| by rewrite <- Hlen].
    rewrite Hlog', Hlog.
    assert (environments m2 = environments m) as -> by (by destruct data).
    by rewrite <- app_assoc.
Qed.

(** X22.  The environment variables of a target stay in the shared context:
    a target given as an object stores its [env], and every following
    target given as [true] is built with those same variables, since the
    loop resets nothing. *)
Theorem environment_variables_linger {R} ext before target env after allOptions m :
  cleanUpSucceeds W K ext →
  Forall (λ entry, entry.2 = TargetTrue) after →
  ∃ earlier,
    length earlier = length before
    ∧ environments
        (@buildTargets W K R ext (before ++ (target, TargetObject env) :: after) allOptions m).2
      = environments m ++ earlier
        ++ (Some target, env) :: map (λ entry, (Some entry.1, env)) after.
Proof.
  intros Hclean Hplain.
  destruct (buildTargets_environments_app (R := R) ext before
              ((target, TargetObject env) :: after) allOptions m Hclean)
    as (between & m1 & _ & -> & earlier & Hlog & Hlen).
  exists earlier. split; [done |]. simpl.
  set (m2 := with_context (PublishContext.set_target (Some target)) m1).
  rewrite (bind_normal _ _ m1 tt m2) by done.
  set (m3 := with_context (PublishContext.set_environmentVariables env) m2).
  rewrite (bind_normal _ _ m2 tt m3) by done.
  destruct (buildVersion_completes W K (R := R) ext m3 Hclean) as [options Hdone].
  destruct (buildVersion_environments (R := R) ext m3) as [Hlog3 Henv3].
  destruct (buildVersion W K ext m3) as [c m4] eqn:Hrun. simpl in Hdone, Hlog3, Henv3. subst c.
  rewrite (bind_normal _ _ m3 options m4) by done.
  rewrite (buildTargets_plain ext after _ m4 Hclean Hplain), Hlog3, Henv3.
  change (environments m3) with (environments m1). rewrite Hlog.
  change (buildEnvironment m3) with env.
  change (PublishContext.target (context m3)) with (Some target).
  by rewrite <- !app_assoc.
Qed.
End Environments.

Lemma environment_variables_linger_witness :
  let pkg := Sample.package "ms-vscode.cpptools" "cpptools" "1.2.3" (Some "MIT") None in
  let W := Sample.world pkg Sample.nothing_published Sample.everything_works [] true in
  let K := Sample.constants [] in
  let env := Some [("CC", "musl-gcc")] in
  let before := [("linux-x64", TargetTrue)] in
  let after := [("darwin-arm64", TargetTrue)] in
  let ext := Sample.extension "ms-vscode.cpptools" None
               (Some (before ++ ("alpine-x64", TargetObject env) :: after)) in
  let m := Sample.machine ∅ ∅
             (PublishContext.mk None None None None None None None (Raw None) None
                (Raw None) None) in
  ∃ earlier,
    length earlier = 1
    ∧ environments
        (@buildTargets W K unit ext (before ++ ("alpine-x64", TargetObject env) :: after) [] m).2
      = earlier ++ [(Some "alpine-x64", env); (Some "darwin-arm64", env)].
Proof.
  intros pkg W K env before after ext m.
  apply (environment_variables_linger W K (R := unit) ext before "alpine-x64" env after [] m).
  - left. reflexivity.
  - repeat constructor.
Defined.

Example environment_variables_of_three_targets :
  let pkg := Sample.package "ms-vscode.cpptools" "cpptools" "1.2.3" (Some "MIT") None in
  let W := Sample.world pkg Sample.nothing_published Sample.everything_works [] true in
  let K := Sample.constants [] in
  let env := Some [("CC", "musl-gcc")] in
  let targets := [("linux-x64", TargetTrue); ("alpine-x64", TargetObject env);
                  ("darwin-arm64", TargetTrue)] in
  let ext := Sample.extension "ms-vscode.cpptools" None (Some targets) in
  let m := Sample.machine ∅ ∅
             (PublishContext.mk None None None None None None None (Raw None) None
                (Raw None) None) in
  environments (@buildTargets W K unit ext targets [] m).2
  = [(Some "linux-x64", None); (Some "alpine-x64", env); (Some "darwin-arm64", env)].
Proof. vm_compute. reflexivity. Qed.


(** ** The files handed to the publish step *)

Section Produced.
Context (W : World) (K : Constants).

Lemma produced_refl ext allOptions m : produced W K ext allOptions m allOptions m.
Proof. exists [], [], []. by rewrite !app_nil_r. Qed.

Lemma produced_trans ext all0 m0 all1 m1 all2 m2 :
  produced W K ext all0 m0 all1 m1 → produced W K ext all1 m1 all2 m2 →
  produced W K ext all0 m0 all2 m2.
Proof.
  intros (new1 & built1 & added1 & Hatt1 & Hsub1 & -> & Hfiles1)
         (new2 & built2 & added2 & Hatt2 & Hsub2 & -> & Hfiles2).
  exists (new1 ++ new2), (built1 ++ built2), (added1 ++ added2).
  rewrite Hatt2, Hatt1, !map_app, Hfiles1, Hfiles2, <- !app_assoc.
  repeat split. by apply sublist_app.
Qed.

Lemma produced_attempts ext allOptions m m' :
  attempts m' = attempts m → produced W K ext allOptions m allOptions m'.
Proof. intros Hatt. exists [], [], []. by rewrite !app_nil_r. Qed.

Lemma buildVersion_produced {R} ext allOptions m options m' :
  @buildVersion W K R ext m = (Normal options, m') →
  produced W K ext allOptions m (push options allOptions) m'.
Proof.
  intros Hrun. pose proof (buildVersion_attempts W K (R := R) ext m) as Hatt.
  rewrite Hrun in Hatt. simpl in Hatt.
  destruct options as [o |]; simpl.
  - exists [buildTarget m], [buildTarget m], [o].
    split; [done |]. split; [done |]. split; [done |]. simpl. f_equal.
    destruct (buildVersion_Some_inv W K (R := R) ext m o) as (m1 & Hbody & _);
      [by rewrite Hrun |].
    by destruct (tryBody_Return_inv W K ext (announce ext m) o m1 Hbody) as [-> _].
  - exists [buildTarget m], [], []. rewrite app_nil_r.
    split; [done |]. split; [apply sublist_nil_l | done].
Qed.

Lemma buildFiles_produced {R} ext entries allOptions m all m' :
  @buildFiles W K R ext entries allOptions m = (Normal all, m') →
  produced W K ext allOptions m all m'.
Proof.
  revert allOptions m. induction entries as [| [target file] rest IH]; intros allOptions m; simpl.
  - intros [= <- <-]. apply produced_refl.
  - destruct (match Extension.target ext with | Some _ => _ | None => _ end).
    + intros Hrun.
      apply bind_Normal_inv in Hrun as ([] & m1 & [= <-] & Hrun).
      apply bind_Normal_inv in Hrun as ([] & m2 & [= <-] & Hrun).
      apply bind_Normal_inv in Hrun as (options & m3 & Hbuild & Hrun).
      eapply produced_trans; [| apply (IH _ _ Hrun)].
      eapply produced_trans; [| apply (buildVersion_produced _ _ _ _ _ Hbuild)].
      by apply produced_attempts.
    + intros Hrun.
      apply bind_Normal_inv in Hrun as ([] & m1 & [= <-] & Hrun).
      eapply produced_trans; [| apply (IH _ _ Hrun)].
      apply produced_attempts. unfold attempts. simpl. rewrite omap_app. simpl.
      by rewrite app_nil_r.
Qed.

Lemma buildTargets_produced {R} ext entries allOptions m all m' :
  @buildTargets W K R ext entries allOptions m = (Normal all, m') →
  produced W K ext allOptions m all m'.
Proof.
  revert allOptions m. induction entries as [| [target data] rest IH]; intros allOptions m; simpl.
  - intros [= <- <-]. apply produced_refl.
  - intros Hrun.
    apply bind_Normal_inv in Hrun as ([] & m1 & [= <-] & Hrun).
    apply bind_Normal_inv in Hrun as ([] & m2 & Hdata & Hrun).
    apply bind_Normal_inv in Hrun as (options & m3 & Hbuild & Hrun).
    eapply produced_trans; [| apply (IH _ _ Hrun)].
    eapply produced_trans; [| apply (buildVersion_produced _ _ _ _ _ Hbuild)].
    apply produced_attempts. by destruct data; injection Hdata as <-.
Qed.

Lemma extensionFiles_artifacts ext added built :
  map Options.extensionFile added
  = map (λ target, Some (artifactPath W K ext target)) built →
  ∃ kept, sublist kept built ∧ extensionFiles added = map (artifactPath W K ext) kept.
Proof.
  revert built. induction added as [| o added IH]; intros [| target built]; simpl; try done.
  - intros _. by exists [].
  - intros [= Hfile Hrest]. destruct (IH built Hrest) as (kept & Hsub & Hkept).
    unfold extensionFiles in *. simpl. rewrite Hfile.
    destruct (JsString.truthy (artifactPath W K ext target)).
    + exists (target :: kept). split; [by apply sublist_skip |]. simpl. by rewrite Hkept.
    + exists kept. split; [by apply sublist_cons |]. done.
Qed.

(** X23.  The files that [module.exports] of the build script returns are
    artifacts of this run: in order, the artifact paths of some of the
    targets whose build was announced during the call.  The path of a
    downloaded file or of an archive in the repository is handed on only
    as the copy made of it in the artifact directory. *)
Theorem returned_files_are_artifacts {R} ext m files :
  (@buildExtension W K R ext m).1 = Normal files →
  ∃ new built,
    attempts (@buildExtension W K R ext m).2 = attempts m ++ new
    ∧ sublist built new
    ∧ files = map (artifactPath W K ext) built.
Proof.
  intros Hrun. destruct (buildExtension W K ext m) as [c final] eqn:Hall. simpl in Hrun. subst c.
  unfold buildExtension in Hall.
  apply bind_Normal_inv in Hall as ([] & m1 & [= <-] & Hall).
  apply bind_Normal_inv in Hall as (ctx & m2 & [= <- <-] & Hall).
  apply bind_Normal_inv in Hall as (all & m3 & Hloop & [= <- <-]).
  assert (produced W K ext [] (with_context PublishContext.set_dates m) all m3)
    as (new & built & added & Hatt & Hsub & -> & Hfiles).
  { destruct (PublishContext.files _) as [listed |].
    - by apply buildFiles_produced in Hloop.
    - destruct (Extension.target ext) as [targets |].
      + by apply buildTargets_produced in Hloop.
      + apply bind_Normal_inv in Hloop as (options & m4 & Hbuild & [= <- <-]).
        apply (buildVersion_produced _ _ _ _ _ Hbuild). }
  destruct (extensionFiles_artifacts ext added built Hfiles) as (kept & Hkept & Heq).
  exists new, kept. simpl. split; [done |]. split; [by etrans | done].
Qed.
End Produced.

Lemma returned_files_are_artifacts_witness :
  let pkg := Sample.package "redhat" "java" "1.2.3" (Some "EPL-2.0") None in
  let W := Sample.world pkg Sample.all_published Sample.everything_works [] true in
  let K := Sample.constants [] in
  let ext := Sample.extension "redhat.java" None None in
  let listed := [("linux-x64", "/tmp/download/java-linux-x64.vsix");
                 ("darwin-arm64", "/tmp/download/java-darwin-arm64.vsix")] in
  let m := Sample.machine ∅ ∅
             (PublishContext.mk None None None (Some listed) None None None (Raw None)
                (Some "1.2.0") (Raw None) None) in
  let files := ["/tmp/artifacts/redhat.java@linux-x64.vsix";
                "/tmp/artifacts/redhat.java@darwin-arm64.vsix"] in
  ∃ new built,
    attempts (@buildExtension W K unit ext m).2 = attempts m ++ new
    ∧ sublist built new
    ∧ files = map (artifactPath W K ext) built.
Proof.
  intros pkg W K ext listed m files.
  apply (returned_files_are_artifacts W K (R := unit) ext m files).
  vm_compute. reflexivity.
Defined.


(** ** The variables exported to the build commands *)

Lemma exported_quiet : Quiet exported.
Proof. by split. Qed.

Ltac exported_side :=
  first
    [ reflexivity
    | unfold exported, with_env; simpl; rewrite !lookup_insert_ne by done; reflexivity ].

Section Exported.
Context (W : World) (K : Constants).

Lemma cleanUp_exported {R} ext : keeps exported (cleanUp W K ext : Js R unit).
Proof. unfold cleanUp. keeps_steps exported_quiet exported_side. Qed.

Lemma ensureBuildPrerequisites_exported {R} :
  keeps exported (ensureBuildPrerequisites W K : Js R unit).
Proof. unfold ensureBuildPrerequisites. keeps_steps exported_quiet exported_side. Qed.

Lemma readPackage_exported {R} options : keeps exported (readPackage W options : Js R _).
Proof. unfold readPackage. keeps_steps exported_quiet exported_side. Qed.

Lemma resolveVersion_exported {R} ext pkg : keeps exported (resolveVersion ext pkg : Js R _).
Proof. unfold resolveVersion. keeps_steps exported_quiet exported_side. Qed.

Lemma gates_exported ext pkgPath options pkg version :
  keeps exported (gates W K ext pkgPath options pkg version).
Proof.
  unfold gates, laterGates, versionGate, licenseGate, dependencyGate, finalize.
  keeps_steps exported_quiet exported_side;
    apply dependenciesNotOnOpenVsx_keeps, exported_quiet.
Qed.

(** What lines 87-92 store, read from the context the build began with. *)
Lemma buildFromSource_exported {R} ext repo ref m o m' :
  @buildFromSource W R ext repo ref m = (Normal o, m') →
  exported m'
  = [Some (Extension.id ext);
     Some (JsString.show (JsString.split_dot (Extension.id ext) !! 0%nat));
     Some (JsString.show (JsString.split_dot (Extension.id ext) !! 1%nat));
     Some (JsString.show (PublishContext.version (context m)));
     Some (JsString.show (PublishContext.msVersion (context m)));
     Some (JsString.show (PublishContext.ovsxVersion (context m)))].
Proof.
  unfold buildFromSource. intros Hrun.
  apply bind_Normal_inv in Hrun as (ctx & m1 & [= <- <-] & Hrun).
  apply bind_Normal_inv in Hrun as ([] & m2 & _ & Hrun).
  apply bind_Normal_inv in Hrun as ([] & m3 & _ & Hrun).
  apply bind_Normal_inv in Hrun as ([] & m4 & _ & Hrun).
  cbv zeta in Hrun.
  apply bind_Normal_inv in Hrun as ([] & m5 & [= <-] & Hrun).
  apply bind_Normal_inv in Hrun as ([] & m6 & [= <-] & Hrun).
  apply bind_Normal_inv in Hrun as ([] & m7 & [= <-] & Hrun).
  apply bind_Normal_inv in Hrun as ([] & m8 & [= <-] & Hrun).
  apply bind_Normal_inv in Hrun as ([] & m9 & [= <-] & Hrun).
  apply bind_Normal_inv in Hrun as ([] & m10 & [= <-] & Hrun).
  match type of Hrun with
  | ?rest ?from = _ =>
      assert (keeps exported rest) as Hkeeps;
      [| specialize (Hkeeps from); rewrite Hrun in Hkeeps; simpl in Hkeeps; rewrite Hkeeps ]
  end.
  { unfold pinRuntimes, customBuild, standardBuild, install.
    keeps_steps exported_quiet exported_side. }
  unfold exported, with_env. simpl.
  by repeat (rewrite lookup_insert_eq || rewrite lookup_insert_ne by done).
Qed.

Lemma acquire_from_source {R} ext m o m' :
  JsString.truthy_opt (PublishContext.file (context m)) = false →
  @acquire W R ext m = (Normal (Some o), m') →
  ∃ repo ref, @buildFromSource W R ext repo ref m = (Normal o, m').
Proof.
  intros Hfile. unfold acquire.
  rewrite (bind_normal _ _ m (context m) m) by done. rewrite Hfile.
  destruct (PublishContext.repo (context m)) as [repo |]; [| done].
  destruct (PublishContext.ref (context m)) as [ref |]; [| done].
  destruct (JsString.truthy repo && JsString.truthy ref); [| done].
  unfold fmap, Js_fmap. intros Hrun.
  apply bind_Normal_inv in Hrun as (o' & m1 & Hrun & [= <- <-]). eauto.
Qed.

Lemma tryBody_exported ext m final m' :
  JsString.truthy_opt (PublishContext.file (context m)) = false →
  tryBody W K ext m = (Return (Some final), m') →
  exported m'
  = [Some (Extension.id ext);
     Some (JsString.show (JsString.split_dot (Extension.id ext) !! 0%nat));
     Some (JsString.show (JsString.split_dot (Extension.id ext) !! 1%nat));
     Some (JsString.show (PublishContext.version (context m)));
     Some (JsString.show (PublishContext.msVersion (context m)));
     Some (JsString.show (PublishContext.ovsxVersion (context m)))].
Proof.
  intros Hnofile Hbody. unfold tryBody in Hbody.
  apply bind_Return_inv in Hbody
    as [Hret | ([[[pkgPath options] pkg] version] & m1 & Hprep & Hgates)];
    [by apply prepare_fallsThrough in Hret |].
  pose proof (gates_exported ext pkgPath options pkg version m1) as Hkeep.
  rewrite Hgates in Hkeep. simpl in Hkeep. rewrite Hkeep. clear Hkeep Hgates.
  unfold prepare in Hprep.
  apply bind_Normal_inv in Hprep as ([] & ma & Hpre & Hprep).
  apply bind_Normal_inv in Hprep as (ctx & mb & [= <- <-] & Hprep).
  apply bind_Normal_inv in Hprep as (options' & mc & Hacquire & Hprep).
  apply bind_Normal_inv in Hprep as (pkg' & md & Hread & Hprep).
  apply bind_Normal_inv in Hprep as (version' & me & Hresolve & Hprep).
  injection Hprep as _ <- <- <- <-.
  pose proof (resolveVersion_exported (R := option Options.t) ext pkg' md) as Hkeep.
  rewrite Hresolve in Hkeep. simpl in Hkeep. rewrite Hkeep. clear Hkeep.
  pose proof (readPackage_exported (R := option Options.t) options' mc) as Hkeep.
  rewrite Hread in Hkeep. simpl in Hkeep. rewrite Hkeep. clear Hkeep.
  apply readPackage_Normal_inv in Hread as (o & file & -> & _).
  assert (context ma = context m) as Hctx.
  { assert (keeps context (ensureBuildPrerequisites W K (R := option Options.t))) as Hk.
    { unfold ensureBuildPrerequisites. keeps_steps context_quiet context_side. }
    specialize (Hk m). by rewrite Hpre in Hk. }
  destruct (acquire_from_source (R := option Options.t) ext ma o mc) as (repo & ref & Hsource);
    [by rewrite Hctx | done |].
  rewrite (buildFromSource_exported (R := option Options.t) ext repo ref ma o mc Hsource). by rewrite Hctx.
Qed.

(** X24.  A build from source that succeeds leaves the variables of lines
    87-92 in the environment of the process.  [VERSION] holds the version
    the context carried when the build began, which the build itself
    resolves only later (line 211): for a context without one it is the
    text [undefined], while the context ends with the resolved version. *)
Theorem exported_version_is_the_old_one {R} ext m o :
  JsString.truthy_opt (PublishContext.file (context m)) = false →
  (@buildVersion W K R ext m).1 = Normal (Some o) →
  let after := (@buildVersion W K R ext m).2 in
  env after !! "EXTENSION_ID" = Some (Extension.id ext)
  ∧ env after !! "VERSION" = Some (JsString.show (PublishContext.version (context m)))
  ∧ env after !! "MS_VERSION" = Some (JsString.show (PublishContext.msVersion (context m)))
  ∧ env after !! "OVSX_VERSION" = Some (JsString.show (PublishContext.ovsxVersion (context m)))
  ∧ JsString.truthy_opt (PublishContext.version (context after)) = true.
Proof.
  intros Hnofile Hsome after.
  destruct (buildVersion_Some_inv W K ext m o Hsome) as (m1 & Hbody & _ & Hctx & _).
  destruct (tryBody_Return_inv W K ext (announce ext m) o m1 Hbody) as (_ & _ & Hversion).
  pose proof (tryBody_exported ext (announce ext m) o m1 Hnofile Hbody) as Hexported.
  assert (exported after = exported m1) as Hafter.
  { subst after. revert Hsome. unfold buildVersion.
    rewrite (bind_normal _ _ m tt (announce ext m)) by done.
    unfold function, try_finally, try_catch. rewrite Hbody.
    pose proof (cleanUp_exported (R := option Options.t) ext m1) as Hkeep.
    by destruct (cleanUp W K ext m1) as [[[] | r | e] m2]. }
  rewrite <- Hafter in Hexported. unfold exported in Hexported. simpl in Hexported.
  injection Hexported as Hid _ _ Hv Hms Hovsx.
  subst after. by rewrite Hctx.
Qed.
End Exported.

Lemma exported_version_is_the_old_one_witness :
  let pkg := Sample.package "redhat" "java" "1.2.3" (Some "EPL-2.0") None in
  let W := Sample.world pkg Sample.all_published Sample.everything_works [] true in
  let K := Sample.constants [] in
  let ext := Sample.extension "redhat.java" None None in
  let m := Sample.machine ∅ ∅ (Sample.fromRepo "/tmp/repository" "v1.2.3" (Some "1.2.0")) in
  env (@buildVersion W K unit ext m).2 !! "VERSION" = Some "undefined"
  ∧ env (@buildVersion W K unit ext m).2 !! "OVSX_VERSION" = Some "1.2.0"
  ∧ JsString.truthy_opt (PublishContext.version (context (@buildVersion W K unit ext m).2))
    = true.
Proof.
  intros pkg W K ext m.
  assert ((@buildVersion W K unit ext m).1
          = Normal (Some (Options.mk (Some "/tmp/artifacts/redhat.java.vsix") None false)))
    as Hsome by (vm_compute; reflexivity).
  destruct (exported_version_is_the_old_one W K (R := unit) ext m _ eq_refl Hsome)
    as (_ & Hversion & _ & Hovsx & Hresolved).
  split; [exact Hversion |]. split; [exact Hovsx | exact Hresolved].
Defined.
